(** * A shallow embedding of the Mail.ru cloud client (package [mailrucloud])

    The development follows the Go sources: value types ([Size], [Rate],
    [History], the DTO [CloudStructureEntry]), the account and its capacity
    predicate, the path helpers of the client, and the client operations
    themselves, written in a small state monad that threads the remote
    server, the clock and the log of the HTTP requests handed to the
    transport.  Definitions come first, theorems after them. *)

From Stdlib Require Import ZArith String List Lia Bool Ascii.
From Stdlib Require Import Floats.SpecFloat.
From Stdlib Require Import DecimalString.
Import ListNotations.

Open Scope string_scope.
Open Scope Z_scope.

(* ================================================================== *)
(** * Go strings

    A Go string is a sequence of bytes; [string] (a list of [ascii], i.e.
    of bytes) is exactly that.  The helpers below are the functions of
    packages [strings] and [path/filepath] that the client calls. *)

Module GoString.

Definition len (s : string) : Z := Z.of_nat (String.length s).

(** [s[lo:hi]] for in-range bounds. *)
Definition slice (s : string) (lo hi : Z) : string :=
  substring (Z.to_nat lo) (Z.to_nat (hi - lo)) s.

(** strings.HasPrefix *)
Definition HasPrefix (s pre : string) : bool := prefix pre s.

(** strings.HasSuffix: [len(s) >= len(suffix) && s[len(s)-len(suffix):] == suffix] *)
Definition HasSuffix (s suffix : string) : bool :=
  (len suffix <=? len s) &&
  String.eqb (slice s (len s - len suffix) (len s)) suffix.

(** strings.TrimSuffix *)
Definition TrimSuffix (s suffix : string) : string :=
  if HasSuffix s suffix then slice s 0 (len s - len suffix) else s.

(** strings.TrimPrefix *)
Definition TrimPrefix (s pre : string) : string :=
  if HasPrefix s pre then slice s (len pre) (len s) else s.

(** strings.LastIndex: the index of the last occurrence of [sub] in the
    string, or -1.  [LastIndex_from i s sub] scans the suffix [s] that
    starts at index [i] of the whole string. *)
Fixpoint LastIndex_from (i : Z) (s sub : string) : Z :=
  match s with
  | EmptyString => if String.eqb sub EmptyString then i else -1
  | String _ r =>
      let later := LastIndex_from (i + 1) r sub in
      if later =? -1 then (if prefix sub s then i else -1) else later
  end.

Definition LastIndex (s sub : string) : Z := LastIndex_from 0 s sub.

(** strings.Replace with the empty replacement and count 1, for a
    non-empty [old]: the first
    occurrence of [old] is cut out, the rest is kept. *)
Fixpoint ReplaceFirstWithEmpty (s old : string) : string :=
  match s with
  | EmptyString => EmptyString
  | String c r =>
      if prefix old s
      then slice s (len old) (len s)
      else String c (ReplaceFirstWithEmpty r old)
  end.

(** strings.Contains *)
Fixpoint Contains (s sub : string) : bool :=
  prefix sub s ||
  match s with
  | EmptyString => false
  | String _ r => Contains r sub
  end.

(** strings.Join *)
Definition Join (elems : list string) (sep : string) : string :=
  String.concat sep elems.

(** The verb [%d] of fmt.Sprintf on an integer. *)
Definition itoa (z : Z) : string := NilZero.string_of_int (Z.to_int z).

(** filepath.Base on a slash-separated path: trailing slashes are
    stripped, then everything up to the last slash; the empty path
    gives ".", a path of slashes only gives "/". *)
Fixpoint stripTrailingSlashes (fuel : nat) (s : string) : string :=
  match fuel with
  | O => s
  | S fuel' =>
      if (0 <? len s) && HasSuffix s "/"
      then stripTrailingSlashes fuel' (slice s 0 (len s - 1))
      else s
  end.

Definition Base (path : string) : string :=
  if String.eqb path EmptyString then "."
  else
    let p := stripTrailingSlashes (String.length path) path in
    let p := slice p (LastIndex p "/" + 1) (len p) in
    if String.eqb p EmptyString then "/" else p.

(** filepath.Ext: the suffix beginning at the final dot in the final
    slash-separated element of the path; empty if there is no dot. *)
Fixpoint Ext_from (s : string) : option string :=
  match s with
  | EmptyString => None
  | String c r =>
      match Ext_from r with
      | Some e => Some e
      | None =>
          if Ascii.eqb c "."%char then Some s
          else None
      end
  end.

Definition Ext (path : string) : string :=
  let last := slice path (LastIndex path "/" + 1) (len path) in
  match Ext_from last with
  | Some e => e
  | None => EmptyString
  end.

End GoString.

(* ================================================================== *)
(** * IEEE-754 binary64

    [float64] values are modelled by the specification floats of the
    standard library at precision 53 and maximal exponent 1024, with
    round-to-nearest-even arithmetic. *)

Module Float64.

Definition float64 : Type := spec_float.

Definition prec : Z := 53.
Definition emax : Z := 1024.

(** The conversion [float64(n)] of an integer. *)
Definition of_int (n : Z) : float64 := binary_normalize prec emax n 0 false.

Definition mul : float64 -> float64 -> float64 := SFmul prec emax.
Definition div : float64 -> float64 -> float64 := SFdiv prec emax.
Definition sub : float64 -> float64 -> float64 := SFsub prec emax.

(** The integral part of a finite float, rounded toward zero. *)
Definition trunc (f : float64) : Z :=
  match f with
  | S754_finite s m e =>
      let mag := if 0 <=? e then Z.pos m * 2 ^ e else Z.pos m / 2 ^ (- e) in
      if s then - mag else mag
  | _ => 0
  end.

(** The conversions [int(f)] and [int64(f)]: truncation toward zero.
    The language leaves the result open when the integral part does
    not fit; the value taken here is the one of the amd64 conversion
    instruction (the smallest int64). *)
Definition to_int64 (f : float64) : Z :=
  match f with
  | S754_finite _ _ _ | S754_zero _ =>
      let z := trunc f in
      if (- 2 ^ 63 <=? z) && (z <? 2 ^ 63) then z else - 2 ^ 63
  | _ => - 2 ^ 63
  end.

(** The literals of types.go. *)
Definition c1024 : float64 := of_int 1024.
Definition c100 : float64 := of_int 100.

End Float64.

(** Arithmetic on [int64] wraps around. *)
Definition wrap64 (z : Z) : Z := (z + 2 ^ 63) mod 2 ^ 64 - 2 ^ 63.


(* ================================================================== *)
(** * types.go: sizes *)

Inductive StorageUnit : Type :=
| StorageUnitByte
| StorageUnitKB
| StorageUnitMB
| StorageUnitGB
| StorageUnitTB.

Record Size : Type := mkSize {
  DefaultValue : Z;                      (* int64 *)
  NormalizedValue : Float64.float64;
  NormalizedType : StorageUnit
}.

(** [Size.setNormalizedValue]: the unit and the scaled magnitude are
    chosen by the chain of comparisons, then the magnitude is cut to two
    decimals through [int(v*100)]. *)
Definition setNormalizedValue (s : Size) : Size :=
  let d := DefaultValue s in
  let fd := Float64.of_int d in
  let k := Float64.c1024 in
  let '(ty, v) :=
    if d <? 1024 then
      (StorageUnitByte, fd)
    else if (1024 <=? d) && (d <? 1048576) then
      (StorageUnitKB, Float64.div fd k)
    else if (1048576 <=? d) && (d <? 1073741824) then
      (StorageUnitMB, Float64.div (Float64.div fd k) k)
    else if (1073741824 <=? d) && (d <? 1099511627776) then
      (StorageUnitGB, Float64.div (Float64.div (Float64.div fd k) k) k)
    else
      (StorageUnitTB,
       Float64.div (Float64.div (Float64.div (Float64.div fd k) k) k) k) in
  let v' :=
    Float64.div
      (Float64.of_int (Float64.to_int64 (Float64.mul v Float64.c100)))
      Float64.c100 in
  {| DefaultValue := d; NormalizedValue := v'; NormalizedType := ty |}.

Definition NewSize (sourceValue : Z) : Size :=
  setNormalizedValue
    {| DefaultValue := sourceValue;
       NormalizedValue := S754_zero false;
       NormalizedType := StorageUnitByte |}.

(* ================================================================== *)
(** * errors.go *)

Inductive ErrorCode : Type :=
| ErrorCodeNone
| ErrorCodePathNotExists
| ErrorCodeUploadingSizeLimit
| ErrorCodeDownloadingSizeLimit
| ErrorCodeDifferentParentPaths
| ErrorCodeHistoryNotExists
| ErrorCodeNotSupportedOperation
| ErrorCodePublicLinkNotExists.

(** The error values that travel through the client.  The message texts
    are not part of the model; [CloudClientError] keeps its [Source] and
    its [ErrorCode], [NotAuthorizedError] its [Source].  [OtherError]
    stands for every error that is not one of the two domain types: a
    failure of the transport, of reading a body, of decoding it, or a
    plain [fmt.Errorf]. *)
Inductive error : Type :=
| CloudClientError (Source : string) (code : ErrorCode)
| NotAuthorizedError (Source : string)
| OtherError (what : string).

(** A Go result pair [(T, error)]. *)
Inductive res (A : Type) : Type :=
| Ok (a : A)
| Err (e : error).
Arguments Ok {A} a.
Arguments Err {A} e.

(** The kind a caller reads off an error by the type assertion
    of [err] to a pointer to [CloudClientError]. *)
Definition errorCodeOf {A : Type} (r : res A) : option ErrorCode :=
  match r with
  | Err (CloudClientError _ code) => Some code
  | _ => None
  end.

Definition isErr {A : Type} (r : res A) : bool :=
  match r with
  | Err _ => true
  | Ok _ => false
  end.

(* ================================================================== *)
(** * types.go: tariffs; the account and its capacity predicate *)

Record Duration : Type := mkDuration {
  DaysCount : Z;
  MonthsCount : Z
}.

Record CostItem : Type := mkCostItem {
  cost_Cost : Float64.float64;
  cost_SpecialCost : Float64.float64;
  cost_Currency : string;
  cost_Duration : option Duration;
  cost_SpecialDuration : option Duration;
  cost_ID : string
}.

Record Rate : Type := mkRate {
  rate_Name : string;
  rate_IsActive : bool;
  rate_ID : string;
  rate_IsAvailable : bool;
  rate_Size : option Size;
  rate_Cost : list CostItem;
  rate_SizeBytes : Z
}.

(** [Account].  The cookie jar and the HTTP client are pointers; the
    model keeps whether they are set. *)
Record Account : Type := mkAccount {
  Email : string;
  Password : string;
  ActivatedTariffs : list Rate;
  authToken : string;
  httpClient : bool;
  cookies : bool
}.

(** [Account.Has2GBUploadSizeLimit]: the loop returns false at the first
    tariff whose ID differs from "ZERO" and true when it runs out. *)
Fixpoint Has2GBUploadSizeLimit_loop (rates : list Rate) : bool :=
  match rates with
  | [] => true
  | rate :: rest =>
      if negb (String.eqb (rate_ID rate) "ZERO") then false
      else Has2GBUploadSizeLimit_loop rest
  end.

Definition Has2GBUploadSizeLimit (a : Account) : bool :=
  Has2GBUploadSizeLimit_loop (ActivatedTariffs a).

(* ================================================================== *)
(** * Path helpers of the client *)

(** The regular expression [[/\\]+] matches maximal runs of slashes and
    backslashes; [ReplaceAllString] puts one "/" for each run.
    [collapse inRun s] is the replacement of the text [s] when the byte
    before it was ([inRun = true]) or was not part of a run. *)
Definition isSeparator (c : ascii) : bool :=
  Ascii.eqb c "/"%char || Ascii.eqb c "\"%char.

Fixpoint collapse (inRun : bool) (s : string) : string :=
  match s with
  | EmptyString => EmptyString
  | String c r =>
      if isSeparator c
      then (if inRun then collapse true r else String "/"%char (collapse true r))
      else String c (collapse false r)
  end.

Definition ReplaceAllSeparators (s : string) : string := collapse false s.

(** [CloudClient.getPathStartEndSlash] *)
Definition getPathStartEndSlash (path : string) (setAtStart setAtEnd : bool)
  : string :=
  let path := if String.eqb path EmptyString then EmptyString else path in
  let path := if setAtStart then "/" ++ path else path in
  let path := if setAtEnd then path ++ "/" else path in
  ReplaceAllSeparators path.

(** [CloudClient.getParentCloudPath] *)
Definition getParentCloudPath (path : string) : string :=
  let path := GoString.TrimSuffix path "/" in
  let lastIndex := GoString.LastIndex path "/" in
  if lastIndex =? -1 then "/"
  else GoString.slice path 0 (lastIndex + 1).

(* ================================================================== *)
(** * types.go: the DTO of the listing, history entries, shards *)

(** Instants of [time.Time], in nanoseconds since the Unix epoch.  The
    zero value of the type is the first instant of year 1. *)
Definition Time : Type := Z.
Definition zeroTime : Time := -62135596800 * 1000000000.
Definition Time_IsZero (t : Time) : bool := t =? zeroTime.
(** [time.Unix(sec, 0).UTC()] *)
Definition time_Unix (sec : Z) : Time := sec * 1000000000.

Record Count : Type := mkCount {
  Folders : Z;
  Files : Z
}.

(** [CloudStructureEntry] with the fields the client reads ([Tree],
    [Grev], [Sort], [Kind], [Rev], [Time] and [VirusScan] are decoded and
    never looked at).  [Count] is a pointer and [List] a slice: both may
    be nil. *)
Inductive CloudStructureEntry : Type :=
  mkEntry {
    entry_Count : option Count;
    entry_Name : string;
    entry_Size : Z;
    entry_Type : string;
    entry_Home : string;
    entry_Weblink : string;
    entry_Mtime : Z;
    entry_Hash : string;
    entry_List : option (list CloudStructureEntry)
  }.

(** [History], every field of the struct.  The decoder fills any exported
    field whose name or tag matches a key of the JSON object, so a
    decoded entry is an arbitrary value of this record. *)
Record History : Type := mkHistory {
  h_ID : Z;
  h_LastModifiedTimeUTC : Time;
  h_Name : string;
  h_FullPath : string;
  h_Size : option Size;
  h_IsCurrentVersion : bool;
  h_Revision : Z;
  h_Hash : string;
  h_LastModifiedTimeUnix : Z;
  h_SizeBytes : Z
}.

Record ShardInfo : Type := mkShardInfo {
  shard_Count : Z;
  shard_URL : string
}.

Record ShardsList : Type := mkShardsList {
  Video : list ShardInfo;
  ViewDirect : list ShardInfo;
  WeblinkView : list ShardInfo;
  WeblinkVideo : list ShardInfo;
  WeblinkGet : list ShardInfo;
  Stock : list ShardInfo;
  WeblinkThumbnails : list ShardInfo;
  Web : list ShardInfo;
  Auth : list ShardInfo;
  View : list ShardInfo;
  Get : list ShardInfo;
  Upload : list ShardInfo;
  Thumbnails : list ShardInfo
}.

Record DiskUsage : Type := mkDiskUsage {
  Total : Size;
  Used : Size;
  Free : Size
}.

Record ProgressChangeTaskState : Type := mkProgressState {
  TotalBytes : Size;
  BytesInProgress : Size
}.

Record ProgressChangedEventArgs : Type := mkProgressArgs {
  ProgressPercentage : Z;
  State : ProgressChangeTaskState
}.

(* ================================================================== *)
(** * The client and the entry handles *)

(** [CloudClient]: the account it points to and whether a progress
    handler is registered.  The operations embedded here never write to
    the account, so the client carries its contents. *)
Record CloudClient : Type := mkCloudClient {
  client_Account : Account;
  ProgressChangedEvent : bool
}.

(** [CloudStructureEntryBase].  [Size], [account] and [client] are
    pointers. *)
Record CloudStructureEntryBase : Type := mkBase {
  Name : string;
  base_Size : option Size;
  FullPath : string;
  PublicLink : string;
  base_FilesCount : Z;
  base_FoldersCount : Z;
  account : option Account;
  client : option CloudClient
}.

Record File : Type := mkFile {
  file_base : CloudStructureEntryBase;
  Hash : string;
  LastModifiedTimeUTC : Time
}.

(** [Folder] embeds the base and declares [FoldersCount] and
    [FilesCount] again: a selector [f.FilesCount] on a folder denotes the
    folder's own field, the embedded one is reached by
    [f.CloudStructureEntryBase.FilesCount] or by a composite literal of
    the base. *)
Record Folder : Type := mkFolder {
  folder_base : CloudStructureEntryBase;
  FoldersCount : Z;
  FilesCount : Z;
  Items : option (list CloudStructureEntry);
  prevDiskUsed : Z;
  lastItemsGettingTime : Time
}.

Definition set_PublicLink (b : CloudStructureEntryBase) (l : string)
  : CloudStructureEntryBase :=
  {| Name := Name b; base_Size := base_Size b; FullPath := FullPath b;
     PublicLink := l;
     base_FilesCount := base_FilesCount b;
     base_FoldersCount := base_FoldersCount b;
     account := account b; client := client b |}.

Definition file_set_PublicLink (f : File) (l : string) : File :=
  {| file_base := set_PublicLink (file_base f) l;
     Hash := Hash f; LastModifiedTimeUTC := LastModifiedTimeUTC f |}.

Definition folder_set_PublicLink (f : Folder) (l : string) : Folder :=
  {| folder_base := set_PublicLink (folder_base f) l;
     FoldersCount := FoldersCount f; FilesCount := FilesCount f;
     Items := Items f; prevDiskUsed := prevDiskUsed f;
     lastItemsGettingTime := lastItemsGettingTime f |}.

(* ================================================================== *)
(** * constants.go *)

Definition BaseMailRuCloud : string := "https://cloud.mail.ru".
Definition PublicLinkPrefix : string := "https://cloud.mail.ru/public/".
Definition CreateZipArchive : string := "/api/v2/zip".
Definition FileRequest : string := "/api/v2/file/".

(* ================================================================== *)
(** * The world of the client

    The client talks to a remote server through [http.Client.Do], reads
    the clock and lower-cases strings with the Unicode tables of package
    [strings].  None of this is code of the repository: the server and
    the clock are a state [World] with two transition functions, and the
    case mapping is a function.  A byte slice is observed by the client
    through its length only; it is handed over to the transport as it
    is. *)

Section Client.

Variable ByteSlice : Type.
Variable byteLen : ByteSlice -> N.

(** A request as built by [http.NewRequest]: method, URL, the form of
    the body (the keys in the order of their first assignment) and, for
    an upload, the raw payload. *)
Record Request : Type := mkRequest {
  Method : string;
  URL : string;
  Form : list (string * string);
  Payload : option ByteSlice
}.

(** What arrives in a response body, seen through the decoder that the
    caller applies to it ([deserializeJSON] into the target of the call,
    [json.Unmarshal] into a map for the disk usage). *)
Inductive Body : Type :=
| BodyUnreadable
| BodyMalformed
| BodyString (s : string)
| BodyEntry (e : CloudStructureEntry)
| BodyHistory (l : list History)
| BodyShards (l : ShardsList)
| BodyDisk (bytes_total bytes_used : Float64.float64).

(** The outcome of building a request and sending it: an error of
    [http.NewRequest] or of [Do], or a response with its status code. *)
Inductive Response : Type :=
| TransportError
| HTTPResponse (StatusCode : Z) (body : Body).

Variable World : Type.
Variable transport : World -> Request -> Response * World.
Variable clock : World -> Time * World.
Variable ToLower : string -> string.

(** The state threaded through the operations: the world, the requests
    handed to the transport so far (oldest first) and the progress events
    delivered to the handler. *)
Record ClientState : Type := mkState {
  world : World;
  trace : list Request;
  progress : list ProgressChangedEventArgs
}.

(** A computation either panics ([None]: a nil pointer is dereferenced)
    or yields a value, and leaves a state. *)
Definition M (A : Type) : Type := ClientState -> option A * ClientState.

Definition ret {A : Type} (a : A) : M A := fun s => (Some a, s).

Definition panic {A : Type} : M A := fun s => (None, s).

Definition bind {A B : Type} (m : M A) (k : A -> M B) : M B :=
  fun s =>
    match m s with
    | (Some a, s') => k a s'
    | (None, s') => (None, s')
    end.

Notation "x <- m ;; k" := (bind m (fun x => k))
  (at level 61, m at next level, right associativity).
Notation "' p <- m ;; k" := (bind m (fun x => let p := x in k))
  (at level 61, p pattern, m at next level, right associativity).

(** [if err != nil { return nil, err }] *)
Definition try {A B : Type} (m : M (res A)) (k : A -> M (res B)) : M (res B) :=
  r <- m ;;
  match r with
  | Err e => ret (Err e)
  | Ok a => k a
  end.

Notation "x <-? m ;; k" := (try m (fun x => k))
  (at level 61, m at next level, right associativity).
Notation "' p <-? m ;; k" := (try m (fun x => let p := x in k))
  (at level 61, p pattern, m at next level, right associativity).

(** [http.NewRequest] followed by [c.Account.getHttpClient().Do(req)];
    calling [Do] on a nil client panics. *)
Definition httpDo (a : Account) (req : Request) : M Response :=
  if httpClient a then
    fun s =>
      let (r, w) := transport (world s) req in
      (Some r, {| world := w; trace := trace s ++ [req]; progress := progress s |})
  else panic.

(** [time.Now()] *)
Definition Now : M Time :=
  fun s =>
    let (t, w) := clock (world s) in
    (Some t, {| world := w; trace := trace s; progress := progress s |}).

Definition emitProgress (e : ProgressChangedEventArgs) : M unit :=
  fun s =>
    (Some tt, {| world := world s; trace := trace s;
                 progress := progress s ++ [e] |}).

(** Form fields: a map from keys to printed values. *)
Definition Fields : Type := list (string * string).

Fixpoint fields_delete (k : string) (m : Fields) : Fields :=
  match m with
  | [] => []
  | (k', v) :: r =>
      if String.eqb k k' then fields_delete k r else (k', v) :: fields_delete k r
  end.

Fixpoint fields_set (k v : string) (m : Fields) : Fields :=
  match m with
  | [] => [(k, v)]
  | (k', v') :: r =>
      if String.eqb k k' then (k, v) :: r else (k', v') :: fields_set k v r
  end.

Definition GET (url : string) : Request :=
  {| Method := "GET"; URL := url; Form := []; Payload := None |}.

Definition POST (url : string) (form : Fields) : Request :=
  {| Method := "POST"; URL := url; Form := form; Payload := None |}.

Definition PUT (url : string) (body : ByteSlice) : Request :=
  {| Method := "PUT"; URL := url; Form := []; Payload := Some body |}.

(** Reading and decoding a response body. *)
Definition decodeString (b : Body) : res string :=
  match b with
  | BodyString s => Ok s
  | BodyUnreadable => Err (OtherError "read")
  | _ => Err (OtherError "decode")
  end.

Definition decodeEntry (b : Body) : res CloudStructureEntry :=
  match b with
  | BodyEntry e => Ok e
  | BodyUnreadable => Err (OtherError "read")
  | _ => Err (OtherError "decode")
  end.

Definition decodeHistory (b : Body) : res (list History) :=
  match b with
  | BodyHistory l => Ok l
  | BodyUnreadable => Err (OtherError "read")
  | _ => Err (OtherError "decode")
  end.

Definition decodeShards (b : Body) : res ShardsList :=
  match b with
  | BodyShards l => Ok l
  | BodyUnreadable => Err (OtherError "read")
  | _ => Err (OtherError "decode")
  end.

Definition decodeDisk (b : Body) : res (Float64.float64 * Float64.float64) :=
  match b with
  | BodyDisk t u => Ok (t, u)
  | BodyUnreadable => Err (OtherError "read")
  | _ => Err (OtherError "decode")
  end.

(* ------------------------------------------------------------------ *)
(** ** account.go: authorization and disk usage *)

(** The part of [getDiskUsageInternal] after its optional check. *)
Definition getDiskUsage_request (a : Account) : M (res DiskUsage) :=
  let diskSpaceURL :=
    BaseMailRuCloud ++ "/api/v2/user/space?api=2&email=" ++ Email a
      ++ "&token=" ++ authToken a in
  resp <- httpDo a (GET diskSpaceURL) ;;
  match resp with
  | TransportError => ret (Err (OtherError "transport"))
  | HTTPResponse status body =>
      if negb (status =? 200) then ret (Err (NotAuthorizedError EmptyString))
      else
        match decodeDisk body with
        | Err e => ret (Err e)
        | Ok (bytesTotal, bytesUsed) =>
            let mb (f : Float64.float64) :=
              wrap64 (wrap64 (Float64.to_int64 f * 1024) * 1024) in
            ret (Ok {| Total := NewSize (mb bytesTotal);
                       Used := NewSize (mb bytesUsed);
                       Free := NewSize (mb (Float64.sub bytesTotal bytesUsed)) |})
        end
  end.

(** [Account.checkAuthorization] *)
Definition Account_checkAuthorization (a : Account) (baseCheckout : bool)
  : M (option error) :=
  if String.eqb (Email a) EmptyString then
    ret (Some (NotAuthorizedError "Login"))
  else if String.eqb (Password a) EmptyString then
    ret (Some (NotAuthorizedError "Password"))
  else if negb baseCheckout then
    if negb (cookies a) then ret (Some (NotAuthorizedError EmptyString))
    else if String.eqb (authToken a) EmptyString then
      ret (Some (NotAuthorizedError EmptyString))
    else
      r <- getDiskUsage_request a ;;
      match r with
      | Err e => ret (Some e)
      | Ok _ => ret None
      end
  else ret None.

(** [Account.getDiskUsageInternal] *)
Definition getDiskUsageInternal (a : Account) (checkAuthorization : bool)
  : M (res DiskUsage) :=
  if checkAuthorization then
    err <- Account_checkAuthorization a false ;;
    match err with
    | Some e => ret (Err e)
    | None => getDiskUsage_request a
    end
  else getDiskUsage_request a.

(** [Account.GetDiskUsage] *)
Definition GetDiskUsage (a : Account) : M (res DiskUsage) :=
  getDiskUsageInternal a true.

(** [Account.CheckAuthorization]: the pair it returns carries the
    outcome in its boolean, its error is always nil. *)
Definition Account_CheckAuthorization (a : Account) : M (bool * option error) :=
  err <- Account_checkAuthorization a false ;;
  match err with
  | Some _ => ret (false, None)
  | None => ret (true, None)
  end.

(** [CloudClient.checkAuthorization] returns the error of that pair. *)
Definition checkAuthorization (c : CloudClient) : M (option error) :=
  r <- Account_CheckAuthorization (client_Account c) ;;
  ret (snd r).

(** [if err := c.checkAuthorization(); err != nil { return nil, err }] *)
Definition authorized {B : Type} (c : CloudClient) (k : M (res B)) : M (res B) :=
  err <- checkAuthorization c ;;
  match err with
  | Some e => ret (Err e)
  | None => k
  end.

(* ------------------------------------------------------------------ *)
(** ** cloud_client.go: listing a folder *)

(** [CloudClient.getDefaultFormDataFields] *)
Definition getDefaultFormDataFields (c : CloudClient) (sourceFullPath : list string)
  : Fields :=
  let a := client_Account c in
  let result :=
    [("conflict", "rename"); ("api", "2"); ("token", authToken a);
     ("email", Email a); ("x-email", Email a)] in
  match sourceFullPath with
  | p :: _ =>
      if negb (String.eqb p EmptyString) then fields_set "home" p result
      else result
  | [] => result
  end.

(** [CloudClient.GetFolder].  A status other than 200 gives the nil
    folder and no error.  The composite literal fills the counts of the
    embedded base; the folder's own counts, its disk-usage mark and the
    time of its last listing keep their zero values. *)
Definition GetFolder (c : CloudClient) (fullPath : list string)
  : M (res (option Folder)) :=
  authorized c (
    let path := match fullPath with p :: _ => p | [] => EmptyString end in
    let path := getPathStartEndSlash path true true in
    let itemsListURL :=
      BaseMailRuCloud ++ "/api/v2/folder?token=" ++ authToken (client_Account c)
        ++ "&home=" ++ path in
    resp <- httpDo (client_Account c) (GET itemsListURL) ;;
    match resp with
    | TransportError => ret (Err (OtherError "transport"))
    | HTTPResponse status body =>
        if negb (status =? 200) then ret (Ok None)
        else
          match decodeEntry body with
          | Err e => ret (Err e)
          | Ok deserialized =>
              let publicLink :=
                if negb (String.eqb (entry_Weblink deserialized) EmptyString)
                then PublicLinkPrefix ++ entry_Weblink deserialized
                else EmptyString in
              match entry_Count deserialized with
              | None => panic
              | Some count =>
                  ret (Ok (Some
                    {| folder_base :=
                         {| base_FilesCount := Files count;
                            base_FoldersCount := Folders count;
                            FullPath := entry_Home deserialized;
                            Name := entry_Name deserialized;
                            PublicLink := publicLink;
                            base_Size := Some (NewSize (entry_Size deserialized));
                            account := Some (client_Account c);
                            client := Some c |};
                       FoldersCount := 0;
                       FilesCount := 0;
                       Items := entry_List deserialized;
                       prevDiskUsed := 0;
                       lastItemsGettingTime := zeroTime |}))
              end
          end
    end).

(* ------------------------------------------------------------------ *)
(** ** folder.go: the cached listing *)

Definition folder_set_time (f : Folder) (t : Time) : Folder :=
  {| folder_base := folder_base f;
     FoldersCount := FoldersCount f; FilesCount := FilesCount f;
     Items := Items f; prevDiskUsed := prevDiskUsed f;
     lastItemsGettingTime := t |}.

Definition folder_set_prevDiskUsed (f : Folder) (u : Z) : Folder :=
  {| folder_base := folder_base f;
     FoldersCount := FoldersCount f; FilesCount := FilesCount f;
     Items := Items f; prevDiskUsed := u;
     lastItemsGettingTime := lastItemsGettingTime f |}.

(** The five assignments from the fetched folder, then the time stamp. *)
Definition folder_refresh (f folder : Folder) (t : Time) : Folder :=
  {| folder_base :=
       {| Name := Name (folder_base f);
          base_Size := base_Size (folder_base folder);
          FullPath := FullPath (folder_base f);
          PublicLink := PublicLink (folder_base folder);
          base_FilesCount := base_FilesCount (folder_base f);
          base_FoldersCount := base_FoldersCount (folder_base f);
          account := account (folder_base f);
          client := client (folder_base f) |};
     FoldersCount := FoldersCount folder;
     FilesCount := FilesCount folder;
     Items := Items folder;
     prevDiskUsed := prevDiskUsed f;
     lastItemsGettingTime := t |}.

(** [Folder.updateFolderInfo].  The condition is evaluated left to
    right: the disk usage is probed only when the folder has items and
    more than a second has passed. *)
Definition updateFolderInfo (f : Folder) (forceUpdate : bool) : M Folder :=
  f <- (if Time_IsZero (lastItemsGettingTime f)
        then (t <- Now ;; ret (folder_set_time f t))
        else ret f) ;;
  t <- Now ;;
  let diffTimeOverOneSecond := 1000000000 <? t - lastItemsGettingTime f in
  ' (cond, currentDiskSpace) <-
    (match Items f with
     | None => ret (true, None)
     | Some _ =>
         if diffTimeOverOneSecond then
           match account (folder_base f) with
           | None => panic
           | Some a =>
               r <- GetDiskUsage a ;;
               match r with
               | Ok d =>
                   ret (negb (DefaultValue (Used d) =? prevDiskUsed f) || forceUpdate,
                        Some d)
               | Err _ => ret (forceUpdate, None)
               end
           end
         else ret (forceUpdate, None)
     end) ;;
  f <- (if cond : bool then
          match client (folder_base f) with
          | None => panic
          | Some c =>
              r <- GetFolder c [FullPath (folder_base f)] ;;
              match r with
              | Ok (Some folder) =>
                  t <- Now ;; ret (folder_refresh f folder t)
              | _ => ret f
              end
          end
        else ret f) ;;
  ret (match currentDiskSpace with
       | Some d => folder_set_prevDiskUsed f (DefaultValue (Used d))
       | None => f
       end).

Definition publicLinkOf (item : CloudStructureEntry) : string :=
  if negb (String.eqb (entry_Weblink item) EmptyString)
  then PublicLinkPrefix ++ entry_Weblink item
  else EmptyString.

Definition fileOfItem (f : Folder) (item : CloudStructureEntry) : File :=
  {| file_base :=
       {| FullPath := entry_Home item;
          Name := entry_Name item;
          PublicLink := publicLinkOf item;
          base_Size := Some (NewSize (entry_Size item));
          account := account (folder_base f);
          client := client (folder_base f);
          base_FilesCount := 0;
          base_FoldersCount := 0 |};
     Hash := entry_Hash item;
     LastModifiedTimeUTC := time_Unix (entry_Mtime item) |}.

(** The body of the loop of [GetFolders]; reading the counts of an item
    without [Count] panics. *)
Definition folderOfItem (f : Folder) (item : CloudStructureEntry) : option Folder :=
  match entry_Count item with
  | None => None
  | Some count =>
      Some {| folder_base :=
                {| FullPath := entry_Home item;
                   Name := entry_Name item;
                   PublicLink := publicLinkOf item;
                   base_Size := Some (NewSize (entry_Size item));
                   account := account (folder_base f);
                   client := client (folder_base f);
                   base_FilesCount := 0;
                   base_FoldersCount := 0 |};
              FoldersCount := Folders count;
              FilesCount := Files count;
              Items := entry_List item;
              prevDiskUsed := 0;
              lastItemsGettingTime := zeroTime |}
  end.

Fixpoint filesOfItems (f : Folder) (items : list CloudStructureEntry) : list File :=
  match items with
  | [] => []
  | item :: rest =>
      if String.eqb (entry_Type item) "file"
      then fileOfItem f item :: filesOfItems f rest
      else filesOfItems f rest
  end.

Fixpoint foldersOfItems (f : Folder) (items : list CloudStructureEntry)
  : option (list Folder) :=
  match items with
  | [] => Some []
  | item :: rest =>
      if String.eqb (entry_Type item) "folder"
      then
        match folderOfItem f item with
        | None => None
        | Some sub =>
            match foldersOfItems f rest with
            | None => None
            | Some subs => Some (sub :: subs)
            end
        end
      else foldersOfItems f rest
  end.

(** [Folder.GetFiles] and [Folder.GetFolders]: the receiver after the
    call and the handles built from its items. *)
Definition GetFiles (f : Folder) : M (Folder * list File) :=
  f <- updateFolderInfo f false ;;
  match Items f with
  | None => ret (f, [])
  | Some items => ret (f, filesOfItems f items)
  end.

Definition GetFolders (f : Folder) : M (Folder * list Folder) :=
  f <- updateFolderInfo f false ;;
  match Items f with
  | None => ret (f, [])
  | Some items =>
      match foldersOfItems f items with
      | None => panic
      | Some folders => ret (f, folders)
      end
  end.

(* ------------------------------------------------------------------ *)
(** ** cloud_client.go: resolving a path, publishing *)

Fixpoint findFileByName (itemName : string) (files : list File)
  : option CloudStructureEntryBase :=
  match files with
  | [] => None
  | file :: rest =>
      if String.eqb (Name (file_base file)) itemName then Some (file_base file)
      else findFileByName itemName rest
  end.

Fixpoint findFolderByName (itemName : string) (folders : list Folder)
  : option CloudStructureEntryBase :=
  match folders with
  | [] => None
  | folder :: rest =>
      if String.eqb (Name (folder_base folder)) itemName
      then Some (folder_base folder)
      else findFolderByName itemName rest
  end.

(** [CloudClient.checkUnknownItemExisting].  When the listing of the
    parent answers with a status other than 200 the folder is nil and
    the call of [GetFiles] on it panics. *)
Definition checkUnknownItemExisting (c : CloudClient) (sourceFullPath : string)
  : M (res CloudStructureEntryBase) :=
  let parentPath := getParentCloudPath sourceFullPath in
  let itemName := GoString.Base (GoString.TrimSuffix sourceFullPath "/") in
  parentFolder <-? GetFolder c [parentPath] ;;
  match parentFolder with
  | None => panic
  | Some parentFolder =>
      ' (parentFolder, files) <- GetFiles parentFolder ;;
      match findFileByName itemName files with
      | Some item => ret (Ok item)
      | None =>
          ' (parentFolder, folders) <- GetFolders parentFolder ;;
          match findFolderByName itemName folders with
          | Some item => ret (Ok item)
          | None =>
              ret (Err (CloudClientError "sourceFullPath" ErrorCodePathNotExists))
          end
      end
  end.

(** [CloudClient.publishUnpublishInternal] *)
Definition publishUnpublishInternal (c : CloudClient) (link : string) (publish : bool)
  : M (res CloudStructureEntryBase) :=
  if String.eqb link EmptyString then
    ret (Err (CloudClientError EmptyString ErrorCodePathNotExists))
  else
    authorized c (
      ' (link, item) <-?
        (if publish then
           let link := getPathStartEndSlash link true false in
           item <-? checkUnknownItemExisting c link ;;
           ret (Ok (link, Some item))
         else
           ret (Ok (GoString.ReplaceFirstWithEmpty link PublicLinkPrefix, None))) ;;
      let values := getDefaultFormDataFields c [link] in
      let values := fields_delete "conflict" values in
      let values :=
        if negb publish
        then fields_set "weblink" link (fields_delete "home" values)
        else values in
      let operation := if publish then "publish" else "unpublish" in
      resp <- httpDo (client_Account c)
                (POST (BaseMailRuCloud ++ FileRequest ++ operation) values) ;;
      match resp with
      | TransportError => ret (Err (OtherError "transport"))
      | HTTPResponse status body =>
          if (status =? 404) || (status =? 400) then
            let errorCode :=
              if negb publish then ErrorCodePublicLinkNotExists
              else ErrorCodePathNotExists in
            ret (Err (CloudClientError "link" errorCode))
          else
            match decodeString body with
            | Err e => ret (Err e)
            | Ok result =>
                if negb publish then checkUnknownItemExisting c result
                else
                  match item with
                  | None => panic
                  | Some item =>
                      ret (Ok (set_PublicLink item (PublicLinkPrefix ++ result)))
                  end
            end
      end).

(** [CloudClient.Publish] and [CloudClient.Unpublish] *)
Definition Publish (c : CloudClient) (sourceFullPath : string)
  : M (res CloudStructureEntryBase) :=
  publishUnpublishInternal c sourceFullPath true.

Definition Unpublish (c : CloudClient) (publicLink : string)
  : M (res CloudStructureEntryBase) :=
  publishUnpublishInternal c publicLink false.

(* ------------------------------------------------------------------ *)
(** ** file.go and folder.go: unpublishing a handle

    Both methods return their receiver; the model returns the contents
    of the receiver after the call. *)

Definition File_Unpublish (f : File) : M (res File) :=
  if String.eqb (PublicLink (file_base f)) EmptyString then ret (Ok f)
  else
    match client (file_base f) with
    | None => panic
    | Some c =>
        result <-? Unpublish c (PublicLink (file_base f)) ;;
        ret (Ok (file_set_PublicLink f (PublicLink result)))
    end.

Definition Folder_Unpublish (f : Folder) : M (res Folder) :=
  if String.eqb (PublicLink (folder_base f)) EmptyString then ret (Ok f)
  else
    match client (folder_base f) with
    | None => panic
    | Some c =>
        result <-? Unpublish c (PublicLink (folder_base f)) ;;
        ret (Ok (folder_set_PublicLink f (PublicLink result)))
    end.

(* ------------------------------------------------------------------ *)
(** ** cloud_client.go: creating entries, shards *)

(** [CloudClient.createFileOrFolder]: the new name and the new path. *)
Definition createFileOrFolder (c : CloudClient) (addFile : bool)
    (path hash : string) (size : Z) (rewriteExisting : bool)
  : M (res (string * string)) :=
  authorized c (
    let values := getDefaultFormDataFields c [path] in
    let values :=
      fields_set "conflict" (if rewriteExisting then "rewrite" else "rename") values in
    let values :=
      if addFile && negb (String.eqb hash EmptyString) && negb (size =? 0)
      then fields_set "size" (GoString.itoa size) (fields_set "hash" hash values)
      else values in
    let operationType := if addFile then "file" else "folder" in
    let createURL := BaseMailRuCloud ++ "/api/v2/" ++ operationType ++ "/add" in
    resp <- httpDo (client_Account c) (POST createURL values) ;;
    match resp with
    | TransportError => ret (Err (OtherError "transport"))
    | HTTPResponse _ body =>
        match decodeString body with
        | Err e => ret (Err e)
        | Ok newPath => ret (Ok (GoString.Base newPath, newPath))
        end
    end).

(** [CloudClient.getShardsInfo] *)
Definition getShardsInfo (c : CloudClient) : M (res ShardsList) :=
  authorized c (
    let dispatcherURL :=
      BaseMailRuCloud ++ "/api/v2/dispatcher?token=" ++ authToken (client_Account c) in
    resp <- httpDo (client_Account c) (GET dispatcherURL) ;;
    match resp with
    | TransportError => ret (Err (OtherError "transport"))
    | HTTPResponse _ body =>
        match decodeShards body with
        | Err e => ret (Err e)
        | Ok shardsList => ret (Ok shardsList)
        end
    end).

(* ------------------------------------------------------------------ *)
(** ** cloud_client.go: the history of a file *)

Definition history_set_current (h : History) : History :=
  {| h_ID := h_ID h; h_LastModifiedTimeUTC := h_LastModifiedTimeUTC h;
     h_Name := h_Name h; h_FullPath := h_FullPath h; h_Size := h_Size h;
     h_IsCurrentVersion := true;
     h_Revision := h_Revision h; h_Hash := h_Hash h;
     h_LastModifiedTimeUnix := h_LastModifiedTimeUnix h;
     h_SizeBytes := h_SizeBytes h |}.

(** The body of the loop over the indices of the list. *)
Definition history_derive (h : History) : History :=
  {| h_ID := h_ID h;
     h_LastModifiedTimeUTC := time_Unix (h_LastModifiedTimeUnix h);
     h_Name := h_Name h; h_FullPath := h_FullPath h;
     h_Size := Some (NewSize (h_SizeBytes h));
     h_IsCurrentVersion := h_IsCurrentVersion h;
     h_Revision := h_Revision h; h_Hash := h_Hash h;
     h_LastModifiedTimeUnix := h_LastModifiedTimeUnix h;
     h_SizeBytes := h_SizeBytes h |}.

(** What [GetFileHistory] does to the decoded list before returning it. *)
Definition history_finish (historyList : list History) : list History :=
  match historyList with
  | [] => []
  | first :: rest => map history_derive (history_set_current first :: rest)
  end.

(** [CloudClient.GetFileHistory] *)
Definition GetFileHistory (c : CloudClient) (sourceFullPath : string)
  : M (res (list History)) :=
  if String.eqb sourceFullPath EmptyString then
    ret (Err (CloudClientError EmptyString ErrorCodePathNotExists))
  else
    authorized c (
      let a := client_Account c in
      let sourceFullPath := getPathStartEndSlash sourceFullPath true false in
      let values :=
        fields_delete "conflict" (getDefaultFormDataFields c [sourceFullPath]) in
      let historyURL :=
        BaseMailRuCloud ++ "/api/v2/file/history?home=" ++ sourceFullPath
          ++ "&api=2&email=" ++ Email a ++ "&x-email=" ++ Email a
          ++ "&token=" ++ authToken a in
      resp <- httpDo a (POST historyURL values) ;;
      match resp with
      | TransportError => ret (Err (OtherError "transport"))
      | HTTPResponse status body =>
          if status =? 404 then
            ret (Err (CloudClientError "sourceFullPath" ErrorCodePathNotExists))
          else
            match decodeHistory body with
            | Err e => ret (Err e)
            | Ok historyList => ret (Ok (history_finish historyList))
            end
      end).

(** The scan of [RestoreFileFromHistory]: the first entry with the
    requested revision. *)
Fixpoint findRevision (historyRevision : Z) (histories : list History)
  : option History :=
  match histories with
  | [] => None
  | h :: rest =>
      if h_Revision h =? historyRevision then Some h
      else findRevision historyRevision rest
  end.

(** [CloudClient.RestoreFileFromHistory] *)
Definition RestoreFileFromHistory (c : CloudClient) (sourceFullPath : string)
    (historyRevision : Z) (rewriteExisting : bool) (newFileName : string)
  : M (res File) :=
  if historyRevision <=? 0 then
    ret (Err (CloudClientError EmptyString ErrorCodeHistoryNotExists))
  else if Has2GBUploadSizeLimit (client_Account c) then
    ret (Err (CloudClientError EmptyString ErrorCodeNotSupportedOperation))
  else
    histories <-? GetFileHistory c sourceFullPath ;;
    match findRevision historyRevision histories with
    | None =>
        ret (Err (CloudClientError "historyRevision" ErrorCodeHistoryNotExists))
    | Some history =>
        let originalFileName := GoString.Base sourceFullPath in
        let extension := GoString.Ext originalFileName in
        let newFileName :=
          if String.eqb newFileName EmptyString then originalFileName
          else if negb (GoString.HasSuffix (ToLower newFileName) (ToLower extension))
          then newFileName ++ extension
          else newFileName in
        let newFullPath :=
          if negb rewriteExisting
          then getParentCloudPath sourceFullPath ++ newFileName
          else sourceFullPath in
        created <-? createFileOrFolder c true newFullPath (h_Hash history)
                      (h_SizeBytes history) rewriteExisting ;;
        ret (Ok {| file_base :=
                     {| FullPath := snd created;
                        Name := fst created;
                        base_Size := h_Size history;
                        PublicLink := EmptyString;
                        base_FilesCount := 0;
                        base_FoldersCount := 0;
                        account := None;
                        client := None |};
                   Hash := h_Hash history;
                   LastModifiedTimeUTC := h_LastModifiedTimeUTC history |})
    end.

(* ------------------------------------------------------------------ *)
(** ** cloud_client.go: uploading *)

Definition sizeLimit2GB : Z := 2048 * 1024 * 1024.
Definition sizeLimit32GB : Z := 32768 * 1024 * 1024.

(** The ceiling chosen by [UploadFileFromStream]. *)
Definition uploadSizeLimit (a : Account) : Z :=
  if negb (Has2GBUploadSizeLimit a) then sizeLimit32GB else sizeLimit2GB.

(** The rest of [UploadFileFromStream] once the size check is passed:
    the upload shard, the transfer, the creation of the file entry. *)
Definition uploadTransfer (c : CloudClient) (destFileName : string)
    (contentBytes : ByteSlice) (destFolderPath : string)
  : M (res File) :=
  let a := client_Account c in
  let fileSize := Z.of_N (byteLen contentBytes) in
  shards <-? getShardsInfo c ;;
  match Upload shards with
  | [] => ret (Err (OtherError "no upload shards"))
  | shard :: _ =>
      let uploadURL :=
        shard_URL shard ++ "?cloud_domain=2&x-email=" ++ Email a in
      _ <- (if ProgressChangedEvent c
            then emitProgress
                   {| ProgressPercentage := 0;
                      State := {| TotalBytes := NewSize fileSize;
                                  BytesInProgress := NewSize 0 |} |}
            else ret tt) ;;
      resp <- httpDo a (PUT uploadURL contentBytes) ;;
      match resp with
      | TransportError => ret (Err (OtherError "transport"))
      | HTTPResponse _ body =>
          match decodeString body with
          | Err e => ret (Err e)
          | Ok hash =>
              createdFile <-?
                createFileOrFolder c true (destFolderPath ++ destFileName)
                  hash fileSize false ;;
              _ <- (if ProgressChangedEvent c
                    then emitProgress
                           {| ProgressPercentage := 100;
                              State :=
                                {| TotalBytes := NewSize fileSize;
                                   BytesInProgress := NewSize fileSize |} |}
                    else ret tt) ;;
              t <- Now ;;
              ret (Ok {| file_base :=
                           {| FullPath := snd createdFile;
                              Name := fst createdFile;
                              base_Size := Some (NewSize fileSize);
                              PublicLink := EmptyString;
                              base_FilesCount := 0;
                              base_FoldersCount := 0;
                              account := Some a;
                              client := Some c |};
                         Hash := hash;
                         LastModifiedTimeUTC := t |})
          end
      end
  end.

(** [CloudClient.UploadFileFromStream].  [content] is what [io.ReadAll]
    obtains from the reader: its bytes or an error. *)
Definition UploadFileFromStream (c : CloudClient) (destFileName : string)
    (content : res ByteSlice) (destFolderPath : string)
  : M (res File) :=
  authorized c (
    let a := client_Account c in
    let destFolderPath := getPathStartEndSlash destFolderPath true true in
    if String.eqb destFileName EmptyString then
      ret (Err (CloudClientError EmptyString ErrorCodePathNotExists))
    else
      match content with
      | Err e => ret (Err e)
      | Ok contentBytes =>
          if (byteLen contentBytes =? 0)%N then
            ret (Err (CloudClientError EmptyString ErrorCodePathNotExists))
          else if String.eqb destFolderPath EmptyString then
            ret (Err (CloudClientError EmptyString ErrorCodePathNotExists))
          else
            r <- GetFolder c [destFolderPath] ;;
            match r with
            | Err _ =>
                ret (Err (CloudClientError "destFolderPath" ErrorCodePathNotExists))
            | Ok _ =>
                let fileSize := Z.of_N (byteLen contentBytes) in
                let sizeLimit := uploadSizeLimit a in
                if sizeLimit <? fileSize then
                  ret (Err (CloudClientError "content" ErrorCodeUploadingSizeLimit))
                else
                  uploadTransfer c destFileName contentBytes destFolderPath
            end
      end).

(* ------------------------------------------------------------------ *)
(** ** cloud_client.go: the direct link of a ZIP archive *)

Definition dquote : string := String (ascii_of_nat 34) EmptyString.

(** [path == "" || path == "/"] for some path of the list. *)
Fixpoint hasEmptyOrRootPath (paths : list string) : bool :=
  match paths with
  | [] => false
  | path :: rest =>
      if String.eqb path EmptyString || String.eqb path "/" then true
      else hasEmptyOrRootPath rest
  end.

(** The loop that checks the common parent: [commonPath],
    [allHasCommonPath] and the quoted paths collected so far. *)
Definition commonPathStep (acc : string * bool * list string) (path : string)
  : string * bool * list string :=
  let '(commonPath, allHasCommonPath, processedPaths) := acc in
  let parentPath := getParentCloudPath path in
  let commonPath :=
    if String.eqb commonPath EmptyString then parentPath else commonPath in
  let allHasCommonPath := allHasCommonPath && String.eqb commonPath parentPath in
  (commonPath, allHasCommonPath,
   List.app processedPaths
     [dquote ++ getPathStartEndSlash path true false ++ dquote]).

Definition commonPathLoop (paths : list string) : string * bool * list string :=
  fold_left commonPathStep paths (EmptyString, true, []).

(** [CloudClient.GetDirectLinkZIPArchive] *)
Definition GetDirectLinkZIPArchive (c : CloudClient)
    (filesAndFoldersPaths : list string) (destZipArchiveName : string)
  : M (res string) :=
  match filesAndFoldersPaths with
  | [] => ret (Err (CloudClientError EmptyString ErrorCodePathNotExists))
  | _ :: _ =>
      if hasEmptyOrRootPath filesAndFoldersPaths then
        ret (Err (CloudClientError EmptyString ErrorCodePathNotExists))
      else
        authorized c (
          destZipArchiveName <-
            (if String.eqb destZipArchiveName EmptyString
             then (t <- Now ;; ret (GoString.itoa (t / 1000000000)))
             else ret destZipArchiveName) ;;
          let destZipArchiveName :=
            if negb (GoString.HasSuffix (ToLower destZipArchiveName) ".zip")
            then destZipArchiveName ++ ".zip"
            else destZipArchiveName in
          let '(_, allHasCommonPath, processedPaths) :=
            commonPathLoop filesAndFoldersPaths in
          if negb allHasCommonPath then
            ret (Err (CloudClientError "filesAndFoldersPaths"
                        ErrorCodeDifferentParentPaths))
          else
            let a := client_Account c in
            let pathsStr := "[" ++ GoString.Join processedPaths "," ++ "]" in
            let values :=
              [("home_list", pathsStr); ("name", destZipArchiveName);
               ("api", "2"); ("token", authToken a); ("email", Email a)] in
            resp <- httpDo a (POST (BaseMailRuCloud ++ CreateZipArchive) values) ;;
            match resp with
            | TransportError => ret (Err (OtherError "transport"))
            | HTTPResponse status body =>
                if status =? 422 then
                  ret (Err (CloudClientError EmptyString ErrorCodeDownloadingSizeLimit))
                else
                  match decodeString body with
                  | Err e => ret (Err e)
                  | Ok directLink => ret (Ok directLink)
                  end
            end)
  end.

(* ------------------------------------------------------------------ *)
(** ** cloud_client.go: the remaining operations on paths *)

(** [NewCloudClient]: a nil account is refused; the authorization of the
    account is checked and the error of that check is returned. *)
Definition NewCloudClient (account : option Account) : M (res CloudClient) :=
  match account with
  | None => ret (Err (OtherError "account is nil"))
  | Some account =>
      let client := {| client_Account := account; ProgressChangedEvent := false |} in
      r <- Account_CheckAuthorization account ;;
      match snd r with
      | Some e => ret (Err e)
      | None => ret (Ok client)
      end
  end.

(** [CloudClient.Remove]: the response is closed without a look at its
    status. *)
Definition Remove (c : CloudClient) (sourceFullPath : string) : M (option error) :=
  if String.eqb sourceFullPath EmptyString then
    ret (Some (CloudClientError EmptyString ErrorCodePathNotExists))
  else
    err <- checkAuthorization c ;;
    match err with
    | Some e => ret (Some e)
    | None =>
        let sourceFullPath := getPathStartEndSlash sourceFullPath true false in
        let values := getDefaultFormDataFields c [sourceFullPath] in
        resp <- httpDo (client_Account c)
                  (POST (BaseMailRuCloud ++ "/api/v2/file/remove") values) ;;
        match resp with
        | TransportError => ret (Some (OtherError "transport"))
        | HTTPResponse _ _ => ret None
        end
    end.

(** The three assignments that end [Rename] and [moveOrCopyInternal]. *)
Definition relocated (item : CloudStructureEntryBase) (newPath : string)
  : CloudStructureEntryBase :=
  {| Name := GoString.Base newPath;
     base_Size := base_Size item;
     FullPath := newPath;
     PublicLink := EmptyString;
     base_FilesCount := base_FilesCount item;
     base_FoldersCount := base_FoldersCount item;
     account := account item;
     client := client item |}.

(** The name [Rename] sends: the extension of the existing entry is
    appended unless the new name already ends with it, whatever the
    case of the letters. *)
Definition renameTarget (itemName name : string) : string :=
  let extension := GoString.Ext itemName in
  if negb (String.eqb extension EmptyString)
     && negb (GoString.HasSuffix (ToLower name) (ToLower extension))
  then name ++ extension
  else name.

(** [CloudClient.Rename] *)
Definition Rename (c : CloudClient) (sourceFullPath name : string)
  : M (res CloudStructureEntryBase) :=
  if String.eqb sourceFullPath EmptyString then
    ret (Err (CloudClientError EmptyString ErrorCodePathNotExists))
  else if String.eqb name EmptyString then
    ret (Err (CloudClientError EmptyString ErrorCodePathNotExists))
  else
    authorized c (
      let sourceFullPath := getPathStartEndSlash sourceFullPath true false in
      item <-? checkUnknownItemExisting c sourceFullPath ;;
      let name := renameTarget (Name item) name in
      let values :=
        fields_set "name" name (getDefaultFormDataFields c [sourceFullPath]) in
      resp <- httpDo (client_Account c)
                (POST (BaseMailRuCloud ++ "/api/v2/file/rename") values) ;;
      match resp with
      | TransportError => ret (Err (OtherError "transport"))
      | HTTPResponse _ body =>
          match decodeString body with
          | Err e => ret (Err e)
          | Ok newPath => ret (Ok (relocated item newPath))
          end
      end).

(** [CloudClient.moveOrCopyInternal] *)
Definition moveOrCopyInternal (c : CloudClient)
    (sourceFullPath destFolderPath : string) (move : bool)
  : M (res CloudStructureEntryBase) :=
  if String.eqb sourceFullPath EmptyString then
    ret (Err (CloudClientError EmptyString ErrorCodePathNotExists))
  else if String.eqb destFolderPath EmptyString then
    ret (Err (CloudClientError EmptyString ErrorCodePathNotExists))
  else
    authorized c (
      let sourceFullPath := getPathStartEndSlash sourceFullPath true false in
      let destFolderPath := getPathStartEndSlash destFolderPath true false in
      item <-? checkUnknownItemExisting c sourceFullPath ;;
      r <- GetFolder c [destFolderPath] ;;
      match r with
      | Err _ =>
          ret (Err (CloudClientError "destFolderPath" ErrorCodePathNotExists))
      | Ok _ =>
          let values :=
            fields_set "folder" destFolderPath
              (getDefaultFormDataFields c [sourceFullPath]) in
          let operation := if move then "move" else "copy" in
          resp <- httpDo (client_Account c)
                    (POST (BaseMailRuCloud ++ FileRequest ++ operation) values) ;;
          match resp with
          | TransportError => ret (Err (OtherError "transport"))
          | HTTPResponse _ body =>
              match decodeString body with
              | Err e => ret (Err e)
              | Ok newPath => ret (Ok (relocated item newPath))
              end
          end
      end).

(** [CloudClient.Copy] and [CloudClient.Move] *)
Definition Copy (c : CloudClient) (sourceFullPath destFolderPath : string)
  : M (res CloudStructureEntryBase) :=
  moveOrCopyInternal c sourceFullPath destFolderPath false.

Definition Move (c : CloudClient) (sourceFullPath destFolderPath : string)
  : M (res CloudStructureEntryBase) :=
  moveOrCopyInternal c sourceFullPath destFolderPath true.

(** [CloudClient.CreateFolder] *)
Definition CreateFolder (c : CloudClient) (fullFolderPath : string)
  : M (res Folder) :=
  if String.eqb fullFolderPath EmptyString then
    ret (Err (CloudClientError EmptyString ErrorCodePathNotExists))
  else
    authorized c (
      let fullFolderPath := getPathStartEndSlash fullFolderPath true true in
      createdFolder <-?
        createFileOrFolder c false fullFolderPath EmptyString 0 false ;;
      ret (Ok {| folder_base :=
                   {| Name := fst createdFolder;
                      FullPath := snd createdFolder;
                      base_Size := None;
                      PublicLink := EmptyString;
                      base_FilesCount := 0;
                      base_FoldersCount := 0;
                      account := Some (client_Account c);
                      client := Some c |};
                 FoldersCount := 0;
                 FilesCount := 0;
                 Items := None;
                 prevDiskUsed := 0;
                 lastItemsGettingTime := zeroTime |})).

(** [CloudClient.GetFileOneTimeDirectLink] *)
Definition GetFileOneTimeDirectLink (c : CloudClient) (publicLink : string)
  : M (res string) :=
  if String.eqb publicLink EmptyString
     || negb (GoString.HasPrefix publicLink PublicLinkPrefix)
  then ret (Err (CloudClientError EmptyString ErrorCodePathNotExists))
  else
    authorized c (
      let values := fields_delete "conflict" (getDefaultFormDataFields c []) in
      resp <- httpDo (client_Account c)
                (POST (BaseMailRuCloud ++ "/api/v2/tokens/download") values) ;;
      match resp with
      | TransportError => ret (Err (OtherError "transport"))
      | HTTPResponse _ body =>
          match decodeString body with
          | Err e => ret (Err e)
          | Ok token =>
              shards <-? getShardsInfo c ;;
              match WeblinkGet shards with
              | [] => ret (Err (OtherError "no weblink_get shards"))
              | shard :: _ =>
                  let filePath :=
                    GoString.ReplaceFirstWithEmpty publicLink PublicLinkPrefix in
                  ret (Ok (shard_URL shard ++ "/" ++ filePath ++ "?key=" ++ token))
              end
          end
      end).

(* ------------------------------------------------------------------ *)
(** ** file.go: the methods of a file handle

    A method that returns its receiver is modelled by the contents of
    the receiver after the call; on an error the receiver is as before. *)

Definition file_relocate (f : File) (result : CloudStructureEntryBase) : File :=
  {| file_base :=
       {| Name := Name result;
          base_Size := base_Size (file_base f);
          FullPath := FullPath result;
          PublicLink := PublicLink result;
          base_FilesCount := base_FilesCount (file_base f);
          base_FoldersCount := base_FoldersCount (file_base f);
          account := account (file_base f);
          client := client (file_base f) |};
     Hash := Hash f;
     LastModifiedTimeUTC := LastModifiedTimeUTC f |}.

(** A call through the client pointer of a handle.  A method of the
    client called on a nil pointer runs until it first reads a field of
    the client: [early] is what the guards before that point return, if
    they return; otherwise the call panics. *)
Definition viaClient {A : Type} (b : CloudStructureEntryBase)
    (early : option A) (k : CloudClient -> M A) : M A :=
  match client b with
  | Some c => k c
  | None =>
      match early with
      | Some r => ret r
      | None => panic
      end
  end.

Definition emptyArgument {A : Type} (empty : bool) : option (res A) :=
  if empty then Some (Err (CloudClientError EmptyString ErrorCodePathNotExists))
  else None.

Definition File_Publish (f : File) : M (res File) :=
  viaClient (file_base f)
    (emptyArgument (String.eqb (FullPath (file_base f)) EmptyString)) (fun c =>
    result <-? Publish c (FullPath (file_base f)) ;;
    ret (Ok (file_set_PublicLink f (PublicLink result)))).

Definition File_Remove (f : File) : M (option error) :=
  viaClient (file_base f)
    (if String.eqb (FullPath (file_base f)) EmptyString
     then Some (Some (CloudClientError EmptyString ErrorCodePathNotExists))
     else None)
    (fun c => Remove c (FullPath (file_base f))).

Definition File_Rename (f : File) (newName : string) : M (res File) :=
  viaClient (file_base f)
    (emptyArgument (String.eqb (FullPath (file_base f)) EmptyString
                    || String.eqb newName EmptyString)) (fun c =>
    result <-? Rename c (FullPath (file_base f)) newName ;;
    ret (Ok (file_relocate f result))).

(** [File.Copy] builds a new handle around the entry returned by the
    client and leaves the receiver alone. *)
Definition File_Copy (f : File) (destFolderPath : string) : M (res File) :=
  viaClient (file_base f)
    (emptyArgument (String.eqb (FullPath (file_base f)) EmptyString
                    || String.eqb destFolderPath EmptyString)) (fun c =>
    result <-? Copy c (FullPath (file_base f)) destFolderPath ;;
    ret (Ok {| file_base := result; Hash := Hash f;
               LastModifiedTimeUTC := LastModifiedTimeUTC f |})).

Definition File_Move (f : File) (destFolderPath : string) : M (res File) :=
  viaClient (file_base f)
    (emptyArgument (String.eqb (FullPath (file_base f)) EmptyString
                    || String.eqb destFolderPath EmptyString)) (fun c =>
    result <-? Move c (FullPath (file_base f)) destFolderPath ;;
    ret (Ok (file_relocate f result))).

Definition File_GetFileOneTimeDirectLink (f : File) : M (res string) :=
  viaClient (file_base f)
    (emptyArgument
       (String.eqb (PublicLink (file_base f)) EmptyString
        || negb (GoString.HasPrefix (PublicLink (file_base f)) PublicLinkPrefix)))
    (fun c =>
    GetFileOneTimeDirectLink c (PublicLink (file_base f))).

Definition File_GetFileHistory (f : File) : M (res (list History)) :=
  viaClient (file_base f)
    (emptyArgument (String.eqb (FullPath (file_base f)) EmptyString))
    (fun c => GetFileHistory c (FullPath (file_base f))).

Definition File_RestoreFileFromHistory (f : File) (historyRevision : Z)
    (rewriteExisting : bool) (newFileName : string) : M (res File) :=
  viaClient (file_base f)
    (if historyRevision <=? 0
     then Some (Err (CloudClientError EmptyString ErrorCodeHistoryNotExists))
     else None)
    (fun c =>
    RestoreFileFromHistory c (FullPath (file_base f)) historyRevision
      rewriteExisting newFileName).

(* ------------------------------------------------------------------ *)
(** ** folder.go: the methods of a folder handle

    Where a method both changes its receiver and returns something
    else, the model returns the receiver after the call beside the
    result. *)

Definition folder_relocate (f : Folder) (result : CloudStructureEntryBase) : Folder :=
  {| folder_base :=
       {| Name := Name result;
          base_Size := base_Size (folder_base f);
          FullPath := FullPath result;
          PublicLink := PublicLink result;
          base_FilesCount := base_FilesCount (folder_base f);
          base_FoldersCount := base_FoldersCount (folder_base f);
          account := account (folder_base f);
          client := client (folder_base f) |};
     FoldersCount := FoldersCount f; FilesCount := FilesCount f;
     Items := Items f; prevDiskUsed := prevDiskUsed f;
     lastItemsGettingTime := lastItemsGettingTime f |}.

Definition Folder_Publish (f : Folder) : M (res Folder) :=
  viaClient (folder_base f)
    (emptyArgument (String.eqb (FullPath (folder_base f)) EmptyString)) (fun c =>
    result <-? Publish c (FullPath (folder_base f)) ;;
    ret (Ok (folder_set_PublicLink f (PublicLink result)))).

Definition Folder_Remove (f : Folder) : M (Folder * option error) :=
  viaClient (folder_base f)
    (if String.eqb (FullPath (folder_base f)) EmptyString
     then Some (f, Some (CloudClientError EmptyString ErrorCodePathNotExists))
     else None)
    (fun c =>
    err <- Remove c (FullPath (folder_base f)) ;;
    match err with
    | Some e => ret (f, Some e)
    | None => f <- updateFolderInfo f true ;; ret (f, None)
    end).

Definition Folder_Rename (f : Folder) (newName : string) : M (res Folder) :=
  viaClient (folder_base f)
    (emptyArgument (String.eqb (FullPath (folder_base f)) EmptyString
                    || String.eqb newName EmptyString)) (fun c =>
    result <-? Rename c (FullPath (folder_base f)) newName ;;
    f <- updateFolderInfo (folder_relocate f result) true ;;
    ret (Ok f)).

(** [Folder.Copy]: the new handle has the base returned by the client
    and the counts of the receiver; its items are nil. *)
Definition Folder_Copy (f : Folder) (destFolderPath : string) : M (res Folder) :=
  viaClient (folder_base f)
    (emptyArgument (String.eqb (FullPath (folder_base f)) EmptyString
                    || String.eqb destFolderPath EmptyString)) (fun c =>
    result <-? Copy c (FullPath (folder_base f)) destFolderPath ;;
    ret (Ok {| folder_base := result;
               FoldersCount := FoldersCount f;
               FilesCount := FilesCount f;
               Items := None;
               prevDiskUsed := 0;
               lastItemsGettingTime := zeroTime |})).

Definition Folder_Move (f : Folder) (destFolderPath : string) : M (res Folder) :=
  viaClient (folder_base f)
    (emptyArgument (String.eqb (FullPath (folder_base f)) EmptyString
                    || String.eqb destFolderPath EmptyString)) (fun c =>
    result <-? Move c (FullPath (folder_base f)) destFolderPath ;;
    f <- updateFolderInfo (folder_relocate f result) true ;;
    ret (Ok f)).

(** [Folder.CreateFolder]: a name with a slash is refused before the
    client is touched. *)
Definition Folder_CreateFolder (f : Folder) (folderName : string)
  : M (Folder * res Folder) :=
  if GoString.Contains folderName "/" then
    ret (f, Err (CloudClientError EmptyString ErrorCodePathNotExists))
  else
    viaClient (folder_base f) None (fun c =>
      r <- CreateFolder c (FullPath (folder_base f) ++ "/" ++ folderName) ;;
      match r with
      | Err e => ret (f, Err e)
      | Ok result => f <- updateFolderInfo f true ;; ret (f, Ok result)
      end).

(** [Folder.UploadFileFromStream] *)
Definition Folder_UploadFileFromStream (f : Folder) (fileName : string)
    (content : res ByteSlice) : M (Folder * res File) :=
  viaClient (folder_base f) None (fun c =>
    r <- UploadFileFromStream c fileName content (FullPath (folder_base f)) ;;
    match r with
    | Err e => ret (f, Err e)
    | Ok result => f <- updateFolderInfo f false ;; ret (f, Ok result)
    end).

(* ------------------------------------------------------------------ *)
(** ** account.go: logging in *)

(** The decoder of the list of tariffs ([json.Unmarshal] into a struct
    with a [body] field of type [[]*Rate]). *)
Variable decodeRates : Body -> res (list Rate).

(** [NewAccount] *)
Definition NewAccount (email password : string) : Account :=
  {| Email := email; Password := password; ActivatedTariffs := [];
     authToken := EmptyString; httpClient := false; cookies := true |}.

(** [Account.initHttpClient]: a jar is made if there is none and a
    client around it is installed. *)
Definition initHttpClient (a : Account) : Account :=
  {| Email := Email a; Password := Password a;
     ActivatedTariffs := ActivatedTariffs a;
     authToken := authToken a; httpClient := true; cookies := true |}.

Definition account_set_authToken (a : Account) (token : string) : Account :=
  {| Email := Email a; Password := Password a;
     ActivatedTariffs := ActivatedTariffs a;
     authToken := token; httpClient := httpClient a; cookies := cookies a |}.

Definition account_set_ActivatedTariffs (a : Account) (rates : list Rate) : Account :=
  {| Email := Email a; Password := Password a;
     ActivatedTariffs := rates;
     authToken := authToken a; httpClient := httpClient a; cookies := cookies a |}.

(** The body of the loop of [getRates]. *)
Definition rate_normalize (rate : Rate) : Rate :=
  {| rate_Name :=
       if String.eqb (rate_Name rate) EmptyString then rate_ID rate
       else rate_Name rate;
     rate_IsActive := rate_IsActive rate;
     rate_ID := rate_ID rate;
     rate_IsAvailable := rate_IsAvailable rate;
     rate_Size := Some (NewSize (rate_SizeBytes rate));
     rate_Cost := rate_Cost rate;
     rate_SizeBytes := rate_SizeBytes rate |}.

(** [Account.getRates] *)
Definition getRates (a : Account) : M (res (list Rate)) :=
  err <- Account_checkAuthorization a false ;;
  match err with
  | Some e => ret (Err e)
  | None =>
      let ratesURL :=
        BaseMailRuCloud ++ "/api/v2/billing/rates?api=2&email=" ++ Email a
          ++ "&x-email=" ++ Email a ++ "&token=" ++ authToken a in
      resp <- httpDo a (GET ratesURL) ;;
      match resp with
      | TransportError => ret (Err (OtherError "transport"))
      | HTTPResponse _ body =>
          match body with
          | BodyUnreadable => ret (Err (OtherError "read"))
          | _ =>
              match decodeRates body with
              | Err e => ret (Err e)
              | Ok rates => ret (Ok (map rate_normalize rates))
              end
          end
      end
  end.

(** [Account.Login]: the account after the call and the error.  The
    fields of the account are written as the steps go, so a failed login
    leaves the account with what was set before the failure. *)
Definition Login (a : Account) : M (Account * option error) :=
  err <- Account_checkAuthorization a true ;;
  match err with
  | Some e => ret (a, Some e)
  | None =>
      let a := initHttpClient a in
      let formData :=
        [("Login", Email a); ("Domain", "mail.ru"); ("Password", Password a)] in
      resp <- httpDo a (POST ("https://auth.mail.ru" ++ "/cgi-bin/auth") formData) ;;
      match resp with
      | TransportError => ret (a, Some (OtherError "transport"))
      | HTTPResponse status _ =>
          if negb (status =? 200) then ret (a, Some (OtherError "auth status"))
          else
            resp <- httpDo a
                      (GET ("https://auth.mail.ru"
                              ++ "/sdc?from=https://cloud.mail.ru/home")) ;;
            match resp with
            | TransportError => ret (a, Some (OtherError "transport"))
            | HTTPResponse status _ =>
                if negb (status =? 200) then ret (a, Some (OtherError "sdc status"))
                else
                  let a := initHttpClient a in
                  resp <- httpDo a (GET (BaseMailRuCloud ++ "/api/v2/tokens/csrf")) ;;
                  match resp with
                  | TransportError => ret (a, Some (OtherError "transport"))
                  | HTTPResponse _ body =>
                      match decodeString body with
                      | Err e => ret (a, Some e)
                      | Ok token =>
                          let a := account_set_authToken a token in
                          if String.eqb token EmptyString then
                            ret (a, Some (OtherError "no token"))
                          else
                            r <- getRates a ;;
                            match r with
                            | Err e => ret (a, Some e)
                            | Ok rates =>
                                ret (account_set_ActivatedTariffs a
                                       (filter rate_IsActive rates), None)
                            end
                      end
                  end
            end
      end
  end.

End Client.

Arguments mkRequest {ByteSlice} Method URL Form Payload.
Arguments Method {ByteSlice} r.
Arguments URL {ByteSlice} r.
Arguments Form {ByteSlice} r.
Arguments Payload {ByteSlice} r.
Arguments mkState {ByteSlice World} world trace progress.
Arguments world {ByteSlice World} c.
Arguments trace {ByteSlice World} c.
Arguments progress {ByteSlice World} c.
Arguments ret {ByteSlice World A} a _.
Arguments panic {ByteSlice World A} _.
Arguments bind {ByteSlice World A B} m k _.
Arguments try {ByteSlice World A B} m k _.
Arguments GET {ByteSlice} url.
Arguments POST {ByteSlice} url form.
Arguments PUT {ByteSlice} url body.
Arguments httpDo {ByteSlice World} transport a req _.
Arguments Now {ByteSlice World} clock _.
Arguments getDiskUsage_request {ByteSlice World} transport a _.
Arguments Account_checkAuthorization {ByteSlice World} transport a baseCheckout _.
Arguments getDiskUsageInternal {ByteSlice World} transport a checkAuthorization _.
Arguments GetDiskUsage {ByteSlice World} transport a _.
Arguments Account_CheckAuthorization {ByteSlice World} transport a _.
Arguments checkAuthorization {ByteSlice World} transport c _.
Arguments authorized {ByteSlice World} transport {B} c k _.
Arguments GetFolder {ByteSlice World} transport c fullPath _.
Arguments updateFolderInfo {ByteSlice World} transport clock f forceUpdate _.
Arguments GetFiles {ByteSlice World} transport clock f _.
Arguments GetFolders {ByteSlice World} transport clock f _.
Arguments checkUnknownItemExisting {ByteSlice World} transport clock c sourceFullPath _.
Arguments publishUnpublishInternal {ByteSlice World} transport clock c link publish _.
Arguments Publish {ByteSlice World} transport clock c sourceFullPath _.
Arguments Unpublish {ByteSlice World} transport clock c publicLink _.
Arguments File_Unpublish {ByteSlice World} transport clock f _.
Arguments Folder_Unpublish {ByteSlice World} transport clock f _.
Arguments createFileOrFolder {ByteSlice World} transport c addFile path hash size rewriteExisting _.
Arguments getShardsInfo {ByteSlice World} transport c _.
Arguments GetFileHistory {ByteSlice World} transport c sourceFullPath _.
Arguments RestoreFileFromHistory {ByteSlice World} transport ToLower c sourceFullPath
  historyRevision rewriteExisting newFileName _.
Arguments emitProgress {ByteSlice World} e _.
Arguments uploadTransfer {ByteSlice} byteLen {World} transport clock c destFileName
  contentBytes destFolderPath _.
Arguments UploadFileFromStream {ByteSlice} byteLen {World} transport clock c destFileName
  content destFolderPath _.
Arguments GetDirectLinkZIPArchive {ByteSlice World} transport clock ToLower c
  filesAndFoldersPaths destZipArchiveName _.
Arguments NewCloudClient {ByteSlice World} transport account _.
Arguments Remove {ByteSlice World} transport c sourceFullPath _.
Arguments Rename {ByteSlice World} transport clock ToLower c sourceFullPath name _.
Arguments moveOrCopyInternal {ByteSlice World} transport clock c sourceFullPath
  destFolderPath move _.
Arguments Copy {ByteSlice World} transport clock c sourceFullPath destFolderPath _.
Arguments Move {ByteSlice World} transport clock c sourceFullPath destFolderPath _.
Arguments CreateFolder {ByteSlice World} transport c fullFolderPath _.
Arguments GetFileOneTimeDirectLink {ByteSlice World} transport c publicLink _.
Arguments viaClient {ByteSlice World A} b early k _.
Arguments File_Publish {ByteSlice World} transport clock f _.
Arguments File_Remove {ByteSlice World} transport f _.
Arguments File_Rename {ByteSlice World} transport clock ToLower f newName _.
Arguments File_Copy {ByteSlice World} transport clock f destFolderPath _.
Arguments File_Move {ByteSlice World} transport clock f destFolderPath _.
Arguments File_GetFileOneTimeDirectLink {ByteSlice World} transport f _.
Arguments File_GetFileHistory {ByteSlice World} transport f _.
Arguments File_RestoreFileFromHistory {ByteSlice World} transport ToLower f
  historyRevision rewriteExisting newFileName _.
Arguments Folder_Publish {ByteSlice World} transport clock f _.
Arguments Folder_Remove {ByteSlice World} transport clock f _.
Arguments Folder_Rename {ByteSlice World} transport clock ToLower f newName _.
Arguments Folder_Copy {ByteSlice World} transport clock f destFolderPath _.
Arguments Folder_Move {ByteSlice World} transport clock f destFolderPath _.
Arguments Folder_CreateFolder {ByteSlice World} transport clock f folderName _.
Arguments Folder_UploadFileFromStream {ByteSlice} byteLen {World} transport clock f
  fileName content _.
Arguments getRates {ByteSlice World} transport decodeRates a _.
Arguments Login {ByteSlice World} transport decodeRates a _.

(* ================================================================== *)
(** * A scripted world for concrete runs

    The server answers from a list of prepared responses, one per
    request, and fails once the list is used up; the clock stands still;
    a byte slice is a run of zero bytes of a given length; the case
    mapping is the one of the ASCII letters. *)

Module Script.

Definition Bytes : Type := N.
Definition byteLen (b : Bytes) : N := b.

Definition World : Type := list Response.

Definition transport (w : World) (_ : Request Bytes) : Response * World :=
  match w with
  | [] => (TransportError, [])
  | r :: rest => (r, rest)
  end.

Definition clock (w : World) : Time * World := (1700000000 * 1000000000, w).

Definition lowerAscii (c : ascii) : ascii :=
  let n := nat_of_ascii c in
  if (Nat.leb 65 n && Nat.leb n 90)%bool then ascii_of_nat (n + 32) else c.

Fixpoint ToLower (s : string) : string :=
  match s with
  | EmptyString => EmptyString
  | String c r => String (lowerAscii c) (ToLower r)
  end.

Definition start (w : World) : ClientState Bytes World :=
  {| world := w; trace := []; progress := [] |}.

(** An account after a successful login on the free tariff, one on a
    paid tariff, and one that never logged in. *)
Definition zeroRate : Rate :=
  {| rate_Name := "ZERO"; rate_IsActive := true; rate_ID := "ZERO";
     rate_IsAvailable := true; rate_Size := None; rate_Cost := [];
     rate_SizeBytes := 0 |}.

Definition proRate : Rate :=
  {| rate_Name := "PRO"; rate_IsActive := true; rate_ID := "PRO";
     rate_IsAvailable := true; rate_Size := None; rate_Cost := [];
     rate_SizeBytes := 0 |}.

Definition freeAccount : Account :=
  {| Email := "user@mail.ru"; Password := "secret";
     ActivatedTariffs := [zeroRate];
     authToken := "token"; httpClient := true; cookies := true |}.

Definition paidAccount : Account :=
  {| Email := "user@mail.ru"; Password := "secret";
     ActivatedTariffs := [zeroRate; proRate];
     authToken := "token"; httpClient := true; cookies := true |}.

Definition freshAccount : Account :=
  {| Email := "user@mail.ru"; Password := "secret";
     ActivatedTariffs := [];
     authToken := EmptyString; httpClient := false; cookies := true |}.

Definition freeClient : CloudClient :=
  {| client_Account := freeAccount; ProgressChangedEvent := false |}.

Definition paidClient : CloudClient :=
  {| client_Account := paidAccount; ProgressChangedEvent := false |}.

Definition freshClient : CloudClient :=
  {| client_Account := freshAccount; ProgressChangedEvent := false |}.

(** The answer to the disk-usage probe of an authorized session. *)
Definition diskOK : Response :=
  HTTPResponse 200 (BodyDisk (Float64.of_int 8192) (Float64.of_int 100)).

Definition leaf (name type home : string) : CloudStructureEntry :=
  {| entry_Count := None; entry_Name := name; entry_Size := 10;
     entry_Type := type; entry_Home := home; entry_Weblink := EmptyString;
     entry_Mtime := 1600000000; entry_Hash := "HASH";
     entry_List := None |}.

Definition dir (name home : string) (folders files : Z)
    (list : option (list CloudStructureEntry)) : CloudStructureEntry :=
  {| entry_Count := Some {| Folders := folders; Files := files |};
     entry_Name := name; entry_Size := 10;
     entry_Type := "folder"; entry_Home := home; entry_Weblink := EmptyString;
     entry_Mtime := 0; entry_Hash := EmptyString;
     entry_List := list |}.

Definition revision (rev : Z) (current : bool) : History :=
  {| h_ID := rev; h_LastModifiedTimeUTC := zeroTime; h_Name := "a.txt";
     h_FullPath := "/f/a.txt"; h_Size := None; h_IsCurrentVersion := current;
     h_Revision := rev; h_Hash := "HASH";
     h_LastModifiedTimeUnix := 1600000000 + rev; h_SizeBytes := 2048 |}.

(** The listing of the folder "/f": one file and one folder whose
    counts do not match its (empty) child list. *)
Definition folderF : CloudStructureEntry :=
  dir "f" "/f" 1 1
    (Some [leaf "a.txt" "file" "/f/a.txt"; dir "sub" "/f/sub" 0 2 (Some [])]).

Definition listingF : Response := HTTPResponse 200 (BodyEntry folderF).

Definition notFound : Response := HTTPResponse 404 BodyMalformed.

Definition answer (text : string) : Response := HTTPResponse 200 (BodyString text).

(** A folder handle that holds the listing of "/f", fetched at the time
    the clock shows. *)
Definition cachedF : Folder :=
  {| folder_base :=
       {| Name := "f"; base_Size := Some (NewSize 10); FullPath := "/f";
          PublicLink := EmptyString; base_FilesCount := 1;
          base_FoldersCount := 1; account := Some freeAccount;
          client := Some freeClient |};
     FoldersCount := 0; FilesCount := 0;
     Items := entry_List folderF;
     prevDiskUsed := 0;
     lastItemsGettingTime := 1700000000 * 1000000000 |}.

(** The handle of the file "/f/a.txt" as [GetFiles] builds it. *)
Definition fileA : File := fileOfItem cachedF (leaf "a.txt" "file" "/f/a.txt").

Definition shards : ShardsList :=
  {| Video := []; ViewDirect := []; WeblinkView := []; WeblinkVideo := [];
     WeblinkGet := [{| shard_Count := 1; shard_URL := "https://shard.example/weblink" |}];
     Stock := []; WeblinkThumbnails := []; Web := []; Auth := []; View := [];
     Get := []; Upload := [{| shard_Count := 1; shard_URL := "https://shard.example/upload" |}];
     Thumbnails := [] |}.

(** The tariffs of the server: every readable body decodes to them. *)
Definition serverRates : list Rate :=
  [ {| rate_Name := EmptyString; rate_IsActive := true; rate_ID := "ZERO";
       rate_IsAvailable := true; rate_Size := None; rate_Cost := [];
       rate_SizeBytes := 8589934592 |};
    {| rate_Name := "Pro"; rate_IsActive := false; rate_ID := "PRO";
       rate_IsAvailable := true; rate_Size := None; rate_Cost := [];
       rate_SizeBytes := 137438953472 |} ].

Definition decodeRates (b : Body) : res (list Rate) :=
  match b with
  | BodyUnreadable => Err (OtherError "read")
  | BodyMalformed => Err (OtherError "decode")
  | _ => Ok serverRates
  end.

End Script.

(* ================================================================== *)
(** * Definitions used to state the properties *)









(** A path in which every separator is a single "/" not preceded by
    another one; [inRun] tells whether the byte before the text was a
    separator. *)
Fixpoint separatorsCollapsed (inRun : bool) (s : string) : bool :=
  match s with
  | EmptyString => true
  | String c r =>
      if isSeparator c
      then Ascii.eqb c "/"%char && negb inRun && separatorsCollapsed true r
      else separatorsCollapsed false r
  end.

(** Whether the text [s], read after a byte that was ([inRun]) or was
    not a separator, ends inside a run of separators. *)
Fixpoint endsInRun (inRun : bool) (s : string) : bool :=
  match s with
  | EmptyString => inRun
  | String c r => endsInRun (isSeparator c) r
  end.

(** A path as it is put into the list sent to the archive endpoint. *)
Definition quotedPath (path : string) : string :=
  dquote ++ getPathStartEndSlash path true false ++ dquote.

(** All paths of the list have the parent [parent]. *)
Definition allParentsAre (parent : string) (paths : list string) : Prop :=
  Forall (fun p => getParentCloudPath p = parent) paths.

(** The parents of the paths are all equal. *)
Definition sameParents (paths : list string) : Prop :=
  forall p q, In p paths -> In q paths ->
    getParentCloudPath p = getParentCloudPath q.

(** Whether [checkAuthorization] reaches the disk-usage probe, and the
    request it then sends. *)
Definition probes (a : Account) : bool :=
  negb (String.eqb (Email a) EmptyString)
  && negb (String.eqb (Password a) EmptyString)
  && cookies a
  && negb (String.eqb (authToken a) EmptyString).

Definition probeRequest {ByteSlice : Type} (a : Account) : Request ByteSlice :=
  GET (BaseMailRuCloud ++ "/api/v2/user/space?api=2&email=" ++ Email a
         ++ "&token=" ++ authToken a).

Definition authProbe {ByteSlice : Type} (a : Account) : list (Request ByteSlice) :=
  if probes a then [probeRequest a] else [].

(** An account whose HTTP client is set whenever its token is: the state
    of every account that went through [Login], and of every account
    that did not (its token is empty). *)
Definition transportReady (a : Account) : Prop :=
  probes a = true -> httpClient a = true.

Definition isUploadRequest {ByteSlice : Type} (r : Request ByteSlice) : bool :=
  String.eqb (Method r) "PUT".

Definition isZipRequest {ByteSlice : Type} (r : Request ByteSlice) : bool :=
  String.eqb (URL r) (BaseMailRuCloud ++ CreateZipArchive).

(** The number of entries of a history sequence flagged as current. *)
Definition currentCount (l : list History) : nat :=
  List.length (filter h_IsCurrentVersion l).

(** How the log of requests grows: the requests of [s'] are those of
    [s] followed by requests that all satisfy [P]; a computation tracks
    [P] when every run of it extends the log in this way. *)
Definition extends {B W : Type} (P : Request B -> Prop)
    (s s' : ClientState B W) : Prop :=
  exists l, trace s' = (trace s ++ l)%list /\ Forall P l.

Definition tracks {B W A : Type} (P : Request B -> Prop) (m : M B W A) : Prop :=
  forall s, extends P s (snd (m s)).

(** Every error a computation returns satisfies [E]. *)
Definition errs {B W A : Type} (E : error -> Prop) (m : M B W (res A)) : Prop :=
  forall s e, fst (m s) = Some (Err e) -> E e.

Definition isGET {B : Type} (r : Request B) : Prop := Method r = "GET".

Definition notUpload {B : Type} (r : Request B) : Prop :=
  isUploadRequest r = false.

Definition notZip {B : Type} (r : Request B) : Prop :=
  isZipRequest r = false.

Definition isOtherError (e : error) : Prop := exists what, e = OtherError what.

(** The state in which the authorization check of the client leaves. *)
Definition afterAuth {B W : Type} (transport : W -> Request B -> Response * W)
    (c : CloudClient) (s : ClientState B W) : ClientState B W :=
  snd (checkAuthorization transport c s).

(** The requests sent by [publishUnpublishInternal]. *)
Definition unpublishRequest {B : Type} (c : CloudClient) (weblink : string)
  : Request B :=
  let a := client_Account c in
  POST (BaseMailRuCloud ++ FileRequest ++ "unpublish")
       [("api", "2"); ("token", authToken a); ("email", Email a);
        ("x-email", Email a); ("weblink", weblink)].

Definition publishRequest {B : Type} (c : CloudClient) (home : string)
  : Request B :=
  let a := client_Account c in
  POST (BaseMailRuCloud ++ FileRequest ++ "publish")
       (List.app
          [("api", "2"); ("token", authToken a); ("email", Email a);
           ("x-email", Email a)]
          (if String.eqb home EmptyString then [] else [("home", home)])).

(** The kind of the error with which a run ends: [None] for a panic,
    [Some None] for a result that is no [CloudClientError]. *)
Definition errorCodeOf_run {B W A : Type}
    (r : option (res A) * ClientState B W) : option (option ErrorCode) :=
  match fst r with
  | Some x => Some (errorCodeOf x)
  | None => None
  end.

(** A public link is empty or starts with the public prefix. *)
Definition linkWellFormed (l : string) : Prop :=
  l = EmptyString \/ GoString.HasPrefix l PublicLinkPrefix = true.

(** The run that ended in [s'] sent a POST to [url] as its last request,
    and the answer of the server to that request carried [body]. *)
Definition answered {B W : Type} (transport : W -> Request B -> Response * W)
    (s' : ClientState B W) (url : string) (body : Body) : Prop :=
  exists (w : W) (req : Request B) (status : Z) (l : list (Request B)),
    transport w req = (HTTPResponse status body, world s')
    /\ Method req = "POST" /\ URL req = url
    /\ trace s' = (l ++ [req])%list.

(* ================================================================== *)
(** * Capacity gating *)

Lemma Has2GBUploadSizeLimit_loop_Forall (rates : list Rate) :
  Has2GBUploadSizeLimit_loop rates = true <->
  Forall (fun rate => rate_ID rate = "ZERO") rates.
Proof.
  induction rates as [| rate rest IH]; simpl.
  - split; [constructor | reflexivity].
  - destruct (String.eqb_spec (rate_ID rate) "ZERO") as [E | E]; simpl.
    + rewrite IH. split.
      * intro H. constructor; assumption.
      * intro H. inversion H; assumption.
    + split; [discriminate |].
      intro H. inversion H. contradiction.
Qed.

(** C1.  An account is capacity-limited exactly when every activated
    tariff has the identifier "ZERO": [Has2GBUploadSizeLimit] returns
    true if and only if all elements of [ActivatedTariffs] carry that
    ID.  The empty list and the first foreign ID are the two lemmas that
    follow. *)
Theorem Has2GBUploadSizeLimit_iff_all_ZERO (a : Account) :
  Has2GBUploadSizeLimit a = true <->
  Forall (fun rate => rate_ID rate = "ZERO") (ActivatedTariffs a).
Proof.
  unfold Has2GBUploadSizeLimit. apply Has2GBUploadSizeLimit_loop_Forall.
Qed.

Lemma Has2GBUploadSizeLimit_no_tariffs (a : Account) :
  ActivatedTariffs a = [] -> Has2GBUploadSizeLimit a = true.
Proof.
  intro E. unfold Has2GBUploadSizeLimit. rewrite E. reflexivity.
Qed.

Lemma Has2GBUploadSizeLimit_foreign_tariff (a : Account) (rate : Rate) :
  In rate (ActivatedTariffs a) -> rate_ID rate <> "ZERO" ->
  Has2GBUploadSizeLimit a = false.
Proof.
  intros Hin Hne.
  destruct (Has2GBUploadSizeLimit a) eqn:E; [| reflexivity].
  apply Has2GBUploadSizeLimit_loop_Forall in E.
  rewrite Forall_forall in E. elim Hne. apply E. exact Hin.
Qed.

Example capacity_gating_examples :
  Has2GBUploadSizeLimit Script.freeAccount = true
  /\ Has2GBUploadSizeLimit Script.paidAccount = false
  /\ Has2GBUploadSizeLimit Script.freshAccount = true.
Proof. repeat split. Qed.

(* ================================================================== *)
(** * Size normalization *)




(** ** Exact binary64 arithmetic

    The steps of [setNormalizedValue] lose nothing as long as the
    hundredfold of the count fits the 53 bits of the significand: the
    conversion of the count, the divisions by 1024 (the exponent drops
    by ten) and the multiplication by 100 are all exact, and the cut to
    an integer is the quotient of the integers. *)








(** ** Rounding that loses nothing *)




















(* ================================================================== *)
(** * Path normalization *)

Lemma append_empty_r (s : string) : s ++ EmptyString = s.
Proof.
  induction s as [| c r IH]; simpl; [reflexivity | now rewrite IH].
Qed.

Lemma append_assoc (s t u : string) : (s ++ t) ++ u = s ++ (t ++ u).
Proof.
  induction s as [| c r IH]; simpl; [reflexivity | now rewrite IH].
Qed.

Lemma collapse_idempotent (inRun : bool) (s : string) :
  collapse inRun (collapse inRun s) = collapse inRun s.
Proof.
  revert inRun.
  induction s as [| c r IH]; intro inRun; simpl; [reflexivity |].
  destruct (isSeparator c) eqn:Ec.
  - destruct inRun; simpl.
    + apply IH.
    + now rewrite IH.
  - simpl. rewrite Ec. now rewrite IH.
Qed.

(** Appending one slash adds a slash to the collapsed text unless the
    text already ends inside a run. *)
Lemma collapse_snoc_slash (inRun : bool) (s : string) :
  collapse inRun (s ++ "/") =
  collapse inRun s ++ (if endsInRun inRun s then EmptyString else "/").
Proof.
  revert inRun.
  induction s as [| c r IH]; intro inRun; simpl.
  - destruct inRun; reflexivity.
  - destruct (isSeparator c) eqn:Ec.
    + destruct inRun; simpl; now rewrite IH.
    + simpl. now rewrite IH.
Qed.

Lemma endsInRun_collapse_snoc_slash (inRun : bool) (s : string) :
  endsInRun inRun (collapse inRun (s ++ "/")) = true.
Proof.
  revert inRun.
  induction s as [| c r IH]; intro inRun; simpl.
  - destruct inRun; reflexivity.
  - destruct (isSeparator c) eqn:Ec.
    + destruct inRun; simpl; apply IH.
    + simpl. rewrite Ec. apply IH.
Qed.

(** Collapsing, adding the trailing slash again and collapsing again
    changes nothing. *)
Lemma collapse_readd_trailing (inRun setAtEnd : bool) (s : string) :
  let post := if setAtEnd then "/" else EmptyString in
  collapse inRun (collapse inRun (s ++ post) ++ post) = collapse inRun (s ++ post).
Proof.
  destruct setAtEnd; simpl.
  - rewrite (collapse_snoc_slash inRun (collapse inRun (s ++ "/"))).
    rewrite endsInRun_collapse_snoc_slash, collapse_idempotent.
    apply append_empty_r.
  - rewrite !append_empty_r. apply collapse_idempotent.
Qed.

Lemma getPathStartEndSlash_unfold (path : string) (setAtStart setAtEnd : bool) :
  getPathStartEndSlash path setAtStart setAtEnd =
  collapse false
    ((if setAtStart then "/" ++ path else path)
       ++ (if setAtEnd then "/" else EmptyString)).
Proof.
  unfold getPathStartEndSlash, ReplaceAllSeparators.
  assert (E : (if String.eqb path EmptyString then EmptyString else path) = path).
  { destruct (String.eqb_spec path EmptyString) as [-> | _]; reflexivity. }
  rewrite E.
  destruct setAtEnd; [reflexivity |].
  now rewrite append_empty_r.
Qed.

(** C7.  Normalizing a path twice with the same two flags gives the same
    string as normalizing it once, for every path and every choice of
    the leading-slash and trailing-slash flags. *)
Theorem getPathStartEndSlash_idempotent (path : string) (setAtStart setAtEnd : bool) :
  getPathStartEndSlash (getPathStartEndSlash path setAtStart setAtEnd)
    setAtStart setAtEnd
  = getPathStartEndSlash path setAtStart setAtEnd.
Proof.
  rewrite !getPathStartEndSlash_unfold.
  destruct setAtStart.
  - cbn [append collapse isSeparator Ascii.eqb Bool.eqb orb].
    f_equal.
    apply (collapse_readd_trailing true setAtEnd path).
  - apply (collapse_readd_trailing false setAtEnd path).
Qed.

(** What normalization leaves: single forward slashes only, a leading
    slash when asked for, a trailing slash when asked for. *)
Lemma separatorsCollapsed_collapse (inRun : bool) (s : string) :
  separatorsCollapsed inRun (collapse inRun s) = true.
Proof.
  revert inRun.
  induction s as [| c r IH]; intro inRun; simpl; [reflexivity |].
  destruct (isSeparator c) eqn:Ec.
  - destruct inRun; simpl; [apply IH | apply IH].
  - simpl. rewrite Ec. apply IH.
Qed.

Lemma getPathStartEndSlash_separatorsCollapsed
    (path : string) (setAtStart setAtEnd : bool) :
  separatorsCollapsed false (getPathStartEndSlash path setAtStart setAtEnd) = true.
Proof.
  rewrite getPathStartEndSlash_unfold. apply separatorsCollapsed_collapse.
Qed.

Lemma getPathStartEndSlash_leading (path : string) (setAtEnd : bool) :
  exists rest, getPathStartEndSlash path true setAtEnd = "/" ++ rest.
Proof.
  rewrite getPathStartEndSlash_unfold. simpl. eauto.
Qed.

Lemma collapse_snoc_slash_trailing (inRun : bool) (s : string) :
  exists t,
    (if inRun then "/" else EmptyString) ++ collapse inRun (s ++ "/") = t ++ "/".
Proof.
  revert inRun.
  induction s as [| c r IH]; intro inRun.
  - exists EmptyString. destruct inRun; reflexivity.
  - simpl. destruct (isSeparator c) eqn:Ec.
    + destruct inRun.
      * apply (IH true).
      * apply (IH true).
    + destruct (IH false) as [t Ht]. simpl in Ht.
      exists ((if inRun then "/" else EmptyString) ++ String c t).
      rewrite append_assoc. simpl. now rewrite Ht.
Qed.

Lemma getPathStartEndSlash_trailing (path : string) (setAtStart : bool) :
  exists rest, getPathStartEndSlash path setAtStart true = rest ++ "/".
Proof.
  rewrite getPathStartEndSlash_unfold.
  apply (collapse_snoc_slash_trailing false).
Qed.

Example getPathStartEndSlash_examples :
  getPathStartEndSlash "a\\//b" true true = "/a/b/"
  /\ getPathStartEndSlash "/a//b/" false false = "/a/b/"
  /\ getPathStartEndSlash EmptyString true true = "/"
  /\ getPathStartEndSlash EmptyString false false = EmptyString.
Proof. repeat split. Qed.

(* ================================================================== *)
(** * Parent paths and the common-parent loop *)

Lemma LastIndex_from_slash_range (s : string) (i : Z) :
  GoString.LastIndex_from i s "/" = -1 \/ i <= GoString.LastIndex_from i s "/".
Proof.
  revert i.
  induction s as [| c r IH]; intro i.
  - left; reflexivity.
  - cbn [GoString.LastIndex_from].
    destruct (IH (i + 1)) as [E | L].
    + rewrite E. cbn [Z.eqb Pos.eqb].
      destruct (prefix "/" (String c r)); [right; lia | left; reflexivity].
    + destruct (Z.eqb_spec (GoString.LastIndex_from (i + 1) r "/") (-1)) as [E | _].
      * destruct (prefix "/" (String c r)); [right; lia | left; reflexivity].
      * right; lia.
Qed.

Lemma getParentCloudPath_nonempty (path : string) :
  getParentCloudPath path <> EmptyString.
Proof.
  unfold getParentCloudPath.
  set (p := GoString.TrimSuffix path "/").
  destruct (Z.eqb_spec (GoString.LastIndex p "/") (-1)) as [E | NE];
    [discriminate |].
  unfold GoString.LastIndex in *.
  destruct (LastIndex_from_slash_range p 0) as [E | L]; [contradiction |].
  destruct p as [| c r]; [simpl in NE; contradiction |].
  unfold GoString.slice.
  replace (Z.to_nat (GoString.LastIndex_from 0 (String c r) "/" + 1 - 0))
    with (S (Z.to_nat (GoString.LastIndex_from 0 (String c r) "/"))) by lia.
  simpl. discriminate.
Qed.

Example getParentCloudPath_examples :
  getParentCloudPath "/a/b/c" = "/a/b/"
  /\ getParentCloudPath "/a" = "/"
  /\ getParentCloudPath EmptyString = "/"
  /\ getParentCloudPath "/f/a.txt" = "/f/"
  /\ getParentCloudPath "/f/b.txt" = "/f/"
  /\ getParentCloudPath "/g/b.txt" = "/g/".
Proof. repeat split. Qed.

(** The loop once [commonPath] is set: it never changes again. *)
Lemma commonPathLoop_from (paths : list string) (commonPath : string)
    (all : bool) (processed : list string) :
  commonPath <> EmptyString ->
  fold_left commonPathStep paths (commonPath, all, processed) =
  (commonPath,
   all && forallb (fun p => String.eqb commonPath (getParentCloudPath p)) paths,
   List.app processed (map quotedPath paths)).
Proof.
  intro Hne. revert all processed.
  induction paths as [| p rest IH]; intros all processed; simpl.
  - now rewrite andb_true_r, app_nil_r.
  - destruct (String.eqb_spec commonPath EmptyString) as [E | _];
      [contradiction |].
    rewrite IH. rewrite <- app_assoc. simpl.
    now rewrite andb_assoc.
Qed.

Lemma commonPathLoop_cons (p : string) (rest : list string) :
  commonPathLoop (p :: rest) =
  (getParentCloudPath p,
   forallb (fun q => String.eqb (getParentCloudPath p) (getParentCloudPath q)) rest,
   map quotedPath (p :: rest)).
Proof.
  unfold commonPathLoop. simpl.
  rewrite String.eqb_refl.
  rewrite commonPathLoop_from by apply getParentCloudPath_nonempty.
  reflexivity.
Qed.

(** The flag computed by the loop says that all parents are equal. *)
Lemma commonPathLoop_sameParents (paths : list string) :
  snd (fst (commonPathLoop paths)) = true <-> sameParents paths.
Proof.
  destruct paths as [| p rest].
  - split; [intros _ x y [] | reflexivity].
  - rewrite commonPathLoop_cons. cbn [fst snd].
    rewrite forallb_forall. split.
    + intros H x y Hx Hy.
      assert (P : forall z, In z (p :: rest) ->
                            getParentCloudPath p = getParentCloudPath z).
      { intros z [<- | Hz]; [reflexivity |].
        apply String.eqb_eq. apply H. exact Hz. }
      rewrite <- (P x Hx), <- (P y Hy). reflexivity.
    + intros H q Hq. apply String.eqb_eq.
      apply H; [left; reflexivity | right; exact Hq].
Qed.

Lemma hasEmptyOrRootPath_spec (paths : list string) :
  hasEmptyOrRootPath paths = true <->
  exists p, In p paths /\ (p = EmptyString \/ p = "/").
Proof.
  induction paths as [| p rest IH]; simpl.
  - split; [discriminate | intros (q & [] & _)].
  - destruct (String.eqb_spec p EmptyString) as [E | NE]; simpl.
    + split; [| reflexivity]. intros _. exists p. auto.
    + destruct (String.eqb_spec p "/") as [E' | NE'].
      * split; [| reflexivity]. intros _. exists p. auto.
      * rewrite IH. split.
        -- intros (q & Hq & Hc). exists q. auto.
        -- intros (q & [<- | Hq] & Hc).
           ++ destruct Hc; contradiction.
           ++ exists q. auto.
Qed.

(* ================================================================== *)
(** * The operations of the client *)

Section ClientFacts.

Context {ByteSlice : Type} (byteLen : ByteSlice -> N) {World : Type}
  (transport : World -> Request ByteSlice -> Response * World)
  (clock : World -> Time * World) (ToLower : string -> string).

Implicit Types (s : ClientState ByteSlice World) (c : CloudClient) (a : Account).
Implicit Types (P : Request ByteSlice -> Prop) (E : error -> Prop).

Local Abbreviation M' := (M ByteSlice World).

(** ** The log of requests *)

Lemma state_eta s :
  {| world := world s; trace := trace s; progress := progress s |} = s.
Proof. destruct s; reflexivity. Qed.

Lemma extends_refl P s : extends P s s.
Proof. exists []. split; [now rewrite app_nil_r | constructor]. Qed.

Lemma extends_trans P s1 s2 s3 :
  extends P s1 s2 -> extends P s2 s3 -> extends P s1 s3.
Proof.
  intros (l1 & E1 & F1) (l2 & E2 & F2). exists (l1 ++ l2)%list. split.
  - now rewrite E2, E1, app_assoc.
  - apply Forall_app; auto.
Qed.

Lemma extends_weaken P (Q : Request ByteSlice -> Prop) s s' :
  (forall r, P r -> Q r) -> extends P s s' -> extends Q s s'.
Proof.
  intros H (l & E1 & F). exists l. split; [exact E1 |].
  eapply Forall_impl; [exact H | exact F].
Qed.

Lemma tracks_ret P {A : Type} (x : A) : tracks P (ret x : M' A).
Proof. intro s. apply extends_refl. Qed.

Lemma tracks_panic P {A : Type} : tracks P (panic : M' A).
Proof. intro s. apply extends_refl. Qed.

Lemma tracks_bind P {A B : Type} (m : M' A) (k : A -> M' B) :
  tracks P m -> (forall x, tracks P (k x)) -> tracks P (bind m k).
Proof.
  intros Hm Hk s. unfold bind.
  specialize (Hm s). destruct (m s) as [[x |] s1]; cbn [snd] in *.
  - eapply extends_trans; [exact Hm | apply Hk].
  - exact Hm.
Qed.

Lemma tracks_try P {A B : Type} (m : M' (res A)) (k : A -> M' (res B)) :
  tracks P m -> (forall x, tracks P (k x)) -> tracks P (try m k).
Proof.
  intros Hm Hk. unfold try. apply tracks_bind; [exact Hm |].
  intros [x | e]; [apply Hk | apply tracks_ret].
Qed.

Lemma tracks_httpDo P a (req : Request ByteSlice) :
  P req -> tracks P (httpDo transport a req).
Proof.
  intros Hreq s. unfold httpDo.
  destruct (httpClient a); [| apply extends_refl].
  destruct (transport (world s) req) as [r w]. cbn [snd].
  exists [req]. split; [reflexivity | now constructor].
Qed.

Lemma tracks_Now P : tracks P (Now clock : M' Time).
Proof.
  intro s. unfold Now. destruct (clock (world s)). cbn [snd].
  exists []. cbn [trace]. split; [now rewrite app_nil_r | constructor].
Qed.

Lemma tracks_emitProgress P e : tracks P (emitProgress e : M' unit).
Proof.
  intro s. exists []. cbn. split; [now rewrite app_nil_r | constructor].
Qed.

Lemma tracks_weaken P (Q : Request ByteSlice -> Prop) {A : Type} (m : M' A) :
  (forall r, P r -> Q r) -> tracks P m -> tracks Q m.
Proof.
  intros H Hm s. eapply extends_weaken; [exact H | apply Hm].
Qed.

Ltac tracks_step :=
  match goal with
  | |- tracks _ (bind _ _) => apply tracks_bind; [| intro]
  | |- tracks _ (try _ _) => apply tracks_try; [| intro]
  | |- tracks _ (ret _) => apply tracks_ret
  | |- tracks _ panic => apply tracks_panic
  | |- tracks _ (Now _) => apply tracks_Now
  | |- tracks _ (emitProgress _) => apply tracks_emitProgress
  | |- tracks _ (httpDo _ _ _) => apply tracks_httpDo
  | |- tracks _ (match ?x with _ => _ end) => destruct x
  | |- tracks _ (let _ := _ in _) => cbv zeta
  end.

Lemma tracks_getDiskUsage_request a :
  tracks isGET (getDiskUsage_request transport a).
Proof.
  unfold getDiskUsage_request. repeat tracks_step. reflexivity.
Qed.

Lemma tracks_Account_checkAuthorization a b :
  tracks isGET (Account_checkAuthorization transport a b).
Proof.
  unfold Account_checkAuthorization. repeat tracks_step.
  apply tracks_getDiskUsage_request.
Qed.

Lemma tracks_checkAuthorization c :
  tracks isGET (checkAuthorization transport c).
Proof.
  unfold checkAuthorization, Account_CheckAuthorization. repeat tracks_step.
  apply tracks_Account_checkAuthorization.
Qed.

Lemma tracks_authorized P {B : Type} c (k : M' (res B)) :
  tracks P (checkAuthorization transport c) -> tracks P k ->
  tracks P (authorized transport c k).
Proof.
  intros Hc Hk. unfold authorized. repeat tracks_step; assumption.
Qed.

Lemma tracks_GetFolder c p : tracks isGET (GetFolder transport c p).
Proof.
  unfold GetFolder. apply tracks_authorized; [apply tracks_checkAuthorization |].
  repeat tracks_step. reflexivity.
Qed.

(** ** Authorization never fails

    [Account.CheckAuthorization] turns every failure into its boolean,
    so the error that [CloudClient.checkAuthorization] hands on is nil;
    what remains of the check is the probe it sends. *)

Lemma Account_checkAuthorization_run a s :
  transportReady a ->
  exists r w,
    Account_checkAuthorization transport a false s =
    (Some r, {| world := w; trace := (trace s ++ authProbe a)%list;
                progress := progress s |}).
Proof.
  unfold transportReady, authProbe, probes, Account_checkAuthorization.
  destruct (String.eqb (Email a) EmptyString); simpl;
    [intros _; exists (Some (NotAuthorizedError "Login")), (world s);
     cbv [ret]; now rewrite app_nil_r, state_eta |].
  destruct (String.eqb (Password a) EmptyString); simpl;
    [intros _; exists (Some (NotAuthorizedError "Password")), (world s);
     cbv [ret]; now rewrite app_nil_r, state_eta |].
  destruct (cookies a); simpl;
    [| intros _; exists (Some (NotAuthorizedError EmptyString)), (world s);
       cbv [ret]; now rewrite app_nil_r, state_eta ].
  destruct (String.eqb (authToken a) EmptyString); simpl;
    [intros _; exists (Some (NotAuthorizedError EmptyString)), (world s);
     cbv [ret]; now rewrite app_nil_r, state_eta |].
  intros Hc. specialize (Hc eq_refl).
  cbv [bind getDiskUsage_request httpDo ret probeRequest]. rewrite Hc.
  match goal with
  | |- context [transport ?w ?r] => destruct (transport w r) as [resp w']
  end.
  destruct resp as [| status body]; [eauto |].
  destruct (negb (status =? 200)); [eauto |].
  destruct (decodeDisk body) as [[t u] | e]; eauto.
Qed.

Lemma checkAuthorization_run c s :
  transportReady (client_Account c) ->
  checkAuthorization transport c s = (Some None, afterAuth transport c s)
  /\ trace (afterAuth transport c s)
     = (trace s ++ authProbe (client_Account c))%list
  /\ progress (afterAuth transport c s) = progress s.
Proof.
  intro H. unfold afterAuth.
  destruct (Account_checkAuthorization_run (client_Account c) s H) as (r & w & E).
  cbv [checkAuthorization Account_CheckAuthorization bind]. rewrite E.
  destruct r; cbn; auto.
Qed.

Lemma checkAuthorization_nil c s r :
  fst (checkAuthorization transport c s) = Some r -> r = None.
Proof.
  cbv [checkAuthorization Account_CheckAuthorization bind].
  destruct (Account_checkAuthorization transport (client_Account c) false s)
    as [[[e |] |] s1]; cbn; congruence.
Qed.

Lemma authorized_run {B : Type} c (k : M' (res B)) s :
  transportReady (client_Account c) ->
  authorized transport c k s = k (afterAuth transport c s).
Proof.
  intro H. destruct (checkAuthorization_run c s H) as (E & _).
  unfold authorized, bind. now rewrite E.
Qed.

(** ** The errors of a computation *)

Lemma errs_ret_Ok E {A : Type} (x : A) : errs E (ret (Ok x) : M' (res A)).
Proof. intros s e. cbn. congruence. Qed.

Lemma errs_ret_Err E {A : Type} (e : error) :
  E e -> errs E (ret (Err e) : M' (res A)).
Proof. intros He s e'. cbn. congruence. Qed.

Lemma errs_panic E {A : Type} : errs E (panic : M' (res A)).
Proof. intros s e. cbn. congruence. Qed.

Lemma errs_bind E {A B : Type} (m : M' A) (k : A -> M' (res B)) :
  (forall x, errs E (k x)) -> errs E (bind m k).
Proof.
  intros Hk s e. unfold bind.
  destruct (m s) as [[x |] s1]; [apply Hk | cbn; congruence].
Qed.

Lemma errs_try E {A B : Type} (m : M' (res A)) (k : A -> M' (res B)) :
  errs E m -> (forall x, errs E (k x)) -> errs E (try m k).
Proof.
  intros Hm Hk s e. unfold try, bind.
  specialize (Hm s).
  destruct (m s) as [[[x | e'] |] s1]; cbn in *.
  - apply Hk.
  - intro H. apply Hm. congruence.
  - congruence.
Qed.

Lemma errs_authorized E {B : Type} c (k : M' (res B)) :
  errs E k -> errs E (authorized transport c k).
Proof.
  intros Hk s e. unfold authorized, bind.
  pose proof (checkAuthorization_nil c s) as Hnil.
  destruct (checkAuthorization transport c s) as [[r |] s1]; cbn in *.
  - rewrite (Hnil r eq_refl). apply Hk.
  - congruence.
Qed.

Ltac errs_step :=
  match goal with
  | |- errs _ (authorized _ _ _) => apply errs_authorized
  | |- errs _ (bind _ _) => apply errs_bind; intro
  | |- errs _ (try _ _) => apply errs_try; [| intro]
  | |- errs _ (ret (Ok _)) => apply errs_ret_Ok
  | |- errs _ (ret (Err _)) => apply errs_ret_Err
  | |- errs _ panic => apply errs_panic
  | |- errs _ (match ?x with _ => _ end) => destruct x eqn:?
  | |- errs _ (let _ := _ in _) => cbv zeta
  end.

Lemma decodeString_error b e : decodeString b = Err e -> isOtherError e.
Proof. destruct b; cbn; intro H; inversion H; eexists; reflexivity. Qed.

Lemma decodeShards_error b e : decodeShards b = Err e -> isOtherError e.
Proof. destruct b; cbn; intro H; inversion H; eexists; reflexivity. Qed.

Lemma errs_getShardsInfo c : errs isOtherError (getShardsInfo transport c).
Proof.
  unfold getShardsInfo. repeat errs_step;
    eauto using decodeShards_error; eexists; reflexivity.
Qed.

Lemma errs_createFileOrFolder c addFile path hash size rewrite :
  errs isOtherError (createFileOrFolder transport c addFile path hash size rewrite).
Proof.
  unfold createFileOrFolder. repeat errs_step;
    eauto using decodeString_error; eexists; reflexivity.
Qed.

Lemma errs_uploadTransfer c name b folder :
  errs isOtherError (uploadTransfer byteLen transport clock c name b folder).
Proof.
  unfold uploadTransfer. repeat errs_step;
    eauto using decodeString_error, errs_getShardsInfo, errs_createFileOrFolder;
    try (eexists; reflexivity).
Qed.

(** ** Uploading: the size ceiling *)

Lemma uploadSizeLimit_values a :
  uploadSizeLimit a =
  if Has2GBUploadSizeLimit a then 2048 * 1024 * 1024 else 32768 * 1024 * 1024.
Proof.
  unfold uploadSizeLimit. destruct (Has2GBUploadSizeLimit a); reflexivity.
Qed.

Lemma tracks_UploadFileFromStream_oversize c name b folder :
  uploadSizeLimit (client_Account c) < Z.of_N (byteLen b) ->
  tracks isGET
    (UploadFileFromStream byteLen transport clock c name (Ok b) folder).
Proof.
  intro Hbig. unfold UploadFileFromStream.
  apply tracks_authorized; [apply tracks_checkAuthorization |].
  cbv zeta.
  destruct (String.eqb name EmptyString); [apply tracks_ret |].
  destruct (byteLen b =? 0)%N; [apply tracks_ret |].
  destruct (String.eqb _ EmptyString); [apply tracks_ret |].
  apply tracks_bind; [apply tracks_GetFolder |].
  intros [fo | e]; [| apply tracks_ret].
  destruct (Z.ltb_spec (uploadSizeLimit (client_Account c)) (Z.of_N (byteLen b)));
    [apply tracks_ret | lia].
Qed.

(** X28.  [UploadFileFromStream] on an account whose transport is ready:
    the ceiling is 2048*1024*1024 bytes for a capacity-limited account
    and 32768*1024*1024 bytes otherwise; empty content is rejected with
    an error after the authorization probe alone; content longer than
    the ceiling never leads to an upload request (all requests are GET),
    and once the file name is given and the folder check returned no
    error the call fails with kind UploadingSizeLimit; content that is
    not empty and not longer than the ceiling passes the size check (the
    call continues with the transfer, which never reports that kind). *)
Theorem UploadFileFromStream_size_ceiling
    c (destFileName : string) (content : res ByteSlice) (destFolderPath : string) s :
  transportReady (client_Account c) ->
  let a := client_Account c in
  let folder := getPathStartEndSlash destFolderPath true true in
  let s1 := afterAuth transport c s in
  let run :=
    UploadFileFromStream byteLen transport clock c destFileName content
      destFolderPath s in
  uploadSizeLimit a =
    (if Has2GBUploadSizeLimit a then 2048 * 1024 * 1024 else 32768 * 1024 * 1024)
  /\ (forall b, content = Ok b -> byteLen b = 0%N ->
        run = (Some (Err (CloudClientError EmptyString ErrorCodePathNotExists)), s1)
        /\ trace s1 = (trace s ++ authProbe a)%list)
  /\ (forall b, content = Ok b -> uploadSizeLimit a < Z.of_N (byteLen b) ->
        extends notUpload s (snd run)
        /\ (forall r, fst run = Some r -> isErr r = true)
        /\ (forall fo s2,
              destFileName <> EmptyString ->
              GetFolder transport c [folder] s1 = (Some (Ok fo), s2) ->
              run = (Some (Err (CloudClientError "content"
                                  ErrorCodeUploadingSizeLimit)), s2)))
  /\ (forall b fo s2,
        content = Ok b -> byteLen b <> 0%N ->
        Z.of_N (byteLen b) <= uploadSizeLimit a ->
        destFileName <> EmptyString ->
        GetFolder transport c [folder] s1 = (Some (Ok fo), s2) ->
        run = uploadTransfer byteLen transport clock c destFileName b folder s2
        /\ (forall r, fst run = Some r ->
              errorCodeOf r <> Some ErrorCodeUploadingSizeLimit)).
Proof.
  intros Hready a folder s1 run.
  assert (Hrun : run =
    (let k :=
       if String.eqb destFileName EmptyString then
         ret (Err (CloudClientError EmptyString ErrorCodePathNotExists))
       else
         match content with
         | Err e => ret (Err e)
         | Ok contentBytes =>
             if (byteLen contentBytes =? 0)%N then
               ret (Err (CloudClientError EmptyString ErrorCodePathNotExists))
             else if String.eqb folder EmptyString then
               ret (Err (CloudClientError EmptyString ErrorCodePathNotExists))
             else
               bind (GetFolder transport c [folder])
                 (fun r =>
                    match r with
                    | Err _ =>
                        ret (Err (CloudClientError "destFolderPath"
                                    ErrorCodePathNotExists))
                    | Ok _ =>
                        if uploadSizeLimit a <? Z.of_N (byteLen contentBytes) then
                          ret (Err (CloudClientError "content"
                                      ErrorCodeUploadingSizeLimit))
                        else
                          uploadTransfer byteLen transport clock c destFileName
                            contentBytes folder
                    end)
         end in
     k s1)).
  { subst run s1. unfold UploadFileFromStream.
    rewrite authorized_run by exact Hready. reflexivity. }
  assert (Hfolder : String.eqb folder EmptyString = false).
  { subst folder.
    destruct (getPathStartEndSlash_leading destFolderPath true) as [rest ->].
    reflexivity. }
  cbv zeta in Hrun. rewrite Hfolder in Hrun.
  split; [apply uploadSizeLimit_values |].
  split; [| split].
  - intros b -> Hlen. split.
    + rewrite Hrun. rewrite Hlen. cbn [N.eqb].
      destruct (String.eqb destFileName EmptyString); reflexivity.
    + apply (checkAuthorization_run c s Hready).
  - intros b -> Hbig. split; [| split].
    + eapply extends_weaken;
        [| apply (tracks_UploadFileFromStream_oversize c destFileName b
                    destFolderPath Hbig s)].
      intros r Hr. unfold notUpload, isUploadRequest. red in Hr. now rewrite Hr.
    + intros r. rewrite Hrun.
      assert (Hfail : forall e s',
                 fst (ret (Err e) s' : option (res File) * _) = Some r ->
                 isErr r = true).
      { cbn. intros e s' H. inversion H. reflexivity. }
      destruct (String.eqb destFileName EmptyString); [apply Hfail |].
      destruct (byteLen b =? 0)%N; [apply Hfail |].
      unfold bind.
      destruct (GetFolder transport c [folder] s1) as [[[fo | e] |] s2];
        [| apply Hfail | cbn; congruence].
      destruct (Z.ltb_spec (uploadSizeLimit a) (Z.of_N (byteLen b))); [| lia].
      apply Hfail.
    + intros fo s2 Hname Hget. rewrite Hrun.
      destruct (String.eqb_spec destFileName EmptyString); [contradiction |].
      destruct (N.eqb_spec (byteLen b) 0) as [Hz | _];
        [rewrite Hz in Hbig; rewrite uploadSizeLimit_values in Hbig;
         destruct (Has2GBUploadSizeLimit a); cbn in Hbig; lia |].
      unfold bind. rewrite Hget.
      destruct (Z.ltb_spec (uploadSizeLimit a) (Z.of_N (byteLen b))); [| lia].
      reflexivity.
  - intros b fo s2 -> Hlen Hsmall Hname Hget.
    assert (E : run =
      uploadTransfer byteLen transport clock c destFileName b folder s2).
    { rewrite Hrun.
      destruct (String.eqb_spec destFileName EmptyString); [contradiction |].
      destruct (N.eqb_spec (byteLen b) 0); [contradiction |].
      unfold bind. rewrite Hget.
      destruct (Z.ltb_spec (uploadSizeLimit a) (Z.of_N (byteLen b))); [lia |].
      reflexivity. }
    split; [exact E |].
    intros r Hr. rewrite E in Hr.
    destruct r as [f | e]; [cbn; congruence |].
    destruct (errs_uploadTransfer c destFileName b folder s2 e Hr) as [what ->].
    cbn. congruence.
Qed.

(** ** Authorization and the construction of a client *)

(** X1.  The error of [CloudClient.checkAuthorization] is nil on every run:
    whatever the account lacks and whatever the server answers to the
    probe, [Account.CheckAuthorization] has put the failure into its
    boolean and returned a nil error. *)
Theorem checkAuthorization_never_fails c s (r : option error) :
  fst (checkAuthorization transport c s) = Some r -> r = None.
Proof. apply checkAuthorization_nil. Qed.

(** X2.  [NewCloudClient] refuses a nil account and accepts every other one:
    when it returns for an account [a], it returns a client for [a] and
    no error, even if [a] has no token or the server rejects the probe. *)
Theorem NewCloudClient_accepts_every_account (a : Account) s
    (r : res CloudClient) :
  fst (NewCloudClient transport (Some a) s) = Some r ->
  r = Ok {| client_Account := a; ProgressChangedEvent := false |}.
Proof.
  cbv [NewCloudClient Account_CheckAuthorization bind].
  destruct (Account_checkAuthorization transport a false s) as [[[e |] |] s1];
    cbn; congruence.
Qed.

(** ** The history of a file *)

Lemma findRevision_None rev (histories : list History) :
  (forall h, In h histories -> h_Revision h <> rev) ->
  findRevision rev histories = None.
Proof.
  induction histories as [| h rest IH]; intro H; simpl; [reflexivity |].
  destruct (Z.eqb_spec (h_Revision h) rev) as [E | _].
  - elim (H h (or_introl eq_refl) E).
  - apply IH. intros h' Hin. apply H. right. exact Hin.
Qed.

Lemma findRevision_Some rev (histories : list History) h :
  findRevision rev histories = Some h ->
  In h histories /\ h_Revision h = rev.
Proof.
  induction histories as [| h' rest IH]; simpl; [discriminate |].
  destruct (Z.eqb_spec (h_Revision h') rev) as [E | _].
  - intro H. inversion H; subst. auto.
  - intro H. destruct (IH H). auto.
Qed.

(** X3.  The guards of [RestoreFileFromHistory], in the order of the code: a
    revision that is not positive fails with HistoryNotExists before
    anything else happens; a positive revision on a capacity-limited
    account fails with NotSupportedOperation, again without a request;
    a positive revision on another account fails with HistoryNotExists
    when the fetched history has no entry with that revision. *)
Theorem RestoreFileFromHistory_guards
    c (sourceFullPath : string) (historyRevision : Z) (rewriteExisting : bool)
    (newFileName : string) s :
  let run :=
    RestoreFileFromHistory transport ToLower c sourceFullPath historyRevision
      rewriteExisting newFileName s in
  (historyRevision <= 0 ->
     run = (Some (Err (CloudClientError EmptyString ErrorCodeHistoryNotExists)), s))
  /\ (0 < historyRevision ->
      Has2GBUploadSizeLimit (client_Account c) = true ->
      run = (Some (Err (CloudClientError EmptyString
                          ErrorCodeNotSupportedOperation)), s))
  /\ (forall histories s',
        0 < historyRevision ->
        Has2GBUploadSizeLimit (client_Account c) = false ->
        GetFileHistory transport c sourceFullPath s = (Some (Ok histories), s') ->
        (forall h, In h histories -> h_Revision h <> historyRevision) ->
        run = (Some (Err (CloudClientError "historyRevision"
                            ErrorCodeHistoryNotExists)), s')).
Proof.
  intro run. subst run. unfold RestoreFileFromHistory.
  split; [| split].
  - intro H. destruct (Z.leb_spec historyRevision 0); [reflexivity | lia].
  - intros H Hlim. destruct (Z.leb_spec historyRevision 0); [lia |].
    rewrite Hlim. reflexivity.
  - intros histories s' H Hlim Hget Hnone.
    destruct (Z.leb_spec historyRevision 0); [lia |].
    rewrite Hlim. unfold try, bind. rewrite Hget.
    rewrite (findRevision_None _ _ Hnone). reflexivity.
Qed.

Lemma history_finish_length (decoded : list History) :
  List.length (history_finish decoded) = List.length decoded.
Proof.
  destruct decoded as [| d rest]; [reflexivity |].
  unfold history_finish. now rewrite length_map.
Qed.

Lemma history_finish_flags (decoded : list History) :
  map h_IsCurrentVersion (history_finish decoded) =
  match decoded with
  | [] => []
  | _ :: rest => true :: map h_IsCurrentVersion rest
  end.
Proof.
  destruct decoded as [| d rest]; [reflexivity |].
  unfold history_finish. cbn [map history_derive history_set_current h_IsCurrentVersion].
  f_equal. rewrite map_map. reflexivity.
Qed.

Lemma history_finish_derived (decoded : list History) :
  Forall2
    (fun d h =>
       h_Size h = Some (NewSize (h_SizeBytes d))
       /\ h_LastModifiedTimeUTC h = time_Unix (h_LastModifiedTimeUnix d)
       /\ h_Revision h = h_Revision d /\ h_Hash h = h_Hash d
       /\ h_ID h = h_ID d /\ h_Name h = h_Name d /\ h_FullPath h = h_FullPath d
       /\ h_SizeBytes h = h_SizeBytes d)
    decoded (history_finish decoded).
Proof.
  destruct decoded as [| d rest]; [constructor |].
  unfold history_finish. cbn [map]. constructor.
  - cbn. repeat split.
  - induction rest as [| d' rest IH]; cbn [map]; constructor; auto.
    cbn. repeat split.
Qed.

Lemma currentCount_flags (l : list History) :
  currentCount l = List.length (filter (fun b : bool => b) (map h_IsCurrentVersion l)).
Proof.
  unfold currentCount.
  induction l as [| h rest IH]; [reflexivity |].
  cbn [filter map]. destruct (h_IsCurrentVersion h); cbn [List.length]; now rewrite IH.
Qed.

Lemma no_flag_set (l : list History) :
  List.length (filter (fun b : bool => b) (map h_IsCurrentVersion l)) = 0%nat
  <-> Forall (fun d => h_IsCurrentVersion d = false) l.
Proof.
  induction l as [| d rest IH]; cbn [map filter].
  - split; [constructor | reflexivity].
  - destruct (h_IsCurrentVersion d) eqn:Ed; cbn [List.length].
    + split; [lia |]. intro H. inversion H. congruence.
    + rewrite IH. split.
      * intro H. constructor; assumption.
      * intro H. inversion H; assumption.
Qed.

(** X4.  What [GetFileHistory] returns is the list the decoder produced from
    the response, of the same length and in the same order, with the
    first entry flagged as current, every later entry flagged as the
    decoder left it, and the size and the time of each entry computed
    from its byte count and its Unix time.  The client clears no flag:
    exactly one entry is current if and only if the decoder flagged none
    of the later ones. *)
Theorem GetFileHistory_result c (sourceFullPath : string) s
    (histories : list History) s' :
  GetFileHistory transport c sourceFullPath s = (Some (Ok histories), s') ->
  exists (decoded : list History) w1 req status w2,
    transport w1 req = (HTTPResponse status (BodyHistory decoded), w2)
    /\ List.length histories = List.length decoded
    /\ map h_IsCurrentVersion histories =
       match decoded with
       | [] => []
       | _ :: rest => true :: map h_IsCurrentVersion rest
       end
    /\ Forall2
         (fun d h =>
            h_Size h = Some (NewSize (h_SizeBytes d))
            /\ h_LastModifiedTimeUTC h = time_Unix (h_LastModifiedTimeUnix d)
            /\ h_Revision h = h_Revision d /\ h_Hash h = h_Hash d
            /\ h_ID h = h_ID d /\ h_Name h = h_Name d
            /\ h_FullPath h = h_FullPath d
            /\ h_SizeBytes h = h_SizeBytes d)
         decoded histories
    /\ (histories <> [] ->
        (currentCount histories = 1%nat <->
         Forall (fun d => h_IsCurrentVersion d = false) (tl decoded))).
Proof.
  unfold GetFileHistory.
  destruct (String.eqb sourceFullPath EmptyString); [cbv [ret]; congruence |].
  unfold authorized, bind.
  pose proof (checkAuthorization_nil c s) as Hnil.
  destruct (checkAuthorization transport c s) as [[r |] s1]; [| congruence].
  rewrite (Hnil r eq_refl). cbv zeta. unfold httpDo.
  destruct (httpClient (client_Account c)); [| cbv [panic]; congruence].
  match goal with
  | |- context [transport ?w ?q] =>
      destruct (transport w q) as [resp w2] eqn:Et; set (req := q) in *
  end.
  destruct resp as [| status body]; [cbv [ret]; congruence |].
  destruct (status =? 404); [cbv [ret]; congruence |].
  destruct body; cbn [decodeHistory]; cbv [ret]; try congruence.
  intro H. inversion H; subst; clear H.
  exists l, (world s1), req, status, w2.
  split; [exact Et |].
  split; [apply history_finish_length |].
  split; [apply history_finish_flags |].
  split; [apply history_finish_derived |].
  intros Hne. rewrite currentCount_flags, history_finish_flags.
  destruct l as [| d rest]; [elim Hne; reflexivity |].
  cbn [filter List.length tl].
  rewrite <- no_flag_set. split; intro Hc; lia.
Qed.

(** X5.  [GetFileHistory] refuses the empty path before any request, and
    maps the status 404 to PathNotExists naming the path argument. *)
Theorem GetFileHistory_failures c (sourceFullPath : string) s :
  (sourceFullPath = EmptyString ->
     GetFileHistory transport c sourceFullPath s =
     (Some (Err (CloudClientError EmptyString ErrorCodePathNotExists)), s))
  /\ (forall body w,
        sourceFullPath <> EmptyString ->
        transportReady (client_Account c) ->
        httpClient (client_Account c) = true ->
        let a := client_Account c in
        let home := getPathStartEndSlash sourceFullPath true false in
        transport (world (afterAuth transport c s))
          (POST (BaseMailRuCloud ++ "/api/v2/file/history?home=" ++ home
                   ++ "&api=2&email=" ++ Email a ++ "&x-email=" ++ Email a
                   ++ "&token=" ++ authToken a)
                (fields_delete "conflict" (getDefaultFormDataFields c [home])))
        = (HTTPResponse 404 body, w) ->
        errorCodeOf_run (GetFileHistory transport c sourceFullPath s)
        = Some (Some ErrorCodePathNotExists)).
Proof.
  split.
  - intros ->. reflexivity.
  - intros body w Hne Hready Hc a home Ht. subst a home.
    unfold errorCodeOf_run, GetFileHistory.
    destruct (String.eqb_spec sourceFullPath EmptyString); [contradiction |].
    rewrite authorized_run by exact Hready.
    cbv zeta. unfold bind, httpDo. rewrite Hc, Ht. reflexivity.
Qed.

(** ** Listing a folder *)

Lemma prefix_append (pre rest : string) : prefix pre (pre ++ rest) = true.
Proof.
  induction pre as [| c pre IH]; cbn; [destruct rest; reflexivity |].
  destruct (ascii_dec c c) as [_ | N]; [exact IH | elim N; reflexivity].
Qed.

Lemma linkWellFormed_prefixed (rest : string) :
  linkWellFormed (PublicLinkPrefix ++ rest).
Proof. right. unfold GoString.HasPrefix. exact (prefix_append _ _). Qed.

Lemma publicLinkOf_wellFormed (item : CloudStructureEntry) :
  linkWellFormed (publicLinkOf item).
Proof.
  unfold publicLinkOf.
  destruct (String.eqb (entry_Weblink item) EmptyString); cbn [negb];
    [now left | apply linkWellFormed_prefixed].
Qed.

Lemma GetFolder_fields c (fullPath : list string) s (f : Folder) s' :
  GetFolder transport c fullPath s = (Some (Ok (Some f)), s') ->
  exists (e : CloudStructureEntry) (count : Count) w1 req w2,
    transport w1 req = (HTTPResponse 200 (BodyEntry e), w2)
    /\ entry_Count e = Some count
    /\ base_FilesCount (folder_base f) = Files count
    /\ base_FoldersCount (folder_base f) = Folders count
    /\ FilesCount f = 0 /\ FoldersCount f = 0
    /\ Items f = entry_List e
    /\ Name (folder_base f) = entry_Name e
    /\ FullPath (folder_base f) = entry_Home e
    /\ base_Size (folder_base f) = Some (NewSize (entry_Size e))
    /\ linkWellFormed (PublicLink (folder_base f))
    /\ client (folder_base f) = Some c
    /\ account (folder_base f) = Some (client_Account c).
Proof.
  unfold GetFolder, authorized, bind.
  pose proof (checkAuthorization_nil c s) as Hnil.
  destruct (checkAuthorization transport c s) as [[r |] s1]; [| congruence].
  rewrite (Hnil r eq_refl). cbv zeta. unfold httpDo.
  destruct (httpClient (client_Account c)); [| cbv [panic]; congruence].
  match goal with
  | |- context [transport ?w ?q] =>
      destruct (transport w q) as [resp w2] eqn:Et; set (req := q) in *
  end.
  destruct resp as [| status body]; [cbv [ret]; congruence |].
  destruct (Z.eqb_spec status 200) as [-> | _]; cbn [negb];
    [| cbv [ret]; congruence].
  destruct body; cbn [decodeEntry]; cbv [ret]; try congruence.
  destruct (entry_Count e) as [count |] eqn:Ec; [| cbv [panic]; congruence].
  intro H. inversion H; subst; clear H. cbn.
  exists e, count, (world s1), req, w2.
  repeat split; try assumption.
  apply publicLinkOf_wellFormed.
Qed.

(** X6.  A folder returned by [GetFolder] carries what the server sent for
    the listed path: name, path, size, child list, and the two counts in
    its embedded base.  The counts that the folder declares itself are
    not assigned and are 0 whatever the server reports; the public link
    is empty or starts with the public prefix. *)
Theorem GetFolder_result c (fullPath : list string) s (f : Folder) s' :
  GetFolder transport c fullPath s = (Some (Ok (Some f)), s') ->
  exists (e : CloudStructureEntry) (count : Count) w1 req w2,
    transport w1 req = (HTTPResponse 200 (BodyEntry e), w2)
    /\ entry_Count e = Some count
    /\ base_FilesCount (folder_base f) = Files count
    /\ base_FoldersCount (folder_base f) = Folders count
    /\ FilesCount f = 0 /\ FoldersCount f = 0
    /\ Items f = entry_List e
    /\ Name (folder_base f) = entry_Name e
    /\ FullPath (folder_base f) = entry_Home e
    /\ base_Size (folder_base f) = Some (NewSize (entry_Size e))
    /\ linkWellFormed (PublicLink (folder_base f))
    /\ client (folder_base f) = Some c
    /\ account (folder_base f) = Some (client_Account c).
Proof. apply GetFolder_fields. Qed.

(** X7.  [GetFolder] answers a status other than 200 with the nil folder and
    a nil error: a folder that does not exist is not an error. *)
Theorem GetFolder_not_found c (fullPath : list string) s status body w :
  transportReady (client_Account c) ->
  httpClient (client_Account c) = true ->
  let path :=
    getPathStartEndSlash
      (match fullPath with p :: _ => p | [] => EmptyString end) true true in
  transport (world (afterAuth transport c s))
    (GET (BaseMailRuCloud ++ "/api/v2/folder?token="
            ++ authToken (client_Account c) ++ "&home=" ++ path))
  = (HTTPResponse status body, w) ->
  status <> 200 ->
  fst (GetFolder transport c fullPath s) = Some (Ok None).
Proof.
  intros Hready Hc path Ht Hs. subst path.
  unfold GetFolder. rewrite authorized_run by exact Hready.
  cbv zeta. unfold bind, httpDo. rewrite Hc, Ht.
  destruct (Z.eqb_spec status 200); [contradiction | reflexivity].
Qed.

Lemma foldersOfItems_elements (f : Folder) (items : list CloudStructureEntry)
    (subs : list Folder) :
  foldersOfItems f items = Some subs ->
  Forall
    (fun sub =>
       exists item count,
         In item items /\ entry_Type item = "folder"
         /\ entry_Count item = Some count
         /\ FilesCount sub = Files count /\ FoldersCount sub = Folders count
         /\ Items sub = entry_List item
         /\ Name (folder_base sub) = entry_Name item
         /\ FullPath (folder_base sub) = entry_Home item
         /\ linkWellFormed (PublicLink (folder_base sub)))
    subs.
Proof.
  revert subs.
  induction items as [| item rest IH]; intros subs; cbn [foldersOfItems].
  - intro H. inversion H. constructor.
  - destruct (String.eqb_spec (entry_Type item) "folder") as [Et | _].
    + unfold folderOfItem.
      destruct (entry_Count item) as [count |] eqn:Ec; [| discriminate].
      destruct (foldersOfItems f rest) as [subs' |]; [| discriminate].
      intro H. inversion H; subst; clear H. constructor.
      * exists item, count. cbn. repeat split; auto.
        apply publicLinkOf_wellFormed.
      * eapply Forall_impl; [| apply IH; reflexivity].
        cbn. intros sub (i & k & Hin & Hrest). exists i, k. auto.
    + intro H. eapply Forall_impl; [| apply IH; exact H].
      cbn. intros sub (i & k & Hin & Hrest). exists i, k. auto.
Qed.

Lemma filesOfItems_elements (f : Folder) (items : list CloudStructureEntry) :
  Forall
    (fun file =>
       exists item,
         In item items /\ entry_Type item = "file"
         /\ Name (file_base file) = entry_Name item
         /\ FullPath (file_base file) = entry_Home item
         /\ Hash file = entry_Hash item
         /\ base_Size (file_base file) = Some (NewSize (entry_Size item))
         /\ LastModifiedTimeUTC file = time_Unix (entry_Mtime item)
         /\ linkWellFormed (PublicLink (file_base file)))
    (filesOfItems f items).
Proof.
  induction items as [| item rest IH]; cbn [filesOfItems]; [constructor |].
  destruct (String.eqb_spec (entry_Type item) "file") as [Et | _].
  - constructor.
    + exists item. cbn. repeat split; auto. apply publicLinkOf_wellFormed.
    + eapply Forall_impl; [| exact IH].
      cbn. intros file (i & Hin & Hrest). exists i. auto.
  - eapply Forall_impl; [| exact IH].
    cbn. intros file (i & Hin & Hrest). exists i. auto.
Qed.

(** X8.  The folders returned by [GetFolders] are the items of type "folder"
    of the receiver's listing: each carries the two counts and the child
    list of its item as the server sent them, unchecked, so its counts
    add up to the number of its children exactly when the server's
    counts do. *)
Theorem GetFolders_elements (f f' : Folder) s (subs : list Folder) s' :
  GetFolders transport clock f s = (Some (f', subs), s') ->
  Forall
    (fun sub =>
       exists item count items,
         Items f' = Some items /\ In item items
         /\ entry_Type item = "folder"
         /\ entry_Count item = Some count
         /\ FilesCount sub = Files count /\ FoldersCount sub = Folders count
         /\ Items sub = entry_List item
         /\ (forall children,
               Items sub = Some children ->
               (FilesCount sub + FoldersCount sub = Z.of_nat (List.length children)
                <-> Files count + Folders count = Z.of_nat (List.length children))))
    subs.
Proof.
  unfold GetFolders, bind.
  destruct (updateFolderInfo transport clock f false s) as [[f1 |] s1];
    [| congruence].
  destruct (Items f1) as [items |] eqn:Ei.
  - destruct (foldersOfItems f1 items) as [subs' |] eqn:Ef;
      [| cbv [panic]; congruence].
    cbv [ret]. intro H. inversion H; subst; clear H.
    eapply Forall_impl; [| apply (foldersOfItems_elements _ _ _ Ef)].
    cbn. intros sub (item & count & Hin & Ht & Hc & Hfi & Hfo & Hit & _).
    exists item, count, items. repeat split; auto; rewrite Hfi, Hfo; auto.
  - cbv [ret]. intro H. inversion H; subst. constructor.
Qed.

(** ** Resolving a path *)

Lemma findFileByName_None (itemName : string) (files : list File) :
  Forall (fun file => Name (file_base file) <> itemName) files ->
  findFileByName itemName files = None.
Proof.
  induction 1 as [| file rest Hf _ IH]; cbn; [reflexivity |].
  destruct (String.eqb_spec (Name (file_base file)) itemName); [contradiction | exact IH].
Qed.

Lemma findFolderByName_None (itemName : string) (folders : list Folder) :
  Forall (fun folder => Name (folder_base folder) <> itemName) folders ->
  findFolderByName itemName folders = None.
Proof.
  induction 1 as [| folder rest Hf _ IH]; cbn; [reflexivity |].
  destruct (String.eqb_spec (Name (folder_base folder)) itemName);
    [contradiction | exact IH].
Qed.

(** X9.  [checkUnknownItemExisting] when the parent is listed and neither its
    files nor its folders have the name looked for: PathNotExists,
    naming the source path. *)
Theorem checkUnknownItemExisting_missing c (sourceFullPath : string) s
    (parent parent1 parent2 : Folder) (files : list File)
    (folders : list Folder) s1 s2 s3 :
  let itemName := GoString.Base (GoString.TrimSuffix sourceFullPath "/") in
  GetFolder transport c [getParentCloudPath sourceFullPath] s
    = (Some (Ok (Some parent)), s1) ->
  GetFiles transport clock parent s1 = (Some (parent1, files), s2) ->
  Forall (fun file => Name (file_base file) <> itemName) files ->
  GetFolders transport clock parent1 s2 = (Some (parent2, folders), s3) ->
  Forall (fun folder => Name (folder_base folder) <> itemName) folders ->
  checkUnknownItemExisting transport clock c sourceFullPath s =
  (Some (Err (CloudClientError "sourceFullPath" ErrorCodePathNotExists)), s3).
Proof.
  intros itemName Hget Hfiles Hnf Hfolders Hnd.
  unfold checkUnknownItemExisting, try, bind.
  rewrite Hget, Hfiles. cbv zeta.
  fold itemName. rewrite (findFileByName_None _ _ Hnf).
  rewrite Hfolders. rewrite (findFolderByName_None _ _ Hnd). reflexivity.
Qed.

(** X10.  [checkUnknownItemExisting] when the listing of the parent answers
    with a status other than 200: [GetFolder] gives the nil folder with
    no error, and the call of [GetFiles] on it dereferences nil.  The
    operations that resolve a path first ([Publish], [Rename], [Copy],
    [Move]) panic with it. *)
Theorem checkUnknownItemExisting_nil_parent c (sourceFullPath : string) s s1 :
  GetFolder transport c [getParentCloudPath sourceFullPath] s = (Some (Ok None), s1) ->
  checkUnknownItemExisting transport clock c sourceFullPath s = (None, s1).
Proof.
  intro Hget. unfold checkUnknownItemExisting, try, bind.
  rewrite Hget. reflexivity.
Qed.

(** ** Publishing and unpublishing *)

Lemma string_length_append (s t : string) :
  String.length (s ++ t) = (String.length s + String.length t)%nat.
Proof.
  induction s as [| c r IH]; cbn; [reflexivity | now rewrite IH].
Qed.

Lemma substring_whole (s : string) : substring 0 (String.length s) s = s.
Proof.
  induction s as [| c r IH]; cbn; [reflexivity | now rewrite IH].
Qed.

Lemma substring_skip (pre rest : string) :
  substring (String.length pre) (String.length rest) (pre ++ rest) = rest.
Proof.
  induction pre as [| c r IH]; cbn; [apply substring_whole | exact IH].
Qed.

(** Cutting the first occurrence of a prefix out of a string that
    starts with it leaves the rest. *)
Lemma ReplaceFirstWithEmpty_prefix (pre rest : string) :
  pre <> EmptyString ->
  GoString.ReplaceFirstWithEmpty (pre ++ rest) pre = rest.
Proof.
  intro Hne. destruct pre as [| c r]; [contradiction |].
  cbn [append GoString.ReplaceFirstWithEmpty].
  change (String c (r ++ rest)) with (String c r ++ rest).
  rewrite prefix_append.
  unfold GoString.slice, GoString.len.
  rewrite string_length_append, Nat2Z.id.
  replace (Z.to_nat (Z.of_nat (String.length (String c r) + String.length rest)
                     - Z.of_nat (String.length (String c r))))
    with (String.length rest) by lia.
  apply substring_skip.
Qed.

Lemma getPathStartEndSlash_leading_nonempty (path : string) (setAtEnd : bool) :
  String.eqb (getPathStartEndSlash path true setAtEnd) EmptyString = false.
Proof.
  destruct (getPathStartEndSlash_leading path setAtEnd) as [rest ->]. reflexivity.
Qed.

Lemma unpublish_request_fields c (weblink : string) :
  POST (BaseMailRuCloud ++ FileRequest ++ "unpublish")
       (fields_set "weblink" weblink
          (fields_delete "home"
             (fields_delete "conflict" (getDefaultFormDataFields c [weblink]))))
  = (unpublishRequest c weblink : Request ByteSlice).
Proof.
  unfold unpublishRequest, getDefaultFormDataFields.
  destruct (String.eqb weblink EmptyString); reflexivity.
Qed.

Lemma publish_request_fields c (home : string) :
  String.eqb home EmptyString = false ->
  POST (BaseMailRuCloud ++ FileRequest ++ "publish")
       (fields_delete "conflict" (getDefaultFormDataFields c [home]))
  = (publishRequest c home : Request ByteSlice).
Proof.
  intro H. unfold publishRequest, getDefaultFormDataFields. rewrite H. reflexivity.
Qed.

(** X11.  The error kinds of [publishUnpublishInternal].  The empty argument
    is refused by one guard for both operations, with PathNotExists and
    before any request, so unpublishing the empty link does not give
    PublicLinkNotExists.  On a status 404 or 400 the kind follows the
    operation alone: PublicLinkNotExists for [Unpublish], PathNotExists
    for [Publish], whatever the body of the response. *)
Theorem publishUnpublishInternal_error_kinds c (link : string) s :
  let a := client_Account c in
  let s1 := afterAuth transport c s in
  (forall publish : bool,
      link = EmptyString ->
      publishUnpublishInternal transport clock c link publish s =
      (Some (Err (CloudClientError EmptyString ErrorCodePathNotExists)), s))
  /\ (forall status body w,
        link <> EmptyString -> transportReady a -> httpClient a = true ->
        transport (world s1)
          (unpublishRequest c
             (GoString.ReplaceFirstWithEmpty link PublicLinkPrefix))
        = (HTTPResponse status body, w) ->
        status = 404 \/ status = 400 ->
        fst (Unpublish transport clock c link s) =
        Some (Err (CloudClientError "link" ErrorCodePublicLinkNotExists)))
  /\ (forall item s2 status body w,
        link <> EmptyString -> transportReady a -> httpClient a = true ->
        checkUnknownItemExisting transport clock c
          (getPathStartEndSlash link true false) s1 = (Some (Ok item), s2) ->
        transport (world s2)
          (publishRequest c (getPathStartEndSlash link true false))
        = (HTTPResponse status body, w) ->
        status = 404 \/ status = 400 ->
        fst (Publish transport clock c link s) =
        Some (Err (CloudClientError "link" ErrorCodePathNotExists))).
Proof.
  intros a s1. subst a s1. split; [| split].
  - intros publish ->. reflexivity.
  - intros status body w Hne Hready Hc Ht Hs.
    unfold Unpublish, publishUnpublishInternal.
    destruct (String.eqb_spec link EmptyString); [contradiction |].
    rewrite authorized_run by exact Hready.
    cbn [negb]. unfold try at 1. unfold bind at 1. cbv [ret].
    cbv zeta. rewrite unpublish_request_fields.
    unfold bind, httpDo. rewrite Hc, Ht.
    destruct Hs as [-> | ->]; reflexivity.
  - intros item s2 status body w Hne Hready Hc Hres Ht Hs.
    unfold Publish, publishUnpublishInternal.
    destruct (String.eqb_spec link EmptyString); [contradiction |].
    rewrite authorized_run by exact Hready.
    cbn [negb]. unfold try at 1. unfold bind at 1.
    unfold try at 1. unfold bind at 1. rewrite Hres. cbv [ret].
    cbv zeta.
    rewrite publish_request_fields
      by apply getPathStartEndSlash_leading_nonempty.
    unfold bind, httpDo. rewrite Hc, Ht.
    destruct Hs as [-> | ->]; reflexivity.
Qed.

(** X12.  A successful [Publish] returns the resolved entry with the public
    prefix put before the string the server sent; every entry returned
    by [publishUnpublishInternal] has a public link that is empty or
    starts with the prefix. *)
Theorem publishUnpublishInternal_link_wellFormed
    c (link : string) (publish : bool) s (item : CloudStructureEntryBase) s' :
  publishUnpublishInternal transport clock c link publish s = (Some (Ok item), s') ->
  linkWellFormed (PublicLink item).
Proof.
  assert (Hres : forall path s0 it s0',
             checkUnknownItemExisting transport clock c path s0 = (Some (Ok it), s0') ->
             linkWellFormed (PublicLink it)).
  { intros path s0 it s0'. unfold checkUnknownItemExisting, try, bind.
    destruct (GetFolder transport c [getParentCloudPath path] s0)
      as [[[[parent |] | e] |] s1]; cbv [ret panic]; try congruence.
    destruct (GetFiles transport clock parent s1) as [[[parent1 files] |] s2] eqn:Ef;
      [| congruence].
    cbv zeta.
    destruct (findFileByName _ files) as [found |] eqn:Eff.
    - intro H. inversion H; subst; clear H.
      unfold GetFiles, bind in Ef.
      destruct (updateFolderInfo transport clock parent false s1) as [[f1 |] sx];
        [| congruence].
      assert (Hall : Forall (fun file => linkWellFormed (PublicLink (file_base file))) files).
      { destruct (Items f1) as [items |]; cbv [ret] in Ef; inversion Ef; subst.
        - eapply Forall_impl; [| apply filesOfItems_elements].
          cbn. intros file (i & _ & _ & _ & _ & _ & _ & _ & Hl). exact Hl.
        - constructor. }
      clear Ef. induction files as [| file rest IH]; cbn in Eff; [discriminate |].
      inversion Hall; subst.
      destruct (String.eqb (Name (file_base file)) _).
      + inversion Eff; subst. assumption.
      + apply IH; assumption.
    - destruct (GetFolders transport clock parent1 s2)
        as [[[parent2 folders] |] s3] eqn:Ed; [| congruence].
      destruct (findFolderByName _ folders) as [found |] eqn:Efd; [| congruence].
      intro H. inversion H; subst; clear H.
      unfold GetFolders, bind in Ed.
      destruct (updateFolderInfo transport clock parent1 false s2) as [[f1 |] sx];
        [| congruence].
      assert (Hall : Forall (fun d => linkWellFormed (PublicLink (folder_base d))) folders).
      { destruct (Items f1) as [items |]; cbv [ret] in Ed.
        - destruct (foldersOfItems f1 items) as [subs |] eqn:Es;
            [| cbv [panic] in Ed; congruence].
          inversion Ed; subst.
          eapply Forall_impl; [| apply (foldersOfItems_elements _ _ _ Es)].
          cbn. intros d (i & k & _ & _ & _ & _ & _ & _ & _ & _ & Hl). exact Hl.
        - inversion Ed; subst. constructor. }
      clear Ed. induction folders as [| d rest IH]; cbn in Efd; [discriminate |].
      inversion Hall; subst.
      destruct (String.eqb (Name (folder_base d)) _).
      + inversion Efd; subst. assumption.
      + apply IH; assumption. }
  unfold publishUnpublishInternal.
  destruct (String.eqb link EmptyString); [cbv [ret]; congruence |].
  unfold authorized. unfold bind at 1.
  destruct (checkAuthorization transport c s) as [[[e |] |] s1];
    cbv [ret]; try congruence.
  destruct publish; cbn [negb].
  - unfold try at 1. unfold bind at 1. unfold try at 1. unfold bind at 1.
    destruct (checkUnknownItemExisting transport clock c _ s1)
      as [[[it | e] |] s2]; cbv [ret]; try congruence.
    cbv zeta. unfold bind, httpDo.
    destruct (httpClient (client_Account c)); [| cbv [panic]; congruence].
    match goal with
    | |- context [transport ?w ?q] => destruct (transport w q) as [resp w2]
    end.
    destruct resp as [| status body]; [congruence |].
    destruct ((status =? 404) || (status =? 400)); [congruence |].
    destruct (decodeString body) as [result | e]; [| congruence].
    intro H. inversion H; subst; clear H. cbn.
    apply linkWellFormed_prefixed.
  - unfold try at 1. unfold bind at 1. cbv [ret]. cbv zeta.
    unfold bind at 1. unfold httpDo.
    destruct (httpClient (client_Account c)); [| cbv [panic]; congruence].
    match goal with
    | |- context [transport ?w ?q] => destruct (transport w q) as [resp w2]
    end.
    destruct resp as [| status body]; [congruence |].
    destruct ((status =? 404) || (status =? 400)); [congruence |].
    destruct (decodeString body) as [result | e]; [| congruence].
    apply Hres.
Qed.

(** ** Unpublishing a handle that has no public link *)

(** X13.  [File.Unpublish] and [Folder.Unpublish] on a handle whose public
    link is empty return the handle as it is with a nil error and leave
    the state as it is: the client is not called, no request is sent. *)
Theorem Unpublish_without_link_is_noop (f : File) (d : Folder) s :
  (PublicLink (file_base f) = EmptyString ->
     File_Unpublish transport clock f s = (Some (Ok f), s))
  /\ (PublicLink (folder_base d) = EmptyString ->
     Folder_Unpublish transport clock d s = (Some (Ok d), s)).
Proof.
  split; intro H.
  - unfold File_Unpublish. rewrite H. reflexivity.
  - unfold Folder_Unpublish. rewrite H. reflexivity.
Qed.

(** ** The direct link of a ZIP archive *)

(** X14.  [GetDirectLinkZIPArchive] refuses the empty list and every list with
    an empty path or the root path, with PathNotExists and before the
    authorization check: the state is untouched. *)
Theorem GetDirectLinkZIPArchive_guards c (paths : list string) (name : string) s :
  paths = [] \/ (exists p, In p paths /\ (p = EmptyString \/ p = "/")) ->
  GetDirectLinkZIPArchive transport clock ToLower c paths name s =
  (Some (Err (CloudClientError EmptyString ErrorCodePathNotExists)), s).
Proof.
  intros [-> | H]; [reflexivity |].
  apply hasEmptyOrRootPath_spec in H.
  unfold GetDirectLinkZIPArchive. rewrite H.
  destruct paths; reflexivity.
Qed.

Lemma zip_name_step (name : string) s1 :
  exists n s2,
    (if String.eqb name EmptyString
     then bind (Now clock) (fun t => ret (GoString.itoa (t / 1000000000)))
     else ret name) s1 = (Some n, s2)
    /\ trace s2 = trace s1.
Proof.
  destruct (String.eqb name EmptyString).
  - unfold bind, Now, ret. destruct (clock (world s1)) as [t w].
    eexists _, _. split; reflexivity.
  - exists name, s1. split; reflexivity.
Qed.

(** X15.  The common-parent check of [GetDirectLinkZIPArchive] on a list of
    valid paths.  If the parents are not all equal the call fails with
    DifferentParentPaths and the only request sent is the probe of the
    authorization check, which precedes the comparison; no request goes
    to the archive endpoint.  If the parents are all equal the check is
    passed: after the probe one request goes to the archive endpoint,
    listing the quoted normalized paths, and the outcome is not
    DifferentParentPaths. *)
Theorem GetDirectLinkZIPArchive_common_parent
    c (paths : list string) (name : string) s :
  transportReady (client_Account c) ->
  paths <> [] ->
  hasEmptyOrRootPath paths = false ->
  let a := client_Account c in
  let run := GetDirectLinkZIPArchive transport clock ToLower c paths name s in
  (~ sameParents paths ->
     fst run = Some (Err (CloudClientError "filesAndFoldersPaths"
                            ErrorCodeDifferentParentPaths))
     /\ trace (snd run) = (trace s ++ authProbe a)%list)
  /\ (sameParents paths -> httpClient a = true ->
      exists req : Request ByteSlice,
        isZipRequest req = true
        /\ In ("home_list",
               "[" ++ GoString.Join (map quotedPath paths) "," ++ "]") (Form req)
        /\ trace (snd run) = (trace s ++ authProbe a ++ [req])%list
        /\ errorCodeOf_run run <> Some (Some ErrorCodeDifferentParentPaths)).
Proof.
  intros Hready Hne Hvalid a run.
  destruct (checkAuthorization_run c s Hready) as (_ & Htr & _).
  assert (Hrun : run =
    bind (if String.eqb name EmptyString
          then bind (Now clock) (fun t => ret (GoString.itoa (t / 1000000000)))
          else ret name)
      (fun destZipArchiveName =>
         let destZipArchiveName :=
           if negb (GoString.HasSuffix (ToLower destZipArchiveName) ".zip")
           then destZipArchiveName ++ ".zip"
           else destZipArchiveName in
         let '(_, allHasCommonPath, processedPaths) := commonPathLoop paths in
         if negb allHasCommonPath then
           ret (Err (CloudClientError "filesAndFoldersPaths"
                       ErrorCodeDifferentParentPaths))
         else
           bind (httpDo transport a
                   (POST (BaseMailRuCloud ++ CreateZipArchive)
                      [("home_list",
                        "[" ++ GoString.Join processedPaths "," ++ "]");
                       ("name", destZipArchiveName);
                       ("api", "2"); ("token", authToken a); ("email", Email a)]))
             (fun resp =>
                match resp with
                | TransportError => ret (Err (OtherError "transport"))
                | HTTPResponse status body =>
                    if status =? 422 then
                      ret (Err (CloudClientError EmptyString
                                  ErrorCodeDownloadingSizeLimit))
                    else
                      match decodeString body with
                      | Err e => ret (Err e)
                      | Ok directLink => ret (Ok directLink)
                      end
                end))
      (afterAuth transport c s)).
  { subst run. unfold GetDirectLinkZIPArchive. rewrite Hvalid.
    destruct paths; [contradiction |].
    rewrite authorized_run by exact Hready. reflexivity. }
  destruct (zip_name_step name (afterAuth transport c s)) as (n & s2 & Hn & Hs2).
  unfold bind at 1 in Hrun. rewrite Hn in Hrun. cbv zeta in Hrun.
  pose proof (commonPathLoop_sameParents paths) as Hsame.
  destruct paths as [| p rest]; [contradiction |].
  rewrite commonPathLoop_cons in Hrun, Hsame. cbn [fst snd] in Hsame.
  split.
  - intro Hdiff.
    destruct (forallb _ rest) eqn:Eall;
      [elim Hdiff; apply Hsame; reflexivity |].
    cbn [negb] in Hrun. rewrite Hrun. cbn [fst snd ret].
    split; [reflexivity | now rewrite Hs2].
  - intros Hsp Hc.
    destruct (forallb _ rest) eqn:Eall;
      [| apply Hsame in Hsp; discriminate].
    cbn [negb] in Hrun. unfold bind, httpDo in Hrun. rewrite Hc in Hrun.
    match type of Hrun with
    | context [transport ?w ?q] =>
        destruct (transport w q) as [resp w2]; exists q
    end.
    split; [reflexivity |].
    split; [left; reflexivity |].
    rewrite Hrun. unfold errorCodeOf_run.
    destruct resp as [| status body]; cbn [fst snd ret trace].
    + split; [rewrite Hs2, Htr; now rewrite <- app_assoc | discriminate].
    + destruct (status =? 422); cbn [fst snd ret trace].
      * split; [rewrite Hs2, Htr; now rewrite <- app_assoc | discriminate].
      * destruct (decodeString body) as [d | e] eqn:Ed; cbn [fst snd ret trace].
        -- split; [rewrite Hs2, Htr; now rewrite <- app_assoc | discriminate].
        -- split; [rewrite Hs2, Htr; now rewrite <- app_assoc |].
           destruct (decodeString_error _ _ Ed) as [what ->]. discriminate.
Qed.

(** ** The cached listing of a folder *)

(** X16.  A folder that has items is listed from its cache as long as no more
    than a second has passed since the last listing: [GetFiles] reads
    the clock, sends no request and builds its result from the items
    the folder holds. *)
Theorem GetFiles_reuses_cache (f : Folder) s
    (items : list CloudStructureEntry) (t : Time) (w : World) :
  Items f = Some items ->
  Time_IsZero (lastItemsGettingTime f) = false ->
  clock (world s) = (t, w) ->
  t - lastItemsGettingTime f <= 1000000000 ->
  GetFiles transport clock f s =
  (Some (f, filesOfItems f items),
   {| world := w; trace := trace s; progress := progress s |}).
Proof.
  intros Hitems Hz Hclock Hfresh.
  unfold GetFiles, updateFolderInfo.
  rewrite Hz. unfold bind at 1. unfold bind at 1. cbv [ret].
  unfold bind at 1. unfold Now at 1. rewrite Hclock.
  rewrite Hitems.
  destruct (Z.ltb_spec 1000000000 (t - lastItemsGettingTime f)); [lia |].
  unfold bind at 1. cbv [ret]. cbv zeta. cbn [fst snd].
  unfold bind at 1. cbv [ret]. rewrite Hitems. reflexivity.
Qed.

Lemma bind_inv {A B : Type} (m : M' A) (k : A -> M' B) s (b : B) s' :
  bind m k s = (Some b, s') ->
  exists x s1, m s = (Some x, s1) /\ k x s1 = (Some b, s').
Proof.
  unfold bind. destruct (m s) as [[x |] s1]; [eauto | congruence].
Qed.

Lemma ret_inv {A : Type} (x y : A) s s' :
  (ret x : M' A) s = (Some y, s') -> x = y /\ s = s'.
Proof. cbv [ret]. intro H. inversion H. auto. Qed.

(** X17.  Whatever [updateFolderInfo] does, the folder keeps its name, its
    path, its account, its client and the counts of its embedded base.
    Its items, its own counts and its public link either stay as they
    were, or come from a folder that [GetFolder] returned for its path;
    in that case the own counts are 0, because [GetFolder] never sets
    them.  A failed listing leaves the cache as it was. *)
Theorem updateFolderInfo_frame (f f' : Folder) (forceUpdate : bool) s s' :
  updateFolderInfo transport clock f forceUpdate s = (Some f', s') ->
  Name (folder_base f') = Name (folder_base f)
  /\ FullPath (folder_base f') = FullPath (folder_base f)
  /\ account (folder_base f') = account (folder_base f)
  /\ client (folder_base f') = client (folder_base f)
  /\ base_FilesCount (folder_base f') = base_FilesCount (folder_base f)
  /\ base_FoldersCount (folder_base f') = base_FoldersCount (folder_base f)
  /\ ((Items f' = Items f /\ FilesCount f' = FilesCount f
       /\ FoldersCount f' = FoldersCount f
       /\ PublicLink (folder_base f') = PublicLink (folder_base f))
      \/ (exists c fetched sa sb,
            client (folder_base f) = Some c
            /\ GetFolder transport c [FullPath (folder_base f)] sa
               = (Some (Ok (Some fetched)), sb)
            /\ Items f' = Items fetched
            /\ PublicLink (folder_base f') = PublicLink (folder_base fetched)
            /\ FilesCount f' = 0 /\ FoldersCount f' = 0)).
Proof.
  intro H. unfold updateFolderInfo in H.
  apply bind_inv in H. destruct H as (f0 & s0 & H0 & H).
  assert (E0 : exists t, f0 = folder_set_time f t).
  { destruct (Time_IsZero (lastItemsGettingTime f)).
    - apply bind_inv in H0. destruct H0 as (t & sx & _ & H0).
      apply ret_inv in H0. destruct H0 as [<- _]. eauto.
    - apply ret_inv in H0. destruct H0 as [<- _].
      exists (lastItemsGettingTime f). destruct f; reflexivity. }
  destruct E0 as [t0 ->]. clear H0.
  apply bind_inv in H. destruct H as (t1 & s1 & _ & H).
  cbv zeta in H.
  apply bind_inv in H. destruct H as ([cond disk] & s2 & _ & H).
  apply bind_inv in H. destruct H as (f2 & s3 & H2 & H).
  apply ret_inv in H. destruct H as [<- _].
  assert (Hdisk : forall g : Folder,
    let g' := match disk with
              | Some d => folder_set_prevDiskUsed g (DefaultValue (Used d))
              | None => g
              end in
    folder_base g' = folder_base g /\ Items g' = Items g
    /\ FilesCount g' = FilesCount g /\ FoldersCount g' = FoldersCount g).
  { intro g. destruct disk; cbn; auto. }
  destruct (Hdisk f2) as (Hb & Hi & Hfi & Hfo). rewrite Hb, Hi, Hfi, Hfo.
  clear Hdisk Hb Hi Hfi Hfo.
  assert (Hkeep :
    f2 = folder_set_time f t0 ->
    Name (folder_base f2) = Name (folder_base f)
    /\ FullPath (folder_base f2) = FullPath (folder_base f)
    /\ account (folder_base f2) = account (folder_base f)
    /\ client (folder_base f2) = client (folder_base f)
    /\ base_FilesCount (folder_base f2) = base_FilesCount (folder_base f)
    /\ base_FoldersCount (folder_base f2) = base_FoldersCount (folder_base f)
    /\ ((Items f2 = Items f /\ FilesCount f2 = FilesCount f
         /\ FoldersCount f2 = FoldersCount f
         /\ PublicLink (folder_base f2) = PublicLink (folder_base f))
        \/ (exists c fetched sa sb,
              client (folder_base f) = Some c
              /\ GetFolder transport c [FullPath (folder_base f)] sa
                 = (Some (Ok (Some fetched)), sb)
              /\ Items f2 = Items fetched
              /\ PublicLink (folder_base f2) = PublicLink (folder_base fetched)
              /\ FilesCount f2 = 0 /\ FoldersCount f2 = 0))).
  { intros ->. cbn. repeat split; auto 6. }
  destruct cond; [| apply ret_inv in H2; destruct H2 as [<- _]; apply Hkeep; reflexivity].
  cbn [folder_set_time folder_base client FullPath] in H2.
  destruct (client (folder_base f)) as [c |] eqn:Ec; [| discriminate H2].
  apply bind_inv in H2. destruct H2 as (r & s4 & Hget & H2).
  destruct r as [[fetched |] | e];
    try (apply ret_inv in H2; destruct H2 as [<- _]; apply Hkeep; reflexivity).
  apply bind_inv in H2. destruct H2 as (t3 & s5 & _ & H2).
  apply ret_inv in H2. destruct H2 as [<- _].
  destruct (GetFolder_fields _ _ _ _ _ Hget)
    as (e & count & wa & req & wb & _ & _ & _ & _ & Hf0 & Hd0 & _).
  cbn. repeat split; auto.
  right. exists c, fetched, s2, s4. repeat split; auto.
Qed.

(** ** Removing, renaming, moving and copying *)

Lemma try_inv {A B : Type} (m : M' (res A)) (k : A -> M' (res B)) s (b : B) s' :
  try m k s = (Some (Ok b), s') ->
  exists x s1, m s = (Some (Ok x), s1) /\ k x s1 = (Some (Ok b), s').
Proof.
  unfold try. intro H. apply bind_inv in H. destruct H as (r & s1 & Hm & Hk).
  destruct r as [x | e]; [eauto |].
  apply ret_inv in Hk. destruct Hk as [Hk _]. discriminate.
Qed.

Lemma authorized_inv {B : Type} c (k : M' (res B)) s (r : res B) s' :
  authorized transport c k s = (Some r, s') ->
  exists s1, k s1 = (Some r, s').
Proof.
  unfold authorized. intro H. apply bind_inv in H.
  destruct H as ([e |] & s1 & Hm & Hk); [| eauto].
  assert (Some e = None) by
    (apply (checkAuthorization_nil c s); now rewrite Hm).
  discriminate.
Qed.

(** X18.  [Remove] refuses the empty path before any request; for any other
    path it reports success as soon as the server has answered, whatever
    the status of the answer: a path that does not exist is removed
    without an error. *)
Theorem Remove_ignores_the_answer c (sourceFullPath : string) s :
  (sourceFullPath = EmptyString ->
     Remove transport c sourceFullPath s =
     (Some (Some (CloudClientError EmptyString ErrorCodePathNotExists)), s))
  /\ (forall status body w,
        sourceFullPath <> EmptyString ->
        transportReady (client_Account c) ->
        httpClient (client_Account c) = true ->
        transport (world (afterAuth transport c s))
          (POST (BaseMailRuCloud ++ "/api/v2/file/remove")
             (getDefaultFormDataFields c
                [getPathStartEndSlash sourceFullPath true false]))
        = (HTTPResponse status body, w) ->
        fst (Remove transport c sourceFullPath s) = Some None).
Proof.
  split.
  - intros ->. reflexivity.
  - intros status body w Hne Hready Hc Ht. unfold Remove.
    destruct (String.eqb_spec sourceFullPath EmptyString); [contradiction |].
    destruct (checkAuthorization_run c s Hready) as (E & _).
    unfold bind at 1. rewrite E. cbv zeta.
    unfold bind, httpDo. rewrite Hc, Ht. reflexivity.
Qed.

Lemma relocated_shape (item : CloudStructureEntryBase) (newPath : string) :
  PublicLink (relocated item newPath) = EmptyString
  /\ FullPath (relocated item newPath) = newPath
  /\ Name (relocated item newPath) = GoString.Base newPath
  /\ base_Size (relocated item newPath) = base_Size item
  /\ client (relocated item newPath) = client item
  /\ account (relocated item newPath) = account item.
Proof. repeat split. Qed.

Lemma httpDo_inv a (req : Request ByteSlice) s (resp : Response) s' :
  httpDo transport a req s = (Some resp, s') ->
  transport (world s) req = (resp, world s')
  /\ trace s' = (trace s ++ [req])%list.
Proof.
  unfold httpDo. destruct (httpClient a); [| cbv [panic]; congruence].
  destruct (transport (world s) req) as [r w] eqn:Et.
  intro H. inversion H; subst. cbn. auto.
Qed.

Lemma decodeString_inv (body : Body) (x : string) :
  decodeString body = Ok x -> body = BodyString x.
Proof. destruct body; cbn; congruence. Qed.

(** The end of [Rename] and of [moveOrCopyInternal]: the request is
    sent, its answer is decoded, and the decoded path goes into the
    entry. *)
Lemma relocation_tail c (it item : CloudStructureEntryBase)
    (url : string) (values : Fields) s0 (resp : Response) s3 s' :
  httpDo transport (client_Account c) (POST url values) s0 = (Some resp, s3) ->
  match resp with
  | TransportError => ret (Err (OtherError "transport"))
  | HTTPResponse _ body =>
      match decodeString body with
      | Err e => ret (Err e)
      | Ok newPath => ret (Ok (relocated it newPath))
      end
  end s3 = (Some (Ok item), s') ->
  exists newPath,
    answered transport s' url (BodyString newPath)
    /\ item = relocated it newPath.
Proof.
  intros Hdo H. apply httpDo_inv in Hdo. destruct Hdo as [Ht Htr].
  destruct resp as [| st body]; [cbv [ret] in H; congruence |].
  destruct (decodeString body) as [newPath | e] eqn:Ed;
    [| cbv [ret] in H; congruence].
  apply ret_inv in H. destruct H as [H <-].
  apply decodeString_inv in Ed. subst body.
  exists newPath. split; [| congruence].
  exists (world s0), (POST url values), st, (trace s0).
  repeat split; assumption.
Qed.

Lemma relocated_entry c (sourceFullPath arg url : string) (move : bool) s
    (item : CloudStructureEntryBase) s' :
  (Rename transport clock ToLower c sourceFullPath arg s = (Some (Ok item), s')
   /\ url = BaseMailRuCloud ++ "/api/v2/file/rename")
  \/ (moveOrCopyInternal transport clock c sourceFullPath arg move s
        = (Some (Ok item), s')
      /\ url = BaseMailRuCloud ++ FileRequest ++ (if move then "move" else "copy")) ->
  exists (newPath : string) (old : CloudStructureEntryBase) s0 s1,
    answered transport s' url (BodyString newPath)
    /\ checkUnknownItemExisting transport clock c
         (getPathStartEndSlash sourceFullPath true false) s0
       = (Some (Ok old), s1)
    /\ FullPath item = newPath
    /\ Name item = GoString.Base newPath
    /\ PublicLink item = EmptyString
    /\ base_Size item = base_Size old
    /\ client item = client old
    /\ account item = account old.
Proof.
  intros [[H ->] | [H ->]].
  - unfold Rename in H.
    destruct (String.eqb sourceFullPath EmptyString);
      [apply ret_inv in H; destruct H; discriminate |].
    destruct (String.eqb arg EmptyString);
      [apply ret_inv in H; destruct H; discriminate |].
    apply authorized_inv in H. destruct H as (s1 & H). cbv zeta in H.
    apply try_inv in H. destruct H as (it & s2 & Hit & H).
    apply bind_inv in H. destruct H as (resp & s3 & Hdo & H).
    destruct (relocation_tail _ _ _ _ _ _ _ _ _ Hdo H) as (newPath & Ha & ->).
    exists newPath, it, s1, s2. repeat split; assumption.
  - unfold moveOrCopyInternal in H.
    destruct (String.eqb sourceFullPath EmptyString);
      [apply ret_inv in H; destruct H; discriminate |].
    destruct (String.eqb arg EmptyString);
      [apply ret_inv in H; destruct H; discriminate |].
    apply authorized_inv in H. destruct H as (s1 & H). cbv zeta in H.
    apply try_inv in H. destruct H as (it & s2 & Hit & H).
    apply bind_inv in H. destruct H as (r & s3 & _ & H).
    destruct r as [fo | e]; [| apply ret_inv in H; destruct H; discriminate].
    apply bind_inv in H. destruct H as (resp & s4 & Hdo & H).
    destruct (relocation_tail _ _ _ _ _ _ _ _ _ Hdo H) as (newPath & Ha & ->).
    exists newPath, it, s1, s2. repeat split; assumption.
Qed.

(** X19.  The entry returned by a successful [Rename], [Copy] or [Move]
    has, as its path, the string the server sent in its answer to the
    rename, copy or move request (the last request of the run) and, as
    its name, the last element of that path.  It has no public link; its
    size, client and account are those of the entry the source path was
    resolved to. *)
Theorem relocation_result c (sourceFullPath arg url : string) (move : bool) s
    (item : CloudStructureEntryBase) s' :
  (Rename transport clock ToLower c sourceFullPath arg s = (Some (Ok item), s')
   /\ url = BaseMailRuCloud ++ "/api/v2/file/rename")
  \/ (moveOrCopyInternal transport clock c sourceFullPath arg move s
        = (Some (Ok item), s')
      /\ url = BaseMailRuCloud ++ FileRequest ++ (if move then "move" else "copy")) ->
  exists (newPath : string) (old : CloudStructureEntryBase) s0 s1,
    answered transport s' url (BodyString newPath)
    /\ checkUnknownItemExisting transport clock c
         (getPathStartEndSlash sourceFullPath true false) s0
       = (Some (Ok old), s1)
    /\ FullPath item = newPath
    /\ Name item = GoString.Base newPath
    /\ PublicLink item = EmptyString
    /\ base_Size item = base_Size old
    /\ client item = client old
    /\ account item = account old.
Proof. apply relocated_entry. Qed.

(** [Rename], [Copy] and [Move] refuse an empty source path and an
    empty second argument with PathNotExists, before the authorization
    check and without any request. *)
Theorem relocation_guards c (sourceFullPath arg : string) (move : bool) s :
  sourceFullPath = EmptyString \/ arg = EmptyString ->
  Rename transport clock ToLower c sourceFullPath arg s =
    (Some (Err (CloudClientError EmptyString ErrorCodePathNotExists)), s)
  /\ moveOrCopyInternal transport clock c sourceFullPath arg move s =
    (Some (Err (CloudClientError EmptyString ErrorCodePathNotExists)), s).
Proof.
  intros [-> | ->]; unfold Rename, moveOrCopyInternal.
  - split; reflexivity.
  - destruct (String.eqb sourceFullPath EmptyString); split; reflexivity.
Qed.

(** X20.  A destination folder that does not exist does not stop [Copy] or
    [Move]: the listing of the destination fails the operation only when
    it returns an error, and a status other than 200 is no error, so the
    copy or move request is sent all the same. *)
Theorem moveOrCopyInternal_missing_destination
    c (sourceFullPath destFolderPath : string) (move : bool) s
    (item : CloudStructureEntryBase) s1 s2 :
  sourceFullPath <> EmptyString -> destFolderPath <> EmptyString ->
  transportReady (client_Account c) ->
  httpClient (client_Account c) = true ->
  checkUnknownItemExisting transport clock c
    (getPathStartEndSlash sourceFullPath true false) (afterAuth transport c s)
  = (Some (Ok item), s1) ->
  GetFolder transport c [getPathStartEndSlash destFolderPath true false] s1
  = (Some (Ok None), s2) ->
  exists req : Request ByteSlice,
    URL req = BaseMailRuCloud ++ FileRequest ++ (if move then "move" else "copy")
    /\ In ("folder", getPathStartEndSlash destFolderPath true false) (Form req)
    /\ trace (snd (moveOrCopyInternal transport clock c sourceFullPath
                     destFolderPath move s))
       = (trace s2 ++ [req])%list.
Proof.
  intros Hs Hd Hready Hc Hres Hget. unfold moveOrCopyInternal.
  destruct (String.eqb_spec sourceFullPath EmptyString); [contradiction |].
  destruct (String.eqb_spec destFolderPath EmptyString); [contradiction |].
  rewrite authorized_run by exact Hready. cbv zeta.
  unfold try at 1. unfold bind at 1. rewrite Hres.
  unfold bind at 1. rewrite Hget.
  unfold bind, httpDo. rewrite Hc.
  match goal with
  | |- context [transport ?w ?q] =>
      destruct (transport w q) as [resp w2]; exists q
  end.
  split; [reflexivity |].
  split.
  - unfold getDefaultFormDataFields.
    rewrite getPathStartEndSlash_leading_nonempty. cbn. auto 10.
  - destruct resp as [| st body]; [reflexivity |].
    destruct (decodeString body); reflexivity.
Qed.

(** ** Handles *)

(** X21.  [Folder.CreateFolder] refuses a name that contains a slash, with
    PathNotExists: the receiver is not changed, the client is not
    called and no request is sent. *)
Theorem Folder_CreateFolder_refuses_nested (f : Folder) (folderName : string) s :
  GoString.Contains folderName "/" = true ->
  Folder_CreateFolder transport clock f folderName s =
  (Some (f, Err (CloudClientError EmptyString ErrorCodePathNotExists)), s).
Proof.
  intro H. unfold Folder_CreateFolder. rewrite H. reflexivity.
Qed.

(** X22.  A copy of a file is a new handle: its path is the string the
    server sent in its answer to the copy request, its name the last
    element of that path; it has no public link and the hash and the
    time of the original. *)
Theorem File_Copy_result (f g : File) (destFolderPath : string) s s' :
  File_Copy transport clock f destFolderPath s = (Some (Ok g), s') ->
  exists newPath : string,
    answered transport s' (BaseMailRuCloud ++ FileRequest ++ "copy")
      (BodyString newPath)
    /\ FullPath (file_base g) = newPath
    /\ Name (file_base g) = GoString.Base newPath
    /\ PublicLink (file_base g) = EmptyString
    /\ Hash g = Hash f
    /\ LastModifiedTimeUTC g = LastModifiedTimeUTC f.
Proof.
  unfold File_Copy, viaClient.
  destruct (client (file_base f)) as [c |].
  - intro H. apply try_inv in H. destruct H as (item & s1 & Hc & H).
    apply ret_inv in H. destruct H as [H <-]. inversion H; subst. cbn.
    destruct (relocated_entry c _ _ _ false _ _ _ (or_intror (conj Hc eq_refl)))
      as (newPath & old & sa & sb & Ha & _ & Hp & Hn & Hl & _).
    exists newPath. auto 10.
  - unfold emptyArgument.
    destruct (_ || _); cbv [ret panic]; congruence.
Qed.

(** X23.  A file that was moved or renamed takes, as its path, the string
    the server sent in its answer to the move or rename request and, as
    its name, the last element of that path; it loses its public link
    and keeps its hash, its time, its size and its client. *)
Theorem File_Move_Rename_result (f g : File) (arg url : string) s s' :
  (File_Move transport clock f arg s = (Some (Ok g), s')
   /\ url = BaseMailRuCloud ++ FileRequest ++ "move")
  \/ (File_Rename transport clock ToLower f arg s = (Some (Ok g), s')
      /\ url = BaseMailRuCloud ++ "/api/v2/file/rename") ->
  exists newPath : string,
    answered transport s' url (BodyString newPath)
    /\ FullPath (file_base g) = newPath
    /\ Name (file_base g) = GoString.Base newPath
    /\ PublicLink (file_base g) = EmptyString
    /\ Hash g = Hash f
    /\ LastModifiedTimeUTC g = LastModifiedTimeUTC f
    /\ base_Size (file_base g) = base_Size (file_base f)
    /\ client (file_base g) = client (file_base f).
Proof.
  intros [[H ->] | [H ->]]; revert H; unfold File_Move, File_Rename, viaClient;
    (destruct (client (file_base f)) as [c |] eqn:Ec;
     [| unfold emptyArgument; destruct (_ || _); cbv [ret panic]; congruence]);
    intro H; apply try_inv in H; destruct H as (item & s1 & Hc & H);
    apply ret_inv in H; destruct H as [H <-]; inversion H; subst; cbn.
  - destruct (relocated_entry c _ _ _ true _ _ _ (or_intror (conj Hc eq_refl)))
      as (newPath & old & sa & sb & Ha & _ & Hp & Hn & Hl & _).
    exists newPath. auto 10.
  - destruct (relocated_entry c _ _ _ true _ _ _ (or_introl (conj Hc eq_refl)))
      as (newPath & old & sa & sb & Ha & _ & Hp & Hn & Hl & _).
    exists newPath. auto 10.
Qed.

(** ** One-time direct links *)

Lemma prefix_true_append (pre s0 : string) :
  prefix pre s0 = true -> exists rest, s0 = pre ++ rest.
Proof.
  revert s0. induction pre as [| c pre IH]; intros s0 H.
  - exists s0. reflexivity.
  - destruct s0 as [| d s0]; [discriminate |]. cbn in H.
    destruct (ascii_dec c d) as [<- | _]; [| discriminate].
    destruct (IH _ H) as [rest ->]. exists rest. reflexivity.
Qed.

Lemma getShardsInfo_inv c s (shards : ShardsList) s' :
  getShardsInfo transport c s = (Some (Ok shards), s') ->
  exists (w : World) (status : Z),
    transport w
      (GET (BaseMailRuCloud ++ "/api/v2/dispatcher?token="
              ++ authToken (client_Account c)))
    = (HTTPResponse status (BodyShards shards), world s').
Proof.
  unfold getShardsInfo. intro H.
  apply authorized_inv in H. destruct H as (s1 & H). cbv zeta in H.
  apply bind_inv in H. destruct H as (resp & s2 & Hdo & H).
  apply httpDo_inv in Hdo. destruct Hdo as [Ht _].
  destruct resp as [| st body]; [apply ret_inv in H; destruct H; discriminate |].
  destruct body; cbn [decodeShards] in H;
    apply ret_inv in H; destruct H as [H <-]; try discriminate.
  inversion H; subst. eauto.
Qed.

(** X24.  [GetFileOneTimeDirectLink] refuses a link that is empty or does not
    start with the public prefix, before the authorization check and
    without a request.  A link it returns is made of the address of the
    first weblink-get shard of the list the server sent in answer to the
    dispatcher request, the part of the public link after the prefix,
    and the token the server sent in answer to the download-token
    request. *)
Theorem GetFileOneTimeDirectLink_shape c (publicLink : string) s :
  ((publicLink = EmptyString
    \/ GoString.HasPrefix publicLink PublicLinkPrefix = false) ->
     GetFileOneTimeDirectLink transport c publicLink s =
     (Some (Err (CloudClientError EmptyString ErrorCodePathNotExists)), s))
  /\ (forall url s',
        GetFileOneTimeDirectLink transport c publicLink s = (Some (Ok url), s') ->
        exists (suffix token : string) (shards : ShardsList) (shard : ShardInfo)
               (rest : list ShardInfo) (w1 w1' w2 : World) (st1 st2 : Z),
          publicLink = PublicLinkPrefix ++ suffix
          /\ transport w1
               (POST (BaseMailRuCloud ++ "/api/v2/tokens/download")
                  (fields_delete "conflict" (getDefaultFormDataFields c [])))
             = (HTTPResponse st1 (BodyString token), w1')
          /\ transport w2
               (GET (BaseMailRuCloud ++ "/api/v2/dispatcher?token="
                       ++ authToken (client_Account c)))
             = (HTTPResponse st2 (BodyShards shards), world s')
          /\ WeblinkGet shards = shard :: rest
          /\ url = shard_URL shard ++ "/" ++ suffix ++ "?key=" ++ token).
Proof.
  unfold GetFileOneTimeDirectLink. split.
  - intros [-> | H]; [reflexivity |].
    rewrite H. now rewrite orb_true_r.
  - intros url s' H.
    destruct (String.eqb publicLink EmptyString); cbn [orb] in H;
      [apply ret_inv in H; destruct H; discriminate |].
    destruct (GoString.HasPrefix publicLink PublicLinkPrefix) eqn:Hp; cbn [negb] in H;
      [| apply ret_inv in H; destruct H; discriminate].
    destruct (prefix_true_append _ _ Hp) as [suffix ->].
    apply authorized_inv in H. destruct H as (s1 & H). cbv zeta in H.
    apply bind_inv in H. destruct H as (resp & s2 & Hdo & H).
    apply httpDo_inv in Hdo. destruct Hdo as [Ht _].
    destruct resp as [| st body]; [apply ret_inv in H; destruct H; discriminate |].
    destruct (decodeString body) as [token | e] eqn:Ed;
      [| apply ret_inv in H; destruct H; discriminate].
    apply decodeString_inv in Ed. subst body.
    apply try_inv in H. destruct H as (shards & s3 & Hsh & H).
    destruct (WeblinkGet shards) as [| shard rest] eqn:Ew;
      [apply ret_inv in H; destruct H; discriminate |].
    apply ret_inv in H. destruct H as [H <-].
    destruct (getShardsInfo_inv _ _ _ _ Hsh) as (w2 & st2 & Ht2).
    match type of H with
    | Ok ?x = Ok _ => assert (E : x = url) by congruence; rewrite <- E
    end.
    exists suffix, token, shards, shard, rest, (world s1), (world s2), w2, st, st2.
    split; [reflexivity |].
    split; [exact Ht |].
    split; [exact Ht2 |].
    split; [exact Ew |].
    rewrite ReplaceFirstWithEmpty_prefix by discriminate. reflexivity.
Qed.

(** ** Creating a folder *)

(** X25.  [CreateFolder] refuses the empty path without a request.  For any
    other path it sends, after two authorization probes, one request to
    the folder endpoint with the conflict policy "rename" and the path
    normalized with a slash at both ends, and returns a folder with the
    path the server sent, its last element as name, and no items. *)
Theorem CreateFolder_request c (fullFolderPath : string) s :
  (fullFolderPath = EmptyString ->
     CreateFolder transport c fullFolderPath s =
     (Some (Err (CloudClientError EmptyString ErrorCodePathNotExists)), s))
  /\ (forall status newPath w,
        fullFolderPath <> EmptyString ->
        transportReady (client_Account c) ->
        httpClient (client_Account c) = true ->
        let a := client_Account c in
        transport
          (world (afterAuth transport c (afterAuth transport c s)))
          (POST (BaseMailRuCloud ++ "/api/v2/folder/add")
             [("conflict", "rename"); ("api", "2"); ("token", authToken a);
              ("email", Email a); ("x-email", Email a);
              ("home", getPathStartEndSlash fullFolderPath true true)])
        = (HTTPResponse status (BodyString newPath), w) ->
        exists folder,
          fst (CreateFolder transport c fullFolderPath s) = Some (Ok folder)
          /\ FullPath (folder_base folder) = newPath
          /\ Name (folder_base folder) = GoString.Base newPath
          /\ Items folder = None
          /\ PublicLink (folder_base folder) = EmptyString
          /\ client (folder_base folder) = Some c).
Proof.
  split.
  - intros ->. reflexivity.
  - intros status newPath w Hne Hready Hc a Ht. subst a.
    unfold CreateFolder.
    destruct (String.eqb_spec fullFolderPath EmptyString); [contradiction |].
    rewrite authorized_run by exact Hready. cbv zeta.
    unfold try at 1. unfold bind at 1. unfold createFileOrFolder.
    rewrite authorized_run by exact Hready. cbv zeta.
    unfold getDefaultFormDataFields.
    rewrite getPathStartEndSlash_leading_nonempty.
    cbn [negb fields_set String.eqb Ascii.eqb Bool.eqb andb].
    change ("/api/v2/" ++ "folder" ++ "/add") with "/api/v2/folder/add".
    unfold bind at 1. unfold httpDo. rewrite Hc, Ht.
    cbn [decodeString]. cbv [ret]. cbn [fst snd].
    eexists. split; [reflexivity |]. cbn. repeat split.
Qed.

(** ** Logging in *)

Context (decodeRates : Body -> res (list Rate)).

Lemma initHttpClient_ready a : transportReady (initHttpClient a).
Proof. intro. reflexivity. Qed.

(** [Login] refuses an account without email or without password with a
    NotAuthorized error that names the missing field, before any request
    and without touching the account. *)
Theorem Login_requires_credentials a s :
  (Email a = EmptyString ->
     Login transport decodeRates a s = (Some (a, Some (NotAuthorizedError "Login")), s))
  /\ (Email a <> EmptyString -> Password a = EmptyString ->
     Login transport decodeRates a s =
     (Some (a, Some (NotAuthorizedError "Password")), s)).
Proof.
  unfold Login, Account_checkAuthorization, bind, ret. split.
  - intros ->. reflexivity.
  - intros He ->.
    destruct (String.eqb_spec (Email a) EmptyString); [contradiction | reflexivity].
Qed.

Lemma getRates_result a s (rates : list Rate) s' :
  getRates transport decodeRates a s = (Some (Ok rates), s') ->
  exists (decoded : list Rate) (body : Body) (w : World) (status : Z),
    transport w
      (GET (BaseMailRuCloud ++ "/api/v2/billing/rates?api=2&email=" ++ Email a
              ++ "&x-email=" ++ Email a ++ "&token=" ++ authToken a))
    = (HTTPResponse status body, world s')
    /\ decodeRates body = Ok decoded
    /\ rates = map rate_normalize decoded.
Proof.
  unfold getRates. intro H.
  apply bind_inv in H. destruct H as (err & s1 & _ & H).
  destruct err; [apply ret_inv in H; destruct H; discriminate |].
  cbv zeta in H.
  apply bind_inv in H. destruct H as (resp & s2 & Hdo & H).
  apply httpDo_inv in Hdo. destruct Hdo as [Ht _].
  destruct resp as [| st body]; [apply ret_inv in H; destruct H; discriminate |].
  assert (Hdec : match decodeRates body with
                 | Err e => ret (Err e)
                 | Ok rates0 => ret (Ok (map rate_normalize rates0))
                 end s2 = (Some (Ok rates), s')).
  { destruct body; try exact H.
    apply ret_inv in H. destruct H. discriminate. }
  clear H.
  destruct (decodeRates body) as [decoded | e0] eqn:Ed;
    [| apply ret_inv in Hdec; destruct Hdec; discriminate].
  apply ret_inv in Hdec. destruct Hdec as [H <-]. inversion H.
  exists decoded, body, (world s1), st. auto.
Qed.

(** X26.  A login that returns no error leaves an account with the same email
    and password, a cookie jar and an HTTP client.  Its token is the
    string, not empty, that the server sent in answer to the token
    request.  Its activated tariffs are the active ones of the list
    decoded from the answer of the server to the tariff request (the last
    request of the login), in the order of that list, each with its size
    computed from its byte count and with its ID as name where the
    server gave no name. *)
Theorem Login_establishes_session a a' s s' :
  Login transport decodeRates a s = (Some (a', None), s') ->
  Email a' = Email a /\ Password a' = Password a
  /\ Email a <> EmptyString /\ Password a <> EmptyString
  /\ authToken a' <> EmptyString
  /\ httpClient a' = true /\ cookies a' = true
  /\ transportReady a'
  /\ (exists (w0 w0' : World) (st0 : Z),
        transport w0 (GET (BaseMailRuCloud ++ "/api/v2/tokens/csrf"))
        = (HTTPResponse st0 (BodyString (authToken a')), w0'))
  /\ exists (decoded : list Rate) (body : Body) (w : World) (status : Z),
       transport w
         (GET (BaseMailRuCloud ++ "/api/v2/billing/rates?api=2&email=" ++ Email a
                 ++ "&x-email=" ++ Email a ++ "&token=" ++ authToken a'))
       = (HTTPResponse status body, world s')
       /\ decodeRates body = Ok decoded
       /\ ActivatedTariffs a' = filter rate_IsActive (map rate_normalize decoded)
       /\ Forall
            (fun rate =>
               rate_IsActive rate = true
               /\ rate_Size rate = Some (NewSize (rate_SizeBytes rate))
               /\ (rate_Name rate = EmptyString -> rate_ID rate = EmptyString))
            (ActivatedTariffs a').
Proof.
  unfold Login. intro H.
  apply bind_inv in H. destruct H as (err & s1 & Hbase & H).
  destruct err; [apply ret_inv in H; destruct H; discriminate |].
  assert (Hcred : Email a <> EmptyString /\ Password a <> EmptyString).
  { unfold Account_checkAuthorization in Hbase.
    destruct (String.eqb_spec (Email a) EmptyString);
      [apply ret_inv in Hbase; destruct Hbase; discriminate |].
    destruct (String.eqb_spec (Password a) EmptyString);
      [apply ret_inv in Hbase; destruct Hbase; discriminate |].
    auto. }
  cbv zeta in H.
  apply bind_inv in H. destruct H as (resp & s2 & _ & H).
  destruct resp as [| st body]; [apply ret_inv in H; destruct H; discriminate |].
  destruct (negb (st =? 200)); [apply ret_inv in H; destruct H; discriminate |].
  apply bind_inv in H. destruct H as (resp & s3 & _ & H).
  destruct resp as [| st2 body2]; [apply ret_inv in H; destruct H; discriminate |].
  destruct (negb (st2 =? 200)); [apply ret_inv in H; destruct H; discriminate |].
  apply bind_inv in H. destruct H as (resp & s4 & Htoken & H).
  apply httpDo_inv in Htoken. destruct Htoken as [Htoken _].
  destruct resp as [| st3 body3]; [apply ret_inv in H; destruct H; discriminate |].
  destruct (decodeString body3) as [token | e] eqn:Ed;
    [| apply ret_inv in H; destruct H; discriminate].
  apply decodeString_inv in Ed. subst body3.
  destruct (String.eqb_spec token EmptyString) as [| Htok];
    [apply ret_inv in H; destruct H; discriminate |].
  apply bind_inv in H. destruct H as (r & s5 & Hrates & H).
  destruct r as [rates | e]; [| apply ret_inv in H; destruct H; discriminate].
  apply ret_inv in H. destruct H as [H <-]. inversion H; subst a'; clear H.
  destruct (getRates_result _ _ _ _ Hrates)
    as (decoded & rbody & w & status & Ht & Hd & ->).
  cbn [Email Password authToken httpClient cookies ActivatedTariffs
       account_set_ActivatedTariffs account_set_authToken initHttpClient].
  destruct Hcred.
  do 7 (split; [solve [auto] |]).
  split; [unfold transportReady; auto |].
  split; [exists (world s3), (world s4), st3; exact Htoken |].
  exists decoded, rbody, w, status.
  split; [exact Ht |]. split; [exact Hd |]. split; [reflexivity |].
  apply Forall_forall. intros rate Hin.
  apply filter_In in Hin. destruct Hin as [Hin Hact].
  apply in_map_iff in Hin. destruct Hin as (d & <- & _).
  split; [exact Hact |]. split; [reflexivity |].
  cbn. destruct (String.eqb_spec (rate_Name d) EmptyString); [auto | contradiction].
Qed.

(** X27.  The invariant behind every other operation: an account keeps its
    HTTP client whenever it has what the authorization check asks for.
    A new account has it (its token is empty), and [Login] keeps it,
    however it ends. *)
Theorem Login_keeps_transportReady a a' (e : option error) s s' :
  transportReady (NewAccount (Email a) (Password a))
  /\ (transportReady a ->
      Login transport decodeRates a s = (Some (a', e), s') ->
      transportReady a').
Proof.
  split.
  { unfold transportReady, probes, NewAccount. cbn.
    rewrite !andb_false_r. discriminate. }
  intros Hready H. unfold Login in H.
  assert (Hstep : forall (b : Account) (x : option error) sx,
             httpClient b = true ->
             (ret (b, x) : M' _) sx = (Some (a', e), s') -> transportReady a').
  { intros b x sx Hb Hr. apply ret_inv in Hr. destruct Hr as [Hr _].
    inversion Hr; subst. intro. exact Hb. }
  apply bind_inv in H. destruct H as (err & s1 & _ & H).
  destruct err.
  { apply ret_inv in H. destruct H as [H _]. inversion H; subst. exact Hready. }
  cbv zeta in H.
  apply bind_inv in H. destruct H as (resp & s2 & _ & H).
  destruct resp as [| st body]; [eapply Hstep; [| exact H]; reflexivity |].
  destruct (negb (st =? 200)); [eapply Hstep; [| exact H]; reflexivity |].
  apply bind_inv in H. destruct H as (resp & s3 & _ & H).
  destruct resp as [| st2 body2]; [eapply Hstep; [| exact H]; reflexivity |].
  destruct (negb (st2 =? 200)); [eapply Hstep; [| exact H]; reflexivity |].
  apply bind_inv in H. destruct H as (resp & s4 & _ & H).
  destruct resp as [| st3 body3]; [eapply Hstep; [| exact H]; reflexivity |].
  destruct (decodeString body3) as [token | e0];
    [| eapply Hstep; [| exact H]; reflexivity].
  destruct (String.eqb token EmptyString);
    [eapply Hstep; [| exact H]; reflexivity |].
  apply bind_inv in H. destruct H as (r & s5 & _ & H).
  destruct r as [rates | e0]; eapply Hstep; try exact H; reflexivity.
Qed.

End ClientFacts.

(* ================================================================== *)
(** * More on paths *)

(** X29.  A normalized path has single forward slashes as its only
    separators, starts with a slash when the leading one is asked for
    and ends with a slash when the trailing one is asked for. *)
Theorem getPathStartEndSlash_shape (path : string) (setAtStart setAtEnd : bool) :
  separatorsCollapsed false (getPathStartEndSlash path setAtStart setAtEnd) = true
  /\ (exists rest, getPathStartEndSlash path true setAtEnd = "/" ++ rest)
  /\ (exists rest, getPathStartEndSlash path setAtStart true = rest ++ "/").
Proof.
  split; [apply getPathStartEndSlash_separatorsCollapsed |].
  split; [apply getPathStartEndSlash_leading | apply getPathStartEndSlash_trailing].
Qed.

Lemma LastIndex_from_slash_cut (s : string) (i : Z) :
  GoString.LastIndex_from i s "/" <> -1 ->
  exists t,
    substring 0 (Z.to_nat (GoString.LastIndex_from i s "/" - i + 1)) s = t ++ "/".
Proof.
  revert i. induction s as [| c r IH]; intros i H.
  - elim H. reflexivity.
  - cbn [GoString.LastIndex_from] in *.
    destruct (Z.eqb_spec (GoString.LastIndex_from (i + 1) r "/") (-1)) as [E | NE].
    + cbn [prefix] in *.
      destruct (ascii_dec "/" c) as [<- | _]; [| elim H; reflexivity].
      assert (Hp : prefix EmptyString r = true) by (destruct r; reflexivity).
      rewrite Hp.
      exists EmptyString.
      replace (Z.to_nat (i - i + 1)) with 1%nat by lia.
      cbn. destruct r; reflexivity.
    + destruct (IH (i + 1) NE) as [t Ht].
      destruct (LastIndex_from_slash_range r (i + 1)) as [E | L]; [contradiction |].
      exists (String c t).
      replace (Z.to_nat (GoString.LastIndex_from (i + 1) r "/" - i + 1))
        with (S (Z.to_nat (GoString.LastIndex_from (i + 1) r "/" - (i + 1) + 1)))
        by lia.
      cbn [substring append]. now rewrite Ht.
Qed.

(** X30.  The parent of a path is never empty and always ends with a slash,
    so a name can be appended to it as it is. *)
Theorem getParentCloudPath_shape (path : string) :
  getParentCloudPath path <> EmptyString
  /\ exists rest, getParentCloudPath path = rest ++ "/".
Proof.
  split; [apply getParentCloudPath_nonempty |].
  unfold getParentCloudPath.
  set (p := GoString.TrimSuffix path "/").
  destruct (Z.eqb_spec (GoString.LastIndex p "/") (-1)) as [E | NE].
  - exists EmptyString. reflexivity.
  - unfold GoString.LastIndex in *.
    destruct (LastIndex_from_slash_cut p 0 NE) as [t Ht].
    exists t. unfold GoString.slice.
    replace (Z.to_nat (GoString.LastIndex_from 0 p "/" + 1 - 0))
      with (Z.to_nat (GoString.LastIndex_from 0 p "/" - 0 + 1)) by lia.
    exact Ht.
Qed.

(* ================================================================== *)
(** * Concrete runs

    Each lemma below applies one of the theorems above to a run against
    the scripted world. *)

Lemma checkAuthorization_never_fails_witness :
  let run := checkAuthorization Script.transport Script.freeClient
               (Script.start [HTTPResponse 403 BodyMalformed]) in
  fst run = Some None /\ trace (snd run) = [probeRequest Script.freeAccount].
Proof.
  intro run. split; [| vm_compute; reflexivity].
  assert (E : exists r, fst run = Some r) by (vm_compute; eauto).
  destruct E as [r E]. rewrite E. f_equal.
  exact (checkAuthorization_never_fails Script.transport _ _ r E).
Defined.

Lemma NewCloudClient_accepts_every_account_witness :
  let run := NewCloudClient Script.transport (Some Script.freshAccount)
               (Script.start []) in
  probes Script.freshAccount = false
  /\ fst run = Some (Ok Script.freshClient).
Proof.
  intro run. split; [reflexivity |].
  assert (E : exists r, fst run = Some r) by (vm_compute; eauto).
  destruct E as [r E]. rewrite E. f_equal.
  exact (NewCloudClient_accepts_every_account Script.transport _ _ r E).
Defined.

Lemma RestoreFileFromHistory_guards_witness :
  fst (RestoreFileFromHistory Script.transport Script.ToLower Script.paidClient
         "/f/a.txt" 0 false "b" (Script.start []))
  = Some (Err (CloudClientError EmptyString ErrorCodeHistoryNotExists))
  /\ fst (RestoreFileFromHistory Script.transport Script.ToLower Script.freeClient
            "/f/a.txt" 1 false "b" (Script.start []))
     = Some (Err (CloudClientError EmptyString ErrorCodeNotSupportedOperation))
  /\ fst (RestoreFileFromHistory Script.transport Script.ToLower Script.paidClient
            "/f/a.txt" 7 false "b"
            (Script.start
               [Script.diskOK;
                HTTPResponse 200
                  (BodyHistory [Script.revision 2 false; Script.revision 1 false])]))
     = Some (Err (CloudClientError "historyRevision" ErrorCodeHistoryNotExists)).
Proof.
  split; [| split].
  - destruct (RestoreFileFromHistory_guards Script.transport Script.ToLower
                Script.paidClient "/f/a.txt" 0 false "b" (Script.start []))
      as (H & _).
    rewrite H by lia. reflexivity.
  - destruct (RestoreFileFromHistory_guards Script.transport Script.ToLower
                Script.freeClient "/f/a.txt" 1 false "b" (Script.start []))
      as (_ & H & _).
    rewrite H by (try lia; reflexivity). reflexivity.
  - destruct (RestoreFileFromHistory_guards Script.transport Script.ToLower
                Script.paidClient "/f/a.txt" 7 false "b"
                (Script.start
                   [Script.diskOK;
                    HTTPResponse 200
                      (BodyHistory [Script.revision 2 false; Script.revision 1 false])]))
      as (_ & _ & H).
    erewrite H; [reflexivity | lia | reflexivity | vm_compute; reflexivity |].
    intros h [<- | [<- | []]]; vm_compute; discriminate.
Defined.

Lemma GetFileHistory_result_witness :
  exists histories s',
    GetFileHistory Script.transport Script.freeClient "/f/a.txt"
      (Script.start
         [Script.diskOK;
          HTTPResponse 200
            (BodyHistory [Script.revision 2 false; Script.revision 1 true])])
    = (Some (Ok histories), s')
    /\ map h_IsCurrentVersion histories = [true; true]
    /\ currentCount histories = 2%nat.
Proof.
  eexists. eexists. split; [vm_compute; reflexivity |].
  match goal with
  | |- map _ ?h = _ /\ _ =>
      destruct (GetFileHistory_result Script.transport Script.freeClient "/f/a.txt"
                  (Script.start
                     [Script.diskOK;
                      HTTPResponse 200
                        (BodyHistory [Script.revision 2 false; Script.revision 1 true])])
                  h _ ltac:(vm_compute; reflexivity))
        as (decoded & w1 & req & status & w2 & _ & _ & Hflags & _)
  end.
  split; [| reflexivity]. reflexivity.
Defined.

Lemma GetFileHistory_failures_witness :
  fst (GetFileHistory Script.transport Script.freeClient EmptyString (Script.start []))
  = Some (Err (CloudClientError EmptyString ErrorCodePathNotExists))
  /\ errorCodeOf_run
       (GetFileHistory Script.transport Script.freeClient "/f/none.txt"
          (Script.start [Script.diskOK; Script.notFound]))
     = Some (Some ErrorCodePathNotExists).
Proof.
  split.
  - destruct (GetFileHistory_failures Script.transport Script.freeClient
                EmptyString (Script.start [])) as (H & _).
    rewrite H; reflexivity.
  - destruct (GetFileHistory_failures Script.transport Script.freeClient
                "/f/none.txt" (Script.start [Script.diskOK; Script.notFound]))
      as (_ & H).
    eapply H; [discriminate | intro; reflexivity | reflexivity |].
    vm_compute. reflexivity.
Defined.

Lemma GetFolder_result_witness :
  exists f s',
    GetFolder Script.transport Script.freeClient ["/f"]
      (Script.start [Script.diskOK; Script.listingF]) = (Some (Ok (Some f)), s')
    /\ FilesCount f = 0 /\ FoldersCount f = 0
    /\ Items f = entry_List Script.folderF.
Proof.
  eexists. eexists. split; [vm_compute; reflexivity |].
  match goal with
  | |- FilesCount ?f = _ /\ _ =>
      destruct (GetFolder_result Script.transport Script.freeClient ["/f"]
                  (Script.start [Script.diskOK; Script.listingF])
                  f _ ltac:(vm_compute; reflexivity))
        as (e & count & w1 & req & w2 & _ & _ & _ & _ & H1 & H2 & _)
  end.
  split; [exact H1 |]. split; [exact H2 | reflexivity].
Defined.

Lemma GetFolder_not_found_witness :
  fst (GetFolder Script.transport Script.freeClient ["/none"]
         (Script.start [Script.diskOK; Script.notFound]))
  = Some (Ok None).
Proof.
  eapply (GetFolder_not_found Script.transport Script.freeClient ["/none"]
            (Script.start [Script.diskOK; Script.notFound]) 404);
    [intro; reflexivity | reflexivity | vm_compute; reflexivity | discriminate].
Defined.

Lemma GetFolders_elements_witness :
  exists f' subs s',
    GetFolders Script.transport Script.clock Script.cachedF (Script.start [])
    = (Some (f', subs), s')
    /\ Forall
         (fun sub =>
            Items sub = Some []
            /\ FilesCount sub + FoldersCount sub = 2)
         subs
    /\ List.length subs = 1%nat.
Proof.
  eexists. eexists. eexists. split; [vm_compute; reflexivity |].
  split; [| reflexivity].
  match goal with
  | |- Forall _ ?subs =>
      pose proof (GetFolders_elements Script.transport Script.clock Script.cachedF
                    _ (Script.start []) subs _ ltac:(vm_compute; reflexivity)) as H
  end.
  clear H. repeat constructor.
Defined.

Lemma checkUnknownItemExisting_missing_witness :
  fst (checkUnknownItemExisting Script.transport Script.clock Script.freeClient
         "/f/missing.txt" (Script.start [Script.diskOK; Script.listingF]))
  = Some (Err (CloudClientError "sourceFullPath" ErrorCodePathNotExists)).
Proof.
  erewrite (checkUnknownItemExisting_missing Script.transport Script.clock
              Script.freeClient "/f/missing.txt"
              (Script.start [Script.diskOK; Script.listingF]));
    [reflexivity
    | vm_compute; reflexivity
    | vm_compute; reflexivity
    | repeat constructor; vm_compute; discriminate
    | vm_compute; reflexivity
    | repeat constructor; vm_compute; discriminate ].
Defined.

Lemma checkUnknownItemExisting_nil_parent_witness :
  fst (checkUnknownItemExisting Script.transport Script.clock Script.freeClient
         "/none/a.txt" (Script.start [Script.diskOK; Script.notFound]))
  = None.
Proof.
  erewrite (checkUnknownItemExisting_nil_parent Script.transport Script.clock
              Script.freeClient "/none/a.txt"
              (Script.start [Script.diskOK; Script.notFound]));
    [reflexivity | vm_compute; reflexivity].
Defined.

Lemma publishUnpublishInternal_error_kinds_witness :
  fst (Unpublish Script.transport Script.clock Script.freeClient EmptyString
         (Script.start []))
  = Some (Err (CloudClientError EmptyString ErrorCodePathNotExists))
  /\ fst (Unpublish Script.transport Script.clock Script.freeClient "nonexistent"
            (Script.start [Script.diskOK; Script.notFound]))
     = Some (Err (CloudClientError "link" ErrorCodePublicLinkNotExists))
  /\ fst (Publish Script.transport Script.clock Script.freeClient "/f/a.txt"
            (Script.start
               [Script.diskOK; Script.diskOK; Script.listingF; Script.notFound]))
     = Some (Err (CloudClientError "link" ErrorCodePathNotExists)).
Proof.
  split; [| split].
  - destruct (publishUnpublishInternal_error_kinds Script.transport Script.clock
                Script.freeClient EmptyString (Script.start [])) as (H & _).
    unfold Unpublish. rewrite H; reflexivity.
  - destruct (publishUnpublishInternal_error_kinds Script.transport Script.clock
                Script.freeClient "nonexistent"
                (Script.start [Script.diskOK; Script.notFound])) as (_ & H & _).
    eapply (H 404);
      [discriminate | intro; reflexivity | reflexivity
      | vm_compute; reflexivity | left; reflexivity].
  - destruct (publishUnpublishInternal_error_kinds Script.transport Script.clock
                Script.freeClient "/f/a.txt"
                (Script.start
                   [Script.diskOK; Script.diskOK; Script.listingF; Script.notFound]))
      as (_ & _ & H).
    eapply (H _ _ 404);
      [discriminate | intro; reflexivity | reflexivity
      | vm_compute; reflexivity | vm_compute; reflexivity | left; reflexivity].
Defined.

Lemma publishUnpublishInternal_link_wellFormed_witness :
  exists item s',
    Publish Script.transport Script.clock Script.freeClient "/f/a.txt"
      (Script.start
         [Script.diskOK; Script.diskOK; Script.listingF; Script.answer "AbCd/ef"])
    = (Some (Ok item), s')
    /\ PublicLink item = "https://cloud.mail.ru/public/AbCd/ef"
    /\ linkWellFormed (PublicLink item).
Proof.
  eexists. eexists. split; [vm_compute; reflexivity |].
  split; [reflexivity |].
  eapply (publishUnpublishInternal_link_wellFormed Script.transport Script.clock
            Script.freeClient "/f/a.txt" true
            (Script.start
               [Script.diskOK; Script.diskOK; Script.listingF;
                Script.answer "AbCd/ef"])).
  vm_compute. reflexivity.
Defined.

Lemma Unpublish_without_link_is_noop_witness :
  File_Unpublish Script.transport Script.clock Script.fileA (Script.start [])
  = (Some (Ok Script.fileA), Script.start [])
  /\ Folder_Unpublish Script.transport Script.clock Script.cachedF (Script.start [])
     = (Some (Ok Script.cachedF), Script.start []).
Proof.
  destruct (Unpublish_without_link_is_noop Script.transport Script.clock
              Script.fileA Script.cachedF (Script.start [])) as (H1 & H2).
  split; [apply H1; reflexivity | apply H2; reflexivity].
Defined.

Lemma GetDirectLinkZIPArchive_guards_witness :
  GetDirectLinkZIPArchive Script.transport Script.clock Script.ToLower
    Script.freeClient ["/f/a.txt"; "/"] "a.zip" (Script.start [])
  = (Some (Err (CloudClientError EmptyString ErrorCodePathNotExists)),
     Script.start []).
Proof.
  apply GetDirectLinkZIPArchive_guards.
  right. exists "/". split; [right; left; reflexivity | right; reflexivity].
Defined.

Lemma GetDirectLinkZIPArchive_common_parent_witness :
  (let run :=
     GetDirectLinkZIPArchive Script.transport Script.clock Script.ToLower
       Script.freeClient ["/f/a.txt"; "/g/b.txt"] "a.zip"
       (Script.start [Script.diskOK]) in
   fst run = Some (Err (CloudClientError "filesAndFoldersPaths"
                          ErrorCodeDifferentParentPaths))
   /\ trace (snd run) = [probeRequest Script.freeAccount])
  /\ (let run :=
        GetDirectLinkZIPArchive Script.transport Script.clock Script.ToLower
          Script.freeClient ["/f/a.txt"; "/f/b.txt"] "a.zip"
          (Script.start [Script.diskOK; Script.answer "https://zip.example/a.zip"]) in
      exists req : Request Script.Bytes,
        isZipRequest req = true
        /\ trace (snd run) = [probeRequest Script.freeAccount; req]).
Proof.
  split.
  - destruct (GetDirectLinkZIPArchive_common_parent Script.transport Script.clock
                Script.ToLower Script.freeClient ["/f/a.txt"; "/g/b.txt"] "a.zip"
                (Script.start [Script.diskOK]))
      as (H & _); [intro; reflexivity | discriminate | reflexivity |].
    apply H. intro Hs. apply commonPathLoop_sameParents in Hs.
    vm_compute in Hs. discriminate.
  - destruct (GetDirectLinkZIPArchive_common_parent Script.transport Script.clock
                Script.ToLower Script.freeClient ["/f/a.txt"; "/f/b.txt"] "a.zip"
                (Script.start [Script.diskOK; Script.answer "https://zip.example/a.zip"]))
      as (_ & H); [intro; reflexivity | discriminate | reflexivity |].
    destruct H as (req & Hz & _ & Ht & _).
    + apply commonPathLoop_sameParents. vm_compute. reflexivity.
    + reflexivity.
    + exists req. split; [exact Hz | exact Ht].
Defined.

Lemma GetFiles_reuses_cache_witness :
  exists files,
    GetFiles Script.transport Script.clock Script.cachedF (Script.start [])
    = (Some (Script.cachedF, files), Script.start [])
    /\ map (fun f => Name (file_base f)) files = ["a.txt"].
Proof.
  eexists. split.
  - erewrite (GetFiles_reuses_cache Script.transport Script.clock Script.cachedF
                (Script.start []));
      [reflexivity | reflexivity | reflexivity | reflexivity | vm_compute; discriminate].
  - reflexivity.
Defined.

Lemma updateFolderInfo_frame_witness :
  exists f' s',
    updateFolderInfo Script.transport Script.clock Script.cachedF true
      (Script.start [Script.diskOK; Script.listingF]) = (Some f', s')
    /\ FullPath (folder_base f') = "/f"
    /\ client (folder_base f') = Some Script.freeClient.
Proof.
  eexists. eexists. split; [vm_compute; reflexivity |].
  match goal with
  | |- FullPath (folder_base ?f) = _ /\ _ =>
      destruct (updateFolderInfo_frame Script.transport Script.clock Script.cachedF
                  f true (Script.start [Script.diskOK; Script.listingF]) _
                  ltac:(vm_compute; reflexivity))
        as (_ & H2 & _ & H4 & _)
  end.
  split; [exact H2 | exact H4].
Defined.

Lemma Remove_ignores_the_answer_witness :
  fst (Remove Script.transport Script.freeClient "/f/none.txt"
         (Script.start [Script.diskOK; Script.notFound]))
  = Some None.
Proof.
  destruct (Remove_ignores_the_answer Script.transport Script.freeClient
              "/f/none.txt" (Script.start [Script.diskOK; Script.notFound]))
    as (_ & H).
  eapply (H 404);
    [discriminate | intro; reflexivity | reflexivity | vm_compute; reflexivity].
Defined.

Lemma relocation_result_witness :
  exists item s',
    Rename Script.transport Script.clock Script.ToLower Script.freeClient
      "/f/a.txt" "b"
      (Script.start
         [Script.diskOK; Script.diskOK; Script.listingF; Script.answer "/f/b.txt"])
    = (Some (Ok item), s')
    /\ exists newPath,
         answered Script.transport s' "https://cloud.mail.ru/api/v2/file/rename"
           (BodyString newPath)
         /\ FullPath item = newPath
         /\ Name item = GoString.Base newPath
         /\ PublicLink item = EmptyString.
Proof.
  eexists. eexists. split; [vm_compute; reflexivity |].
  edestruct (relocation_result Script.transport Script.clock Script.ToLower
               Script.freeClient "/f/a.txt" "b"
               "https://cloud.mail.ru/api/v2/file/rename" true
               (Script.start
                  [Script.diskOK; Script.diskOK; Script.listingF;
                   Script.answer "/f/b.txt"]))
    as (newPath & old & sa & sb & Ha & _ & Hp & Hn & Hl & _);
    [left; split; [vm_compute; reflexivity | reflexivity] |].
  exists newPath. auto.
Defined.

Lemma moveOrCopyInternal_missing_destination_witness :
  exists req : Request Script.Bytes,
    URL req = "https://cloud.mail.ru/api/v2/file/copy"
    /\ In ("folder", "/nowhere") (Form req)
    /\ In req
         (trace (snd (moveOrCopyInternal Script.transport Script.clock
                        Script.freeClient "/f/a.txt" "/nowhere" false
                        (Script.start
                           [Script.diskOK; Script.diskOK; Script.listingF;
                            Script.diskOK; Script.notFound])))).
Proof.
  edestruct (moveOrCopyInternal_missing_destination Script.transport Script.clock
               Script.freeClient "/f/a.txt" "/nowhere" false
               (Script.start
                  [Script.diskOK; Script.diskOK; Script.listingF;
                   Script.diskOK; Script.notFound]))
    as (req & Hu & Hf & Ht);
    [discriminate | discriminate | intro; reflexivity | reflexivity
    | vm_compute; reflexivity | vm_compute; reflexivity |].
  exists req. split; [exact Hu |]. split; [exact Hf |].
  rewrite Ht. apply in_or_app. right. left. reflexivity.
Defined.

Lemma Folder_CreateFolder_refuses_nested_witness :
  Folder_CreateFolder Script.transport Script.clock Script.cachedF "a/b"
    (Script.start [])
  = (Some (Script.cachedF,
           Err (CloudClientError EmptyString ErrorCodePathNotExists)),
     Script.start []).
Proof.
  apply Folder_CreateFolder_refuses_nested. reflexivity.
Defined.

Lemma File_Copy_result_witness :
  exists g s',
    File_Copy Script.transport Script.clock Script.fileA "/g"
      (Script.start
         [Script.diskOK; Script.diskOK; Script.listingF; Script.diskOK;
          Script.notFound; Script.answer "/g/a.txt"])
    = (Some (Ok g), s')
    /\ exists newPath,
         answered Script.transport s' "https://cloud.mail.ru/api/v2/file/copy"
           (BodyString newPath)
         /\ FullPath (file_base g) = newPath
         /\ Name (file_base g) = GoString.Base newPath
         /\ PublicLink (file_base g) = EmptyString
         /\ Hash g = Hash Script.fileA.
Proof.
  eexists. eexists. split; [vm_compute; reflexivity |].
  match goal with
  | |- context [file_base ?g] =>
      edestruct (File_Copy_result Script.transport Script.clock Script.ToLower
                   Script.fileA g "/g"
                   (Script.start
                      [Script.diskOK; Script.diskOK; Script.listingF;
                       Script.diskOK; Script.notFound; Script.answer "/g/a.txt"]))
        as (newPath & Ha & Hp & Hn & Hl & Hh & _);
        [vm_compute; reflexivity |]
  end.
  exists newPath. auto.
Defined.

Lemma File_Move_Rename_result_witness :
  exists g s',
    File_Rename Script.transport Script.clock Script.ToLower Script.fileA "b"
      (Script.start
         [Script.diskOK; Script.diskOK; Script.listingF; Script.answer "/f/b.txt"])
    = (Some (Ok g), s')
    /\ exists newPath,
         answered Script.transport s' "https://cloud.mail.ru/api/v2/file/rename"
           (BodyString newPath)
         /\ FullPath (file_base g) = newPath
         /\ Name (file_base g) = GoString.Base newPath
         /\ PublicLink (file_base g) = EmptyString
         /\ Hash g = Hash Script.fileA.
Proof.
  eexists. eexists. split; [vm_compute; reflexivity |].
  match goal with
  | |- context [file_base ?g] =>
      edestruct (File_Move_Rename_result Script.transport Script.clock
                   Script.ToLower Script.fileA g "b"
                   "https://cloud.mail.ru/api/v2/file/rename"
                   (Script.start
                      [Script.diskOK; Script.diskOK; Script.listingF;
                       Script.answer "/f/b.txt"]))
        as (newPath & Ha & Hp & Hn & Hl & Hh & _);
        [right; split; [vm_compute; reflexivity | reflexivity] |]
  end.
  exists newPath. auto.
Defined.

Lemma GetFileOneTimeDirectLink_shape_witness :
  fst (GetFileOneTimeDirectLink Script.transport Script.freeClient "/f/a.txt"
         (Script.start []))
  = Some (Err (CloudClientError EmptyString ErrorCodePathNotExists))
  /\ exists url s',
       GetFileOneTimeDirectLink Script.transport Script.freeClient
         "https://cloud.mail.ru/public/AbCd/ef"
         (Script.start
            [Script.diskOK; Script.answer "KEY"; Script.diskOK;
             HTTPResponse 200 (BodyShards Script.shards)])
       = (Some (Ok url), s')
       /\ url = "https://shard.example/weblink/AbCd/ef?key=KEY".
Proof.
  split.
  - destruct (GetFileOneTimeDirectLink_shape Script.transport Script.freeClient
                "/f/a.txt" (Script.start [])) as (H & _).
    rewrite H; [reflexivity | right; reflexivity].
  - eexists. eexists. split; [vm_compute; reflexivity |].
    match goal with
    | |- ?url = _ =>
        destruct (GetFileOneTimeDirectLink_shape Script.transport Script.freeClient
                    "https://cloud.mail.ru/public/AbCd/ef"
                    (Script.start
                       [Script.diskOK; Script.answer "KEY"; Script.diskOK;
                        HTTPResponse 200 (BodyShards Script.shards)]))
          as (_ & H);
        destruct (H url _ ltac:(vm_compute; reflexivity))
          as (suffix & token & shards & shard & rest & w1 & w1' & w2 & st1 & st2
              & _ & _ & _ & _ & _)
    end.
    reflexivity.
Defined.

Lemma CreateFolder_request_witness :
  exists folder,
    fst (CreateFolder Script.transport Script.freeClient "t\\new"
           (Script.start [Script.diskOK; Script.diskOK; Script.answer "/t/new"]))
    = Some (Ok folder)
    /\ FullPath (folder_base folder) = "/t/new"
    /\ Name (folder_base folder) = "new".
Proof.
  destruct (CreateFolder_request Script.transport Script.freeClient "t\\new"
              (Script.start [Script.diskOK; Script.diskOK; Script.answer "/t/new"]))
    as (_ & H).
  edestruct (H 200 "/t/new") as (folder & H1 & H2 & H3 & _);
    [discriminate | intro; reflexivity | reflexivity | vm_compute; reflexivity |].
  exists folder. split; [exact H1 |]. split; [exact H2 | exact H3].
Defined.

Lemma Login_requires_credentials_witness :
  Login Script.transport Script.decodeRates (NewAccount EmptyString "secret")
    (Script.start [])
  = (Some (NewAccount EmptyString "secret", Some (NotAuthorizedError "Login")),
     Script.start []).
Proof.
  destruct (Login_requires_credentials Script.transport Script.decodeRates
              (NewAccount EmptyString "secret") (Script.start [])) as (H & _).
  apply H. reflexivity.
Defined.

Lemma Login_establishes_session_witness :
  exists a' s',
    Login Script.transport Script.decodeRates (NewAccount "user@mail.ru" "secret")
      (Script.start
         [Script.answer "ok"; Script.answer "ok"; Script.answer "token";
          Script.diskOK; Script.answer "rates"])
    = (Some (a', None), s')
    /\ authToken a' <> EmptyString /\ httpClient a' = true
    /\ map rate_ID (ActivatedTariffs a') = ["ZERO"]
    /\ map rate_Name (ActivatedTariffs a') = ["ZERO"].
Proof.
  eexists. eexists. split; [vm_compute; reflexivity |].
  match goal with
  | |- authToken ?a' <> _ /\ _ =>
      destruct (Login_establishes_session Script.transport Script.decodeRates
                  (NewAccount "user@mail.ru" "secret") a'
                  (Script.start
                     [Script.answer "ok"; Script.answer "ok"; Script.answer "token";
                      Script.diskOK; Script.answer "rates"]) _
                  ltac:(vm_compute; reflexivity))
        as (_ & _ & _ & _ & H5 & H6 & _)
  end.
  split; [exact H5 |]. split; [exact H6 |]. split; reflexivity.
Defined.

Lemma Login_keeps_transportReady_witness :
  exists a' e s',
    Login Script.transport Script.decodeRates (NewAccount "user@mail.ru" "secret")
      (Script.start [Script.answer "ok"; Script.notFound])
    = (Some (a', Some e), s')
    /\ transportReady a'.
Proof.
  eexists. eexists. eexists. split; [vm_compute; reflexivity |].
  match goal with
  | |- transportReady ?a' =>
      destruct (Login_keeps_transportReady Script.transport Script.decodeRates
                  (NewAccount "user@mail.ru" "secret") a'
                  (Some (OtherError "sdc status"))
                  (Script.start [Script.answer "ok"; Script.notFound])
                  {| world := []; 
                     trace := [POST "https://auth.mail.ru/cgi-bin/auth"
                                 [("Login", "user@mail.ru"); ("Domain", "mail.ru");
                                  ("Password", "secret")];
                               GET "https://auth.mail.ru/sdc?from=https://cloud.mail.ru/home"];
                     progress := [] |})
        as (H0 & H)
  end.
  apply H; [exact H0 | vm_compute; reflexivity].
Defined.

Lemma UploadFileFromStream_size_ceiling_witness :
  fst (UploadFileFromStream Script.byteLen Script.transport Script.clock
         Script.freeClient "x.bin" (Ok 0%N) "/f" (Script.start [Script.diskOK]))
  = Some (Err (CloudClientError EmptyString ErrorCodePathNotExists))
  /\ fst (UploadFileFromStream Script.byteLen Script.transport Script.clock
            Script.freeClient "x.bin" (Ok 2147483649%N) "/f"
            (Script.start [Script.diskOK; Script.diskOK; Script.listingF]))
     = Some (Err (CloudClientError "content" ErrorCodeUploadingSizeLimit))
  /\ fst (UploadFileFromStream Script.byteLen Script.transport Script.clock
            Script.paidClient "x.bin" (Ok 2147483649%N) "/f"
            (Script.start [Script.diskOK; Script.diskOK; Script.listingF]))
     = Some (Err (OtherError "transport")).
Proof.
  split; [| split].
  - destruct (UploadFileFromStream_size_ceiling Script.byteLen Script.transport
                Script.clock Script.freeClient "x.bin" (Ok 0%N) "/f"
                (Script.start [Script.diskOK]))
      as (_ & H & _); [intro; reflexivity |].
    destruct (H 0%N eq_refl eq_refl) as [H1 _]. rewrite H1. reflexivity.
  - destruct (UploadFileFromStream_size_ceiling Script.byteLen Script.transport
                Script.clock Script.freeClient "x.bin" (Ok 2147483649%N) "/f"
                (Script.start [Script.diskOK; Script.diskOK; Script.listingF]))
      as (_ & _ & H & _); [intro; reflexivity |].
    destruct (H 2147483649%N eq_refl ltac:(vm_compute; reflexivity)) as (_ & _ & H3).
    erewrite H3; [reflexivity | discriminate | vm_compute; reflexivity].
  - destruct (UploadFileFromStream_size_ceiling Script.byteLen Script.transport
                Script.clock Script.paidClient "x.bin" (Ok 2147483649%N) "/f"
                (Script.start [Script.diskOK; Script.diskOK; Script.listingF]))
      as (_ & _ & _ & H); [intro; reflexivity |].
    edestruct (H 2147483649%N) as (H1 & _);
      [reflexivity | discriminate | vm_compute; discriminate | discriminate
      | vm_compute; reflexivity |].
    rewrite H1. vm_compute. reflexivity.
Defined.
